(** * Ethical phishing-simulation platform: engagement tracking, dispatch
      and metrics

    A shallow embedding of the Flask application's core:
    - [database/models.py]      the tables (records below), token creation
                                and [Target.full_name];
    - [utils/security.py]       [rate_limit_check], [validate_template_variables],
                                [validate_email], [mask_email],
                                [sanitize_filename];
    - [utils/validators.py]     the field validators
                                [TemplateForm.validate_html_content] and
                                [TargetForm.validate_email];
    - [utils/helpers.py]        [render_template_content],
                                [calculate_campaign_metrics],
                                [parse_target_csv], [time_ago];
    - [routes/tracking.py]      [track_open], [track_click], [track_submission];
    - [routes/campaigns.py]     [send_campaign], [pause_campaign],
                                [complete_campaign], [delete_campaign],
                                [manage_targets], [handle_csv_import],
                                [handle_manual_target];
    - [services/email_service.py] the [EmailSender] dispatcher.

    Python [str] values are modelled by [string] (code points below 256),
    SQL tables by lists of rows in insertion order, the ORM session by
    explicit passing of the database value, and instants by integers
    (seconds). *)

From Stdlib Require Import ZArith List String Ascii Bool Lia.
From Stdlib Require Import PrimFloat FloatOps Uint63 SpecFloat.
From Stdlib Require Import DecimalString DecimalPos Permutation.
Import ListNotations.

Open Scope string_scope.
Open Scope Z_scope.

(* ================================================================== *)
(** * Python string primitives *)
(* ================================================================== *)

Module Py.

(** [s.startswith(p)]. *)
Fixpoint startswith (p s : string) : bool :=
  match p with
  | EmptyString => true
  | String a p' =>
      match s with
      | EmptyString => false
      | String b s' => Ascii.eqb a b && startswith p' s'
      end
  end.

(** [p in s] for strings. *)
Fixpoint contains (p s : string) : bool :=
  startswith p s ||
  match s with
  | EmptyString => false
  | String _ s' => contains p s'
  end.

(** [s.replace(old, new)] for a non-empty [old]: leftmost non-overlapping
    occurrences, scanned left to right.  [skip] counts the characters of
    the occurrence just replaced that are still to be passed over. *)
Fixpoint replace_from (old new : string) (skip : nat) (s : string) : string :=
  match s with
  | EmptyString => EmptyString
  | String c s' =>
      match skip with
      | S k => replace_from old new k s'
      | O =>
          if startswith old s
          then new ++ replace_from old new (String.length old - 1) s'
          else String c (replace_from old new 0 s')
      end
  end.

Definition replace (old new s : string) : string := replace_from old new 0 s.

(** Truthiness of a [str]/[bytes] value. *)
Definition truthy (s : string) : bool :=
  match s with EmptyString => false | _ => true end.

(** Truthiness of an optional value ([None] is falsy). *)
Definition truthy_opt (o : option string) : bool :=
  match o with Some s => truthy s | None => false end.

(** [x or default] on an optional string. *)
Definition or_else (o : option string) (default : string) : string :=
  match o with
  | Some s => if truthy s then s else default
  | None => default
  end.

Definition is_space (c : ascii) : bool :=
  let n := nat_of_ascii c in
  ((9 <=? n) && (n <=? 13) || (n =? 32))%nat.

Definition digit_value (c : ascii) : option Z :=
  let n := Z.of_nat (nat_of_ascii c) in
  if (48 <=? n) && (n <=? 57) then Some (n - 48) else None.

Fixpoint lstrip (s : string) : string :=
  match s with
  | String c s' => if is_space c then lstrip s' else s
  | EmptyString => EmptyString
  end.

Fixpoint rev_string (acc s : string) : string :=
  match s with
  | EmptyString => acc
  | String c s' => rev_string (String c acc) s'
  end.

Definition strip (s : string) : string :=
  rev_string "" (lstrip (rev_string "" (lstrip s))).

(** Digits of an integer literal; a single underscore is allowed between
    two digits.  [prev] tells whether the previous character was a digit. *)
Fixpoint int_digits (acc : Z) (prev : bool) (s : string) : option Z :=
  match s with
  | EmptyString => if prev then Some acc else None
  | String c s' =>
      match digit_value c with
      | Some d => int_digits (10 * acc + d) true s'
      | None =>
          if Ascii.eqb c "_" && prev
          then match s' with
               | String c' _ =>
                   match digit_value c' with
                   | Some _ => int_digits acc false s'
                   | None => None
                   end
               | EmptyString => None
               end
          else None
      end
  end.

(** [int(b)] on text: [None] stands for [ValueError]. *)
Definition int (s : string) : option Z :=
  match strip s with
  | String "+" r => int_digits 0 false r
  | String "-" r => option_map Z.opp (int_digits 0 false r)
  | r => int_digits 0 false r
  end.

(** [str(n)] for an integer. *)
Definition str_of_int (n : Z) : string :=
  NilEmpty.string_of_int (Z.to_int n).

End Py.

(* ================================================================== *)
(** * Data model ([database/models.py]) *)
(* ================================================================== *)

(** [CampaignTarget.status]: pending, sent, opened, clicked, submitted. *)
Inductive Status := Pending | Sent | Opened | Clicked | Submitted.

(** [EmailEvent.event_type]: sent, opened, clicked, submitted, bounced. *)
Inductive EventType := EvSent | EvOpened | EvClicked | EvSubmitted | EvBounced.

(** [Campaign.status]: draft, active, completed, paused. *)
Inductive CampaignStatus := Draft | Active | Completed | Paused.

Definition status_eqb (a b : Status) : bool :=
  match a, b with
  | Pending, Pending | Sent, Sent | Opened, Opened
  | Clicked, Clicked | Submitted, Submitted => true
  | _, _ => false
  end.

Definition event_type_eqb (a b : EventType) : bool :=
  match a, b with
  | EvSent, EvSent | EvOpened, EvOpened | EvClicked, EvClicked
  | EvSubmitted, EvSubmitted | EvBounced, EvBounced => true
  | _, _ => false
  end.

Definition campaign_status_eqb (a b : CampaignStatus) : bool :=
  match a, b with
  | Draft, Draft | Active, Active | Completed, Completed | Paused, Paused => true
  | _, _ => false
  end.

(** Position of a status in the funnel order
    pending < sent < opened < clicked < submitted. *)
Definition rank (s : Status) : nat :=
  match s with
  | Pending => 0 | Sent => 1 | Opened => 2 | Clicked => 3 | Submitted => 4
  end%nat.

(** Values stored in the JSON-like [metadata] / [details] dictionaries.
    [JTime t] is the ISO-8601 text of the instant [t]. *)
Inductive JValue :=
| JStr (s : string)
| JInt (n : Z)
| JBool (b : bool)
| JTime (t : Z)
| JNone.

Definition of_header (h : option string) : JValue :=
  match h with Some s => JStr s | None => JNone end.

Record Template := {
  tpl_id : Z;
  tpl_name : string;
  subject : string;
  html_content : string
}.

Record Campaign := {
  c_id : Z;
  c_name : string;
  template_id : Z;
  c_status : CampaignStatus;
  consent_verified : bool;
  created_by : Z;
  started_at : option Z;
  completed_at : option Z
}.

Record Target := {
  t_id : Z;
  email : string;
  first_name : option string;
  last_name : option string;
  department : option string
}.

Record CampaignTarget := {
  ct_id : Z;
  campaign_id : Z;
  target_id : Z;
  status : Status;
  unique_token : string;
  sent_at : option Z
}.

Record EmailEvent := {
  campaign_target_id : Z;
  event_type : EventType;
  timestamp : Z;
  ip_address : option string;
  user_agent : option string;
  metadata : list (string * JValue)
}.

Record AuditLog := {
  user_id : option Z;
  action : string;
  resource_type : string;
  resource_id : Z;
  details : list (string * JValue);
  audit_ip : string
}.

(** The persistent store: one list of rows per table. *)
Record DB := {
  templates : list Template;
  campaigns : list Campaign;
  targets : list Target;
  campaign_targets : list CampaignTarget;
  email_events : list EmailEvent;
  audit_logs : list AuditLog
}.

Definition with_status (s : Status) (ct : CampaignTarget) : CampaignTarget :=
  {| ct_id := ct_id ct; campaign_id := campaign_id ct; target_id := target_id ct;
     status := s; unique_token := unique_token ct; sent_at := sent_at ct |}.

Definition with_sent_at (t : Z) (ct : CampaignTarget) : CampaignTarget :=
  {| ct_id := ct_id ct; campaign_id := campaign_id ct; target_id := target_id ct;
     status := status ct; unique_token := unique_token ct; sent_at := Some t |}.

Definition with_campaign_targets (l : list CampaignTarget) (d : DB) : DB :=
  {| templates := templates d; campaigns := campaigns d; targets := targets d;
     campaign_targets := l; email_events := email_events d;
     audit_logs := audit_logs d |}.

Definition with_campaigns (l : list Campaign) (d : DB) : DB :=
  {| templates := templates d; campaigns := l; targets := targets d;
     campaign_targets := campaign_targets d; email_events := email_events d;
     audit_logs := audit_logs d |}.

(** [db.session.add(event)]: rows are appended. *)
Definition add_event (e : EmailEvent) (d : DB) : DB :=
  {| templates := templates d; campaigns := campaigns d; targets := targets d;
     campaign_targets := campaign_targets d;
     email_events := email_events d ++ [e];
     audit_logs := audit_logs d |}.

Definition add_audit (a : AuditLog) (d : DB) : DB :=
  {| templates := templates d; campaigns := campaigns d; targets := targets d;
     campaign_targets := campaign_targets d; email_events := email_events d;
     audit_logs := audit_logs d ++ [a] |}.

(** Attribute assignment on a loaded [CampaignTarget]: the row with that
    primary key is rewritten. *)
Definition update_campaign_target (id : Z) (f : CampaignTarget -> CampaignTarget)
    (d : DB) : DB :=
  with_campaign_targets
    (map (fun ct => if ct_id ct =? id then f ct else ct) (campaign_targets d)) d.

Definition set_status (id : Z) (s : Status) (d : DB) : DB :=
  update_campaign_target id (with_status s) d.

(** [CampaignTarget.query.filter_by(unique_token=token).first()]. *)
Definition find_by_token (token : string) (d : DB) : option CampaignTarget :=
  find (fun ct => String.eqb (unique_token ct) token) (campaign_targets d).

(** [EmailEvent.query.filter_by(campaign_target_id=id, event_type=ty)]. *)
Definition events_of (id : Z) (ty : EventType) (d : DB) : list EmailEvent :=
  filter (fun e => (campaign_target_id e =? id) && event_type_eqb (event_type e) ty)
         (email_events d).

Definition first_event (id : Z) (ty : EventType) (d : DB) : option EmailEvent :=
  hd_error (events_of id ty d).

(** [Campaign.query.get(id)], [Template]/[Target] lookups by primary key. *)
Definition get_campaign (id : Z) (d : DB) : option Campaign :=
  find (fun c => c_id c =? id) (campaigns d).

Definition get_template (id : Z) (d : DB) : option Template :=
  find (fun t => tpl_id t =? id) (templates d).

Definition get_target (id : Z) (d : DB) : option Target :=
  find (fun t => t_id t =? id) (targets d).

(* ================================================================== *)
(** * Calls that may raise: state and exception passing *)
(* ================================================================== *)

(** Result of a call against an external service whose state has type [S]:
    it either returns a value or raises; both leave a service state. *)
Inductive Outcome (S A : Type) :=
| Returned (a : A) (s : S)
| Raised (exn : string) (s : S).

Arguments Returned {S A} a s.
Arguments Raised {S A} exn s.

Definition M (S A : Type) : Type := S -> Outcome S A.

Definition ret {S A} (a : A) : M S A := fun s => Returned a s.

Definition raise {S A} (exn : string) : M S A := fun s => Raised exn s.

Definition bind {S A B} (m : M S A) (k : A -> M S B) : M S B :=
  fun s =>
    match m s with
    | Returned a s' => k a s'
    | Raised exn s' => Raised exn s'
    end.

Notation "x <- m ;; k" := (bind m (fun x => k))
  (at level 61, m at next level, right associativity).
Notation "m ;;; k" := (bind m (fun _ => k))
  (at level 61, right associativity).

(* ================================================================== *)
(** * Rate limiting ([utils/security.py]) *)
(* ================================================================== *)

(** The Redis client as the code uses it.  [redis_from_url] covers
    [import redis] and [redis.from_url(...)]; [r_get] returns the stored
    bytes or [None]; every call may raise. *)
Class RedisClient (R : Type) := {
  redis_from_url : M R unit;
  r_get : string -> M R (option string);
  r_incr : string -> M R unit;
  r_set : string -> Z -> Z -> M R unit
}.

Section RateLimit.
Context {R : Type} `{RedisClient R}.

(** The body of the [try] block of [rate_limit_check]. *)
Definition rate_limit_try (identifier : string) (limit window : Z) : M R bool :=
  redis_from_url ;;;
  let key := "rate_limit:" ++ identifier in
  current <- r_get key ;;
  exceeded <-
    (if Py.truthy_opt current
     then match Py.int (Py.or_else current "") with
          | Some n => ret (limit <=? n)
          | None => raise "ValueError"
          end
     else ret false) ;;
  if (exceeded : bool) then ret false
  else
    (if Py.truthy_opt current then r_incr key else r_set key 1 window) ;;;
    ret true.

(** [rate_limit_check(identifier, limit, window)]: the bare [except:]
    answers [True] whatever was raised. *)
Definition rate_limit_check (identifier : string) (limit window : Z) (r : R)
  : bool * R :=
  match rate_limit_try identifier limit window r with
  | Returned ok r' => (ok, r')
  | Raised _ r' => (true, r')
  end.

End RateLimit.

(** An in-memory Redis used to run the handlers: a reachable flag and the
    key/value pairs (expiry is kept with the entry; no time passes). *)
Record MemRedis := {
  reachable : bool;
  entries : list (string * (string * option Z))
}.

Definition mem_lookup (key : string) (r : MemRedis) : option string :=
  option_map (fun kv => fst (snd kv))
             (find (fun kv => String.eqb (fst kv) key) (entries r)).

Definition mem_store (key value : string) (ex : option Z) (r : MemRedis) : MemRedis :=
  {| reachable := reachable r;
     entries := (key, (value, ex))
                :: filter (fun kv => negb (String.eqb (fst kv) key)) (entries r) |}.

Definition mem_ttl (key : string) (r : MemRedis) : option Z :=
  match find (fun kv => String.eqb (fst kv) key) (entries r) with
  | Some kv => snd (snd kv)
  | None => None
  end.

#[export] Instance MemRedisClient : RedisClient MemRedis := {
  redis_from_url := ret tt;
  r_get key := fun r =>
    if reachable r then Returned (mem_lookup key r) r
    else Raised "ConnectionError" r;
  r_incr key := fun r =>
    if reachable r then
      match mem_lookup key r with
      | None => Returned tt (mem_store key "1" None r)
      | Some v =>
          match Py.int v with
          | Some n => Returned tt (mem_store key (Py.str_of_int (n + 1)) (mem_ttl key r) r)
          | None => Raised "ResponseError" r
          end
      end
    else Raised "ConnectionError" r;
  r_set key value ex := fun r =>
    if reachable r then Returned tt (mem_store key (Py.str_of_int value) (Some ex) r)
    else Raised "ConnectionError" r
}.

(* ================================================================== *)
(** * Requests, responses and the audit trail *)
(* ================================================================== *)

(** What the handlers read from the Flask request context. *)
Record Request := {
  remote_addr : string;
  x_forwarded_for : option string;
  header_user_agent : option string;
  header_referer : option string;
  form : list (string * string);
  current_user : option (Z * bool);
  now : Z
}.

(** The same request carrying other form fields. *)
Definition with_form (fields : list (string * string)) (req : Request) : Request :=
  {| remote_addr := remote_addr req; x_forwarded_for := x_forwarded_for req;
     header_user_agent := header_user_agent req;
     header_referer := header_referer req; form := fields;
     current_user := current_user req; now := now req |}.

(** [request.environ.get('HTTP_X_FORWARDED_FOR', request.remote_addr)]. *)
Definition client_ip (req : Request) : string :=
  match x_forwarded_for req with
  | Some ip => ip
  | None => remote_addr req
  end.

Record Indicator := {
  ind_type : string;
  ind_description : string;
  severity : string
}.

Inductive Body :=
| Empty
| PixelPng
| ErrorPage (name : string)
| Json (fields : list (string * JValue))
| TrainingPage (target : option Target) (campaign : Campaign)
               (phishing_indicators : list Indicator) (submit_token : string).

Record Response := { body : Body; code : Z }.

Definition respond (b : Body) (c : Z) : Response := {| body := b; code := c |}.

(** [log_audit(action, resource_type, resource_id, details)]. *)
Definition log_audit (req : Request) (act rtype : string) (rid : Z)
    (det : list (string * JValue)) (d : DB) : DB :=
  add_audit {| user_id := option_map fst (current_user req);
               action := act; resource_type := rtype; resource_id := rid;
               details := det; audit_ip := client_ip req |} d.

(** The process state the handlers run against. *)
Record World (R : Type) := {
  db : DB;
  redis : R
}.
Arguments db {R} w.
Arguments redis {R} w.
Arguments Build_World {R} db redis.

(* ================================================================== *)
(** * Tracking state machine ([routes/tracking.py]) *)
(* ================================================================== *)

Section Tracking.
Context {R : Type} `{RedisClient R}.

(** [hashlib.md5(text.encode()).hexdigest()]. *)
Variable md5_hexdigest : string -> string.

(** [extract_phishing_indicators(template)]: a pure scan of the template
    text; its result is only displayed. *)
Variable extract_phishing_indicators : Template -> list Indicator.

(** The module-level [hash(text)]: first 16 hex digits of the MD5. *)
Definition hash (text : string) : string :=
  String.substring 0 16 (md5_hexdigest text).

(** [send_tracking_pixel()]: a 1x1 PNG, from the static file or inline. *)
Definition send_tracking_pixel : Response := respond PixelPng 200.

Definition track_open (token : string) (req : Request) (w : World R)
  : World R * Response :=
  let ip := client_ip req in
  let (ok, r') := rate_limit_check ("open_" ++ ip) 30 60 (redis w) in
  if negb ok then (Build_World (db w) r', respond Empty 429)
  else
    match find_by_token token (db w) with
    | None => (Build_World (db w) r', respond Empty 404)
    | Some campaign_target =>
        match first_event (ct_id campaign_target) EvOpened (db w) with
        | Some _ => (Build_World (db w) r', send_tracking_pixel)
        | None =>
            let event :=
              {| campaign_target_id := ct_id campaign_target;
                 event_type := EvOpened;
                 timestamp := now req;
                 ip_address := Some ip;
                 user_agent := header_user_agent req;
                 metadata := [("referer", of_header (header_referer req));
                              ("timestamp", JTime (now req))] |} in
            let d1 := add_event event (db w) in
            let d2 := if status_eqb (status campaign_target) Sent
                      then set_status (ct_id campaign_target) Opened d1
                      else d1 in
            (Build_World d2 r', send_tracking_pixel)
        end
    end.

Definition track_click (token : string) (req : Request) (w : World R)
  : World R * Response :=
  let ip := client_ip req in
  let (ok, r') := rate_limit_check ("click_" ++ ip) 20 60 (redis w) in
  if negb ok then (Build_World (db w) r', respond Empty 429)
  else
    match find_by_token token (db w) with
    | None => (Build_World (db w) r', respond (ErrorPage "errors/404.html") 404)
    | Some campaign_target =>
        let d2 :=
          match first_event (ct_id campaign_target) EvClicked (db w) with
          | Some _ => db w
          | None =>
              let event :=
                {| campaign_target_id := ct_id campaign_target;
                   event_type := EvClicked;
                   timestamp := now req;
                   ip_address := Some ip;
                   user_agent := header_user_agent req;
                   metadata := [("referer", of_header (header_referer req));
                                ("timestamp", JTime (now req))] |} in
              let d1 := add_event event (db w) in
              if status_eqb (status campaign_target) Sent
                 || status_eqb (status campaign_target) Opened
              then set_status (ct_id campaign_target) Clicked d1
              else d1
          end in
        match get_campaign (campaign_id campaign_target) d2 with
        | None => (Build_World d2 r', respond (ErrorPage "errors/404.html") 404)
        | Some campaign =>
            match get_template (template_id campaign) d2 with
            | None =>
                (* [campaign.template] is [None]: AttributeError, caught *)
                (Build_World d2 r', respond (ErrorPage "errors/500.html") 500)
            | Some template =>
                (Build_World d2 r',
                 respond
                   (TrainingPage
                      (get_target (target_id campaign_target) d2)
                      campaign
                      (extract_phishing_indicators template)
                      token)
                   200)
            end
        end
    end.

Definition track_submission (token : string) (req : Request) (w : World R)
  : World R * Response :=
  let ip := client_ip req in
  let (ok, r') := rate_limit_check ("submit_" ++ ip) 10 300 (redis w) in
  if negb ok
  then (Build_World (db w) r', respond (Json [("error", JStr "Too many submissions")]) 429)
  else
    match find_by_token token (db w) with
    | None => (Build_World (db w) r', respond (Json [("error", JStr "Invalid token")]) 404)
    | Some campaign_target =>
        let d2 :=
          match first_event (ct_id campaign_target) EvSubmitted (db w) with
          | Some _ => db w
          | None =>
              let event :=
                {| campaign_target_id := ct_id campaign_target;
                   event_type := EvSubmitted;
                   timestamp := now req;
                   ip_address := Some ip;
                   user_agent := header_user_agent req;
                   metadata :=
                     [("form_data_received", JBool true);
                      ("timestamp", JTime (now req));
                      ("user_agent_hash",
                       JStr (hash (match header_user_agent req with
                                   | Some ua => ua
                                   | None => ""
                                   end)))] |} in
              set_status (ct_id campaign_target) Submitted (add_event event (db w))
          end in
        let d3 := log_audit req "PHISHING_SUBMITTED" "campaign_target"
                    (ct_id campaign_target)
                    [("campaign_id", JInt (campaign_id campaign_target))] d2 in
        (Build_World d3 r',
         respond
           (Json [("success", JBool true);
                  ("message",
                   JStr "Thank you for participating in this security awareness training.");
                  ("next_step", JStr "education")])
           200)
    end.

(** The three public triggers. *)
Inductive Trigger := Open | Click | Submit.

Definition event_of_trigger (t : Trigger) : EventType :=
  match t with Open => EvOpened | Click => EvClicked | Submit => EvSubmitted end.

Definition handle (t : Trigger) (token : string) (req : Request) (w : World R)
  : World R * Response :=
  match t with
  | Open => track_open token req w
  | Click => track_click token req w
  | Submit => track_submission token req w
  end.

(** A sequence of requests handled one after the other. *)
Fixpoint run (reqs : list (Trigger * string * Request)) (w : World R)
  : World R * list Response :=
  match reqs with
  | [] => (w, [])
  | (t, token, req) :: rest =>
      let (w1, resp) := handle t token req w in
      let (w2, resps) := run rest w1 in
      (w2, resp :: resps)
  end.

(** ** Views of the handlers used to state their properties *)

(** The counter key and the budget (limit, window) each trigger passes to
    [rate_limit_check]. *)
Definition limiter_key (t : Trigger) (req : Request) : string :=
  match t with
  | Open => "open_"
  | Click => "click_"
  | Submit => "submit_"
  end ++ client_ip req.

Definition budget (t : Trigger) : Z * Z :=
  match t with
  | Open => (30, 60)
  | Click => (20, 60)
  | Submit => (10, 300)
  end.

(** The request passes the rate limiter. *)
Definition admitted (t : Trigger) (req : Request) (w : World R) : bool :=
  fst (rate_limit_check (limiter_key t req) (fst (budget t)) (snd (budget t))
                        (redis w)).

(** The assignment a trigger makes to [campaign_target.status] when it
    records a new event, if any. *)
Definition assigns (t : Trigger) (s : Status) : option Status :=
  match t with
  | Open => if status_eqb s Sent then Some Opened else None
  | Click => if status_eqb s Sent || status_eqb s Opened
             then Some Clicked else None
  | Submit => Some Submitted
  end.

(** No event of the trigger's type is recorded yet for the target. *)
Definition unseen (t : Trigger) (ct : CampaignTarget) (d : DB) : bool :=
  match first_event (ct_id ct) (event_of_trigger t) d with
  | Some _ => false
  | None => true
  end.

(** Number of recorded events of a type for a target. *)
Definition event_count (id : Z) (ty : EventType) (d : DB) : nat :=
  List.length (events_of id ty d).

(** The same trigger on the same token, once per request of [reqs]. *)
Definition repeat_trigger (t : Trigger) (token : string) (reqs : list Request)
    (w : World R) : World R * list Response :=
  run (map (fun req => (t, token, req)) reqs) w.

(** The status after a trigger that records a new event. *)
Definition next_status (t : Trigger) (s : Status) : Status :=
  match assigns t s with
  | Some s' => s'
  | None => s
  end.

(** The answers of the three handlers to a refused request and to an
    unknown token. *)
Definition too_many_response (t : Trigger) : Response :=
  match t with
  | Open | Click => respond Empty 429
  | Submit => respond (Json [("error", JStr "Too many submissions")]) 429
  end.

Definition not_found_response (t : Trigger) : Response :=
  match t with
  | Open => respond Empty 404
  | Click => respond (ErrorPage "errors/404.html") 404
  | Submit => respond (Json [("error", JStr "Invalid token")]) 404
  end.

(** The answer to an accepted request on a known token: the pixel, the
    training page of the target's campaign, or the acknowledgement. *)
Definition normal_response (t : Trigger) (token : string)
    (ct : CampaignTarget) (d : DB) : Response :=
  match t with
  | Open => send_tracking_pixel
  | Click =>
      match get_campaign (campaign_id ct) d with
      | None => respond (ErrorPage "errors/404.html") 404
      | Some campaign =>
          match get_template (template_id campaign) d with
          | None => respond (ErrorPage "errors/500.html") 500
          | Some template =>
              respond (TrainingPage (get_target (target_id ct) d) campaign
                         (extract_phishing_indicators template) token) 200
          end
      end
  | Submit =>
      respond
        (Json [("success", JBool true);
               ("message",
                JStr "Thank you for participating in this security awareness training.");
               ("next_step", JStr "education")])
        200
  end.

(** The event a first submission stores. *)
Definition submission_event (ct : CampaignTarget) (req : Request) : EmailEvent :=
  {| campaign_target_id := ct_id ct;
     event_type := EvSubmitted;
     timestamp := now req;
     ip_address := Some (client_ip req);
     user_agent := header_user_agent req;
     metadata :=
       [("form_data_received", JBool true);
        ("timestamp", JTime (now req));
        ("user_agent_hash",
         JStr (hash (match header_user_agent req with
                     | Some ua => ua
                     | None => ""
                     end)))] |}.

End Tracking.

(* ================================================================== *)
(** * Templates ([utils/helpers.py], [utils/security.py]) *)
(* ================================================================== *)

Module Templates.

(** ["{{" + key + "}}"]. *)
Definition placeholder (key : string) : string := "{{" ++ key ++ "}}".

(** One iteration of the loop of [render_template_content]. *)
Definition render_step (content : string) (kv : string * string) : string :=
  let p := placeholder (fst kv) in
  if Py.contains p content then Py.replace p (snd kv) content else content.

(** [render_template_content(template_content, variables)]; [variables]
    lists the dictionary items in insertion order, values already passed
    through [str]. *)
Definition render_template_content (template_content : string)
    (variables : list (string * string)) : string :=
  fold_left render_step variables template_content.

(** The character class [\w] on code points below 256: ASCII letters,
    digits and underscore, and the alphanumeric Latin-1 code points. *)
Definition is_word (c : ascii) : bool :=
  let n := nat_of_ascii c in
  ((48 <=? n) && (n <=? 57) || (65 <=? n) && (n <=? 90) || (n =? 95)
   || (97 <=? n) && (n <=? 122)
   || (n =? 170) || (n =? 178) || (n =? 179) || (n =? 181) || (n =? 185)
   || (n =? 186) || (188 <=? n) && (n <=? 190)
   || (192 <=? n) && (n <=? 214) || (216 <=? n) && (n <=? 246)
   || (248 <=? n) && (n <=? 255))%nat.

(** Greedy [\w*]: the longest run of word characters and what follows. *)
Fixpoint take_word (s : string) : string * string :=
  match s with
  | String c s' =>
      if is_word c
      then let (w, rest) := take_word s' in (String c w, rest)
      else (EmptyString, s)
  | EmptyString => (EmptyString, EmptyString)
  end.

(** A match of [\{\{(\w+)\}\}] anchored at the start of [s]: the captured
    name.  After the longest run of word characters the next character is
    not a word character, so a shorter run cannot be followed by a
    closing brace and backtracking finds nothing more. *)
Definition match_placeholder (s : string) : option string :=
  match s with
  | String c0 (String c1 s1) =>
      if Ascii.eqb c0 "{" && Ascii.eqb c1 "{"
      then match take_word s1 with
           | (String c w, String d0 (String d1 _)) =>
               if Ascii.eqb d0 "}" && Ascii.eqb d1 "}"
               then Some (String c w)
               else None
           | _ => None
           end
      else None
  | _ => None
  end.

(** [re.findall(r'\{\{(\w+)\}\}', content)]: captures of the leftmost
    non-overlapping matches. *)
Fixpoint findall_from (skip : nat) (s : string) : list string :=
  match s with
  | EmptyString => []
  | String _ s' =>
      match skip with
      | S k => findall_from k s'
      | O =>
          match match_placeholder s with
          | Some w => w :: findall_from (String.length w + 3) s'
          | None => findall_from 0 s'
          end
      end
  end.

Definition findall (content : string) : list string := findall_from 0 content.

Definition allowed_variables : list string :=
  ["first_name"; "last_name"; "email"; "department"; "company";
   "click_url"; "tracking_pixel"; "tracking_number"; "campaign_name";
   "sender_name"; "sender_email"].

(** [var in allowed_variables]. *)
Definition is_allowed (var : string) : bool :=
  existsb (String.eqb var) allowed_variables.

(** [validate_template_variables(content)]: [inr true] is the returned
    [True], [inl msg] is [ValueError(msg)]. *)
Definition validate_template_variables (content : string) : string + bool :=
  match find (fun var => negb (is_allowed var)) (findall content) with
  | Some var => inl ("Template variable '" ++ var ++ "' is not allowed")
  | None => inr true
  end.

(** Templates seen as literal text interleaved with placeholders. *)
Inductive Segment :=
| Lit (text : string)
| Var (name : string).

Definition segment_text (seg : Segment) : string :=
  match seg with
  | Lit text => text
  | Var name => placeholder name
  end.

Definition flatten (segs : list Segment) : string :=
  fold_right (fun seg acc => segment_text seg ++ acc) "" segs.




(** [c not in s]. *)
Fixpoint lacks (c : ascii) (s : string) : bool :=
  match s with
  | EmptyString => true
  | String a s' => negb (Ascii.eqb a c) && lacks c s'
  end.

Definition brace_free (s : string) : bool := lacks "{" s && lacks "}" s.

(** Every opening brace of [s] is followed, in [s], by a character other
    than an opening brace: [s] has no two opening braces in a row and
    does not end with one.  The braces of a style sheet are of this
    kind. *)
Fixpoint single_open (s : string) : bool :=
  match s with
  | EmptyString => true
  | String c s' =>
      (negb (Ascii.eqb c "{")
       || match s' with
          | String c' _ => negb (Ascii.eqb c' "{")
          | EmptyString => false
          end)
      && single_open s'
  end.

(** Literal text opens no placeholder and placeholder names have no
    brace. *)
Definition well_formed (seg : Segment) : bool :=
  match seg with
  | Lit text => single_open text
  | Var name => brace_free name
  end.

Definition plain_binding (kv : string * string) : bool :=
  brace_free (fst kv) && single_open (snd kv).




End Templates.

(* ================================================================== *)
(** * Metrics engine ([calculate_campaign_metrics]) *)
(* ================================================================== *)

Module Metrics.

(** A Python number: the zero of the [else 0] branches is an [int], the
    computed rates are binary64 floats. *)
Inductive PyNum :=
| PyInt (n : Z)
| PyFloat (x : float).

(** Conversion of a row count to a float (exact below 2^53). *)
Definition float_of_count (n : nat) : float :=
  PrimFloat.of_uint63 (Uint63.of_Z (Z.of_nat n)).

(** [a / b * 100] on two counts. *)
Definition percentage (a b : nat) : float :=
  (float_of_count a / float_of_count b * 100)%float.

(** The integer nearest to [p / q] for [q > 0], ties to even. *)
Definition round_half_even (p q : Z) : Z :=
  let f := p / q in
  let r2 := 2 * (p mod q) in
  if r2 <? q then f
  else if q <? r2 then f + 1
  else if Z.even f then f else f + 1.

(** [round(x, 2)] on a float: the exact binary value of [x] is rounded to
    the nearest hundredth, ties to even, and the double nearest to that
    decimal is returned.  For an exponent of -7 or less, [x] is below 2^46
    and the count [k] of hundredths is below 2^53, so the conversion of [k]
    is exact and the division by 100 is the correctly rounded quotient.
    For a larger exponent the doubles around [x] are at least 1/64 apart
    and the double nearest to the rounded decimal is [x] itself.  Zeros,
    infinities and NaN are returned as they are. *)
Definition round2 (x : float) : float :=
  match Prim2SF x with
  | S754_finite s m e =>
      if -7 <? e then x
      else
        let k := round_half_even (Zpos m * 100) (2 ^ (- e)) in
        let y := (PrimFloat.of_uint63 (Uint63.of_Z k) / 100)%float in
        if s then (- y)%float else y
  | _ => x
  end.

(** [round(v, 2)]: an [int] is returned unchanged. *)
Definition py_round2 (v : PyNum) : PyNum :=
  match v with
  | PyInt n => PyInt n
  | PyFloat x => PyFloat (round2 x)
  end.

(** [EmailEvent.query.join(CampaignTarget)]: each event with the row its
    foreign key points to. *)
Definition join_campaign_target (d : DB) : list (EmailEvent * CampaignTarget) :=
  flat_map
    (fun e => map (pair e)
                (filter (fun ct => ct_id ct =? campaign_target_id e)
                        (campaign_targets d)))
    (email_events d).

(** [.filter(CampaignTarget.campaign_id == cid, EmailEvent.event_type == ty)]. *)
Definition campaign_events (cid : Z) (ty : EventType) (d : DB)
  : list (EmailEvent * CampaignTarget) :=
  filter (fun p => (campaign_id (snd p) =? cid)
                   && event_type_eqb (event_type (fst p)) ty)
         (join_campaign_target d).

(** [.distinct(EmailEvent.campaign_target_id)] on the query above.  The
    query selects the columns of [EmailEvent], its primary key [id]
    included.  SQLAlchemy renders the argument of [distinct] for
    PostgreSQL only, as DISTINCT ON; on the SQLite database of
    [config.py] (sqlite:///phishing_platform.db, and sqlite:///:memory:
    under test) the argument is left out and the statement is a plain
    SELECT DISTINCT over all the selected columns.  Two rows of the result
    are then equal only when they come from the same row of
    [email_events], whose position in the table stands for its primary
    key here: the result holds, once, every event that has a selected row
    in the join. *)
Definition distinct_events (cid : Z) (ty : EventType) (d : DB) : list EmailEvent :=
  filter
    (fun e =>
       existsb (fun p => (campaign_id (snd p) =? cid)
                         && event_type_eqb (event_type (fst p)) ty)
               (map (pair e)
                    (filter (fun ct => ct_id ct =? campaign_target_id e)
                            (campaign_targets d))))
    (email_events d).

Record CampaignMetrics := {
  total_targets : nat;
  emails_sent : nat;
  unique_opens : nat;
  unique_clicks : nat;
  unique_submissions : nat;
  open_rate : PyNum;
  click_rate : PyNum;
  submission_rate : PyNum;
  delivery_rate : PyNum
}.

Definition calculate_campaign_metrics (cid : Z) (d : DB) : option CampaignMetrics :=
  match get_campaign cid d with
  | None => None
  | Some _ =>
      let total := List.length (filter (fun ct => campaign_id ct =? cid)
                                  (campaign_targets d)) in
      let sent_events := List.length (campaign_events cid EvSent d) in
      let open_events := List.length (distinct_events cid EvOpened d) in
      let click_events := List.length (distinct_events cid EvClicked d) in
      let submit_events := List.length (distinct_events cid EvSubmitted d) in
      let open_r := if (0 <? sent_events)%nat
                    then PyFloat (percentage open_events sent_events)
                    else PyInt 0 in
      let click_r := if (0 <? open_events)%nat
                     then PyFloat (percentage click_events open_events)
                     else PyInt 0 in
      let submission_r := if (0 <? click_events)%nat
                          then PyFloat (percentage submit_events click_events)
                          else PyInt 0 in
      Some {| total_targets := total;
              emails_sent := sent_events;
              unique_opens := open_events;
              unique_clicks := click_events;
              unique_submissions := submit_events;
              open_rate := py_round2 open_r;
              click_rate := py_round2 click_r;
              submission_rate := py_round2 submission_r;
              delivery_rate :=
                py_round2 (if (0 <? total)%nat
                           then PyFloat (percentage sent_events total)
                           else PyInt 0) |}
  end.

(** ** The formulas as the specification words them *)

(** Number of the campaign's targets that have at least one event of
    type [ty]. *)
Definition targets_with_event (cid : Z) (ty : EventType) (d : DB) : nat :=
  List.length
    (filter
       (fun ct => (campaign_id ct =? cid)
                  && existsb (fun e => (campaign_target_id e =? ct_id ct)
                                       && event_type_eqb (event_type e) ty)
                             (email_events d))
       (campaign_targets d)).

(** [num / den * 100] rounded to two decimals, and 0 for a zero
    denominator. *)
Definition rate (num den : nat) : PyNum :=
  match den with
  | O => PyInt 0
  | _ => PyFloat (round2 (percentage num den))
  end.

(** Ten targets of campaign 1, all sent, six opened, three clicked, one
    submitted. *)
Definition funnel_event (ty : EventType) (id : nat) : EmailEvent :=
  {| campaign_target_id := Z.of_nat id; event_type := ty; timestamp := 0;
     ip_address := None; user_agent := None; metadata := [] |}.

Definition funnel_db : DB :=
  {| templates := [];
     campaigns := [ {| c_id := 1; c_name := "Q3 awareness"; template_id := 1;
                       c_status := Active; consent_verified := true;
                       created_by := 1; started_at := Some 0;
                       completed_at := None |} ];
     targets := [];
     campaign_targets :=
       map (fun id => {| ct_id := Z.of_nat id; campaign_id := 1;
                         target_id := Z.of_nat id; status := Sent;
                         unique_token := ""; sent_at := Some 0 |})
           (seq 1 10);
     email_events :=
       map (funnel_event EvSent) (seq 1 10)
       ++ map (funnel_event EvOpened) (seq 1 6)
       ++ map (funnel_event EvClicked) (seq 1 3)
       ++ map (funnel_event EvSubmitted) (seq 1 1);
     audit_logs := [] |}.

(** One target of campaign 1 whose mail was sent once and whose tracking
    pixel was recorded twice, as two concurrent requests for the pixel
    leave it. *)
Definition reopened_db : DB :=
  {| templates := [];
     campaigns := campaigns funnel_db;
     targets := [];
     campaign_targets :=
       [ {| ct_id := 1; campaign_id := 1; target_id := 1; status := Opened;
            unique_token := ""; sent_at := Some 0 |} ];
     email_events :=
       [ funnel_event EvSent 1; funnel_event EvOpened 1; funnel_event EvOpened 1 ];
     audit_logs := [] |}.

(** Number of events of type [ty] recorded for a target of the campaign. *)
Definition events_in_campaign (cid : Z) (ty : EventType) (d : DB) : nat :=
List.length
  (filter
     (fun e => event_type_eqb (event_type e) ty
               && existsb (fun ct => (ct_id ct =? campaign_target_id e)
                                     && (campaign_id ct =? cid))
                          (campaign_targets d))
     (email_events d)).

End Metrics.

(* ================================================================== *)
(** * Application configuration ([config.py]) *)
(* ================================================================== *)

Record Config := {
  BASE_URL : string;
  MAIL_DEFAULT_SENDER : option string;
  MAX_EMAILS_PER_HOUR : Z;
  CAMPAIGN_CONSENT_REQUIRED : bool
}.

(** The double-quote character, for texts that contain it. *)
Definition dq : string := String (ascii_of_nat 34) EmptyString.

(* ================================================================== *)
(** * Bulk dispatcher ([services/email_service.py]) *)
(* ================================================================== *)

Record Message := {
  msg_to : string;
  msg_subject : string;
  msg_html : string
}.

(** The fields of an [EmailSender] instance. *)
Record EmailSender := {
  sender_campaign : option Campaign;
  rate_limit : Z;
  sent_count : Z;
  start_time : Z
}.

(** State of a dispatcher run: the database session, the wall clock, the
    sender object and the messages accepted by a mail transport. *)
Record Run := {
  run_db : DB;
  clock : Z;
  sender : EmailSender;
  delivered : list Message
}.

Definition with_run_db (d : DB) (st : Run) : Run :=
  {| run_db := d; clock := clock st; sender := sender st; delivered := delivered st |}.

Section Dispatcher.
Variable cfg : Config.

(** The two mail transports: [None] when the message is accepted,
    [Some reason] when the call raises. *)
Variable flask_mail_send : Message -> option string.
Variable smtp_send : Message -> option string.

(** [EmailSender.__init__]. *)
Definition new_sender (campaign : option Campaign) (t : Z) : EmailSender :=
  {| sender_campaign := campaign; rate_limit := MAX_EMAILS_PER_HOUR cfg;
     sent_count := 0; start_time := t |}.

(** [generate_tracking_url(campaign_target_id, url_type, base_url)]. *)
Definition generate_tracking_url (id url_type : string) (base_url : string)
  : string :=
  let base := if Py.truthy base_url then base_url else BASE_URL cfg in
  base ++ "/track/" ++ url_type ++ "/" ++ id.

Definition upper_char (c : ascii) : ascii :=
  let n := nat_of_ascii c in
  if ((97 <=? n) && (n <=? 122))%nat then ascii_of_nat (n - 32) else c.

(** [s.upper()] on ASCII text. *)
Fixpoint upper (s : string) : string :=
  match s with
  | EmptyString => EmptyString
  | String c s' => String (upper_char c) (upper s')
  end.

Definition prepare_template_variables (campaign : Campaign) (target : Target)
    (campaign_target : CampaignTarget) : list (string * string) :=
  let base_url := BASE_URL cfg in
  [("first_name", Py.or_else (first_name target) "User");
   ("last_name", Py.or_else (last_name target) "");
   ("email", email target);
   ("department", Py.or_else (department target) "Unknown");
   ("company", "Your Company");
   ("campaign_name", c_name campaign);
   ("sender_name", "IT Security Team");
   ("sender_email", match MAIL_DEFAULT_SENDER cfg with
                    | Some s => s
                    | None => "None"
                    end);
   ("tracking_number",
    upper (String.substring 0 8 (unique_token campaign_target)));
   ("click_url",
    generate_tracking_url (unique_token campaign_target) "click" base_url);
   ("tracking_pixel",
    "<img src=" ++ dq
    ++ generate_tracking_url (unique_token campaign_target) "open" base_url
    ++ dq ++ " width=" ++ dq ++ "1" ++ dq ++ " height=" ++ dq ++ "1" ++ dq
    ++ " style=" ++ dq ++ "display:none;" ++ dq
    ++ " alt=" ++ dq ++ "tracking pixel" ++ dq ++ ">")].

(** The fixed banner of [add_security_watermark] (its markup and wording;
    the indentation and the warning sign of the source text are left out). *)
Definition watermark : string :=
  "<div style=" ++ dq
  ++ "background-color: #fff3cd; color: #856404; padding: 10px; margin: 20px 0; border: 1px solid #ffeaa7; border-radius: 4px; text-align: center; font-size: 12px;"
  ++ dq
  ++ "><strong>SECURITY TRAINING TEST</strong> - This is a simulated phishing email for security awareness training.</div>".

Definition add_security_watermark (content : string) : string :=
  watermark ++ content.

(** [send_email_direct_smtp]: any exception is logged and gives [False]. *)
Definition send_email_direct_smtp (m : Message) (st : Run) : bool * Run :=
  match smtp_send m with
  | None =>
      (true, {| run_db := run_db st; clock := clock st; sender := sender st;
                delivered := delivered st ++ [m] |})
  | Some _ => (false, st)
  end.

(** [send_email_flask_mail]: on an exception fall back to direct SMTP. *)
Definition send_email_flask_mail (m : Message) (st : Run) : bool * Run :=
  match flask_mail_send m with
  | None =>
      (true, {| run_db := run_db st; clock := clock st; sender := sender st;
                delivered := delivered st ++ [m] |})
  | Some _ => send_email_direct_smtp m st
  end.

(** [log_sent_event]. *)
Definition log_sent_event (campaign : Campaign) (template : Template)
    (campaign_target : CampaignTarget) (st : Run) : Run :=
  with_run_db
    (add_event
       {| campaign_target_id := ct_id campaign_target;
          event_type := EvSent;
          timestamp := clock st;
          ip_address := Some "127.0.0.1";
          user_agent := None;
          metadata := [("server_time", JTime (clock st));
                       ("campaign_name", JStr (c_name campaign));
                       ("template_name", JStr (tpl_name template))] |}
       (run_db st))
    st.

(** [log_error_event]. *)
Definition log_error_event (campaign_target : CampaignTarget)
    (error_message : string) (st : Run) : Run :=
  with_run_db
    (add_event
       {| campaign_target_id := ct_id campaign_target;
          event_type := EvBounced;
          timestamp := clock st;
          ip_address := None;
          user_agent := None;
          metadata := [("error", JStr error_message);
                       ("timestamp", JTime (clock st))] |}
       (run_db st))
    st.

Definition bump_sent_count (st : Run) : Run :=
  {| run_db := run_db st; clock := clock st;
     sender := {| sender_campaign := sender_campaign (sender st);
                  rate_limit := rate_limit (sender st);
                  sent_count := sent_count (sender st) + 1;
                  start_time := start_time (sender st) |};
     delivered := delivered st |}.

(** [send_email_to_target].  The body is wrapped in [try/except] and gives
    [False] on any exception, except that the handler itself formats
    [target.email]: when the target row is missing ([target] is [None])
    the handler raises in turn and the exception leaves the method. *)
Definition send_email_to_target (campaign_target : CampaignTarget) : M Run bool :=
  fun st =>
    match get_target (target_id campaign_target) (run_db st) with
    | None => Raised "'NoneType' object has no attribute 'email'" st
    | Some target =>
        match sender_campaign (sender st) with
        | None => Returned false st
        | Some campaign =>
            match get_template (template_id campaign) (run_db st) with
            | None => Returned false st
            | Some template =>
                let variables :=
                  prepare_template_variables campaign target campaign_target in
                let subj :=
                  Templates.render_template_content (subject template) variables in
                let html :=
                  add_security_watermark
                    (Templates.render_template_content (html_content template)
                                                       variables) in
                let (success, st1) :=
                  send_email_flask_mail
                    {| msg_to := email target; msg_subject := subj;
                       msg_html := html |} st in
                if success
                then Returned true
                       (bump_sent_count
                          (log_sent_event campaign template campaign_target st1))
                else Returned false st1
            end
        end
    end.

(** [check_rate_limit]. *)
Definition check_rate_limit (st : Run) : bool * Run :=
  let elapsed := clock st - start_time (sender st) in
  if elapsed <? 3600
  then (sent_count (sender st) <? rate_limit (sender st), st)
  else (true,
        {| run_db := run_db st; clock := clock st;
           sender := {| sender_campaign := sender_campaign (sender st);
                        rate_limit := rate_limit (sender st);
                        sent_count := 0;
                        start_time := clock st |};
           delivered := delivered st |}).

(** [time.sleep(seconds)]. *)
Definition sleep (seconds : Z) (st : Run) : Run :=
  {| run_db := run_db st; clock := clock st + seconds; sender := sender st;
     delivered := delivered st |}.

Definition mark_sent (campaign_target : CampaignTarget) (st : Run) : Run :=
  with_run_db
    (update_campaign_target (ct_id campaign_target)
       (fun ct => with_sent_at (clock st) (with_status Sent ct))
       (run_db st))
    st.

(** One iteration of the [for] loop of [send_campaign_emails]; the pair
    counts successes and errors.  The periodic [db.session.commit()]
    does not change the rows. *)
Definition send_one (campaign_target : CampaignTarget)
    (acc : Run * (Z * Z)) : Run * (Z * Z) :=
  let '(st, (success_count, error_count)) := acc in
  let (within, st0) := check_rate_limit st in
  let st1 := if within then st0 else sleep 60 st0 in
  match send_email_to_target campaign_target st1 with
  | Returned true st2 =>
      (mark_sent campaign_target st2, (success_count + 1, error_count))
  | Returned false st2 => (st2, (success_count, error_count + 1))
  | Raised e st2 =>
      (log_error_event campaign_target e st2, (success_count, error_count + 1))
  end.

Definition send_loop (pending : list CampaignTarget) (st : Run)
  : Run * (Z * Z) :=
  fold_left (fun acc ct => send_one ct acc) pending (st, (0, 0)).

Definition pending_targets (cid : Z) (d : DB) : list CampaignTarget :=
  filter (fun ct => (campaign_id ct =? cid) && status_eqb (status ct) Pending)
         (campaign_targets d).

Definition complete_campaign_row (cid t : Z) (d : DB) : DB :=
  with_campaigns
    (map (fun c =>
            if c_id c =? cid
            then {| c_id := c_id c; c_name := c_name c;
                    template_id := template_id c; c_status := Completed;
                    consent_verified := consent_verified c;
                    created_by := created_by c; started_at := started_at c;
                    completed_at := Some t |}
            else c)
         (campaigns d))
    d.

(** [EmailSender.send_campaign_emails(campaign_id)]; [req] is the context
    [log_audit] reads. *)
Definition send_campaign_emails (cid : Z) (req : Request) (st : Run)
  : bool * Run :=
  match get_campaign cid (run_db st) with
  | None => (false, st)
  | Some campaign =>
      let st0 :=
        {| run_db := run_db st; clock := clock st;
           sender := {| sender_campaign := Some campaign;
                        rate_limit := rate_limit (sender st);
                        sent_count := sent_count (sender st);
                        start_time := start_time (sender st) |};
           delivered := delivered st |} in
      let pending := pending_targets cid (run_db st0) in
      let total_targets := Z.of_nat (List.length pending) in
      let '(st1, (success_count, error_count)) := send_loop pending st0 in
      let st2 :=
        if success_count + error_count =? total_targets
        then
          if (List.length (pending_targets cid (run_db st1)) =? 0)%nat
          then with_run_db (complete_campaign_row cid (clock st1) (run_db st1)) st1
          else st1
        else st1 in
      let st3 :=
        with_run_db
          (log_audit req "CAMPAIGN_EMAILS_SENT" "campaign" cid
             [("total_targets", JInt total_targets);
              ("success_count", JInt success_count);
              ("error_count", JInt error_count)]
             (run_db st2))
          st2 in
      (0 <? success_count, st3)
  end.

End Dispatcher.

(* ================================================================== *)
(** * Campaign send ([routes/campaigns.py]) *)
(* ================================================================== *)

(** What the view works on: the database, the dispatch runs handed to a
    background thread, and the flashed messages. *)
Record App := {
  app_db : DB;
  queued : list Z;
  flashes : list (string * string)
}.

Inductive Reply :=
| RedirectTo (endpoint : string) (id : option Z)
| NotFound
| LoginRequired.

Definition flash (message category : string) (a : App) : App :=
  {| app_db := app_db a; queued := queued a;
     flashes := flashes a ++ [(message, category)] |}.

Section Campaigns.
Variable cfg : Config.

(** [queue_campaign_emails(campaign)]: [thread_starts] tells whether
    creating and starting the thread succeeds; a failure is caught and
    gives [False]. *)
Definition queue_campaign_emails (thread_starts : bool) (campaign : Campaign)
    (a : App) : bool * App :=
  if thread_starts
  then (true, {| app_db := app_db a; queued := queued a ++ [c_id campaign];
                 flashes := flashes a |})
  else (false, a).

Definition activate_campaign_row (cid t : Z) (d : DB) : DB :=
  with_campaigns
    (map (fun c =>
            if c_id c =? cid
            then {| c_id := c_id c; c_name := c_name c;
                    template_id := template_id c; c_status := Active;
                    consent_verified := consent_verified c;
                    created_by := created_by c; started_at := Some t;
                    completed_at := completed_at c |}
            else c)
         (campaigns d))
    d.

(** [send_campaign(id)], behind [@login_required]. *)
Definition send_campaign (id : Z) (req : Request) (thread_starts : bool)
    (a : App) : App * Reply :=
  match current_user req with
  | None => (a, LoginRequired)
  | Some (uid, is_admin) =>
      match get_campaign id (app_db a) with
      | None => (a, NotFound)
      | Some campaign =>
          if negb is_admin && negb (created_by campaign =? uid)
          then (flash "Access denied." "danger" a,
                RedirectTo "campaigns.index" None)
          else if negb (campaign_status_eqb (c_status campaign) Draft)
          then (flash "Only draft campaigns can be sent." "warning" a,
                RedirectTo "campaigns.view" (Some id))
          else
            let n := List.length (filter (fun ct => campaign_id ct =? id)
                                         (campaign_targets (app_db a))) in
            if (n =? 0)%nat
            then (flash "No targets assigned to this campaign." "warning" a,
                  RedirectTo "campaigns.view" (Some id))
            else if CAMPAIGN_CONSENT_REQUIRED cfg
                    && negb (consent_verified campaign)
            then (flash "Consent must be verified before sending campaigns."
                        "danger" a,
                  RedirectTo "campaigns.view" (Some id))
            else
              let (_, a1) := queue_campaign_emails thread_starts campaign a in
              let d1 := activate_campaign_row (c_id campaign) (now req)
                                              (app_db a1) in
              let d2 := log_audit req "CAMPAIGN_STARTED" "campaign"
                          (c_id campaign)
                          [("target_count", JInt (Z.of_nat n))] d1 in
              (flash ("Campaign " ++ dq ++ c_name campaign ++ dq
                      ++ " has been queued for sending to "
                      ++ Py.str_of_int (Z.of_nat n) ++ " targets.")
                     "success"
                     {| app_db := d2; queued := queued a1;
                        flashes := flashes a1 |},
               RedirectTo "campaigns.view" (Some id))
      end
  end.

(** Number of targets assigned to a campaign, whatever their status. *)
Definition assigned_targets (id : Z) (d : DB) : nat :=
List.length (filter (fun ct => campaign_id ct =? id) (campaign_targets d)).

(** The campaign row once the send is accepted at instant [t]. *)
Definition activated (t : Z) (c : Campaign) : Campaign :=
{| c_id := c_id c; c_name := c_name c; template_id := template_id c;
   c_status := Active; consent_verified := consent_verified c;
   created_by := created_by c; started_at := Some t;
   completed_at := completed_at c |}.

End Campaigns.

(* ================================================================== *)
(** * Tokens ([CampaignTarget.__init__], [uuid.uuid4]) *)
(* ================================================================== *)

Module Tokens.

(** [uuid.UUID(bytes=os.urandom(16), version=4).int]: [rnd] is the integer
    read from the sixteen random bytes; the variant and version fields
    are then overwritten. *)
Definition uuid4_int (rnd : Z) : Z :=
  let i := Z.land rnd (Z.lnot (Z.shiftl 0xc000 48)) in
  let i := Z.lor i (Z.shiftl 0x8000 48) in
  let i := Z.land i (Z.lnot (Z.shiftl 0xf000 64)) in
  Z.lor i (Z.shiftl 4 76).

Definition hex_digit (n : Z) : ascii :=
  if n <? 10 then ascii_of_nat (Z.to_nat (48 + n))
  else ascii_of_nat (Z.to_nat (87 + n)).

(** The [width] low hexadecimal digits of [n], most significant first. *)
Fixpoint hex_digits (width : nat) (n : Z) (acc : string) : string :=
  match width with
  | O => acc
  | S k => hex_digits k (Z.shiftr n 4) (String (hex_digit (Z.land n 15)) acc)
  end.

(** ['%032x' % n] for [0 <= n < 2^128]. *)
Definition hex32 (n : Z) : string := hex_digits 32 n "".

(** [uuid.uuid4().hex]. *)
Definition uuid4_hex (rnd : Z) : string := hex32 (uuid4_int rnd).

(** The constructor of [CampaignTarget]: a token passed by the caller is kept, a
    missing or empty one is replaced by [uuid.uuid4().hex]. *)
Definition new_campaign_target (id cid tid : Z) (st : Status)
    (token : option string) (rnd : Z) : CampaignTarget :=
  {| ct_id := id; campaign_id := cid; target_id := tid; status := st;
     unique_token := if Py.truthy_opt token then Py.or_else token ""
                     else uuid4_hex rnd;
     sent_at := None |}.

(** The six bits that [uuid4_int] overwrites. *)
Definition fixed_bits : Z := Z.lor (Z.shiftl 0xc000 48) (Z.shiftl 0xf000 64).

End Tokens.

(* ================================================================== *)
(** * Relations on tables used in the statements *)
(* ================================================================== *)

(** Primary key of [campaign_targets]. *)
Definition primary_keys_unique (d : DB) : Prop :=
  NoDup (map ct_id (campaign_targets d)).

(** [b] is the row [a] with a status at least as far in the funnel. *)
Definition advances (a b : CampaignTarget) : Prop :=
  b = with_status (status b) a /\ (rank (status a) <= rank (status b))%nat.

(** Row by row, the second table is the first with statuses moved forward. *)
Definition table_advances (d d' : DB) : Prop :=
  Forall2 advances (campaign_targets d) (campaign_targets d').

(** A target with a recorded submission has status [Submitted]. *)
Definition submissions_recorded (d : DB) : Prop :=
  forall ct, In ct (campaign_targets d) ->
             events_of (ct_id ct) EvSubmitted d <> [] -> status ct = Submitted.

(* ================================================================== *)
(** * Sample data *)
(* ================================================================== *)

Module Sample.

Definition redis_up : MemRedis := {| reachable := true; entries := [] |}.

Definition redis_down : MemRedis := {| reachable := false; entries := [] |}.

(** The open counter of client 203.0.113.7 has reached its budget. *)
Definition redis_exhausted : MemRedis :=
  {| reachable := true;
     entries := [("rate_limit:open_203.0.113.7", ("30", Some 60));
                 ("rate_limit:click_203.0.113.7", ("20", Some 60));
                 ("rate_limit:submit_203.0.113.7", ("10", Some 300))] |}.

(** Stand-ins for the two functions the handlers are parameterised by. *)
Definition digest (_ : string) : string := "d41d8cd98f00b204e9800998ecf8427e".

Definition no_indicators (_ : Template) : list Indicator := [].

Definition alert : Template :=
  {| tpl_id := 1; tpl_name := "IT Support Alert";
     subject := "URGENT: Immediate Action Required - Account Verification";
     html_content :=
       "<p>Dear {{first_name}},</p><a href=" ++ dq ++ "{{click_url}}" ++ dq
       ++ ">Verify Account Now</a><small>{{tracking_pixel}}</small>" |}.

Definition drill : Campaign :=
  {| c_id := 1; c_name := "Q3 drill"; template_id := 1; c_status := Draft;
     consent_verified := true; created_by := 1; started_at := None;
     completed_at := None |}.

Definition john : Target :=
  {| t_id := 1; email := "john.doe@example.com"; first_name := Some "John";
     last_name := Some "Doe"; department := Some "IT" |}.

Definition jane : Target :=
  {| t_id := 2; email := "jane.smith@example.com"; first_name := Some "Jane";
     last_name := Some "Smith"; department := Some "HR" |}.

Definition enrol (id : Z) (st : Status) (token : string) : CampaignTarget :=
  {| ct_id := id; campaign_id := 1; target_id := id; status := st;
     unique_token := token; sent_at := None |}.

Definition store (cts : list CampaignTarget) : DB :=
  {| templates := [alert]; campaigns := [drill]; targets := [john; jane];
     campaign_targets := cts; email_events := []; audit_logs := [] |}.

(** Both mails delivered, nothing opened yet. *)
Definition sent_db : DB := store [enrol 1 Sent "tok-john"; enrol 2 Sent "tok-jane"].

(** Both targets still pending. *)
Definition pending_db : DB :=
  store [enrol 1 Pending "tok-john"; enrol 2 Pending "tok-jane"].

Definition request (t : Z) (fields : list (string * string)) : Request :=
  {| remote_addr := "203.0.113.7"; x_forwarded_for := None;
     header_user_agent := Some "Mozilla/5.0"; header_referer := None;
     form := fields; current_user := None; now := t |}.

Definition admin_request (t : Z) : Request :=
  {| remote_addr := "198.51.100.1"; x_forwarded_for := None;
     header_user_agent := Some "Mozilla/5.0"; header_referer := None;
     form := []; current_user := Some (1, true); now := t |}.

Definition world (d : DB) (r : MemRedis) : World MemRedis :=
  {| db := d; redis := r |}.

Definition config : Config :=
  {| BASE_URL := "http://localhost:5000";
     MAIL_DEFAULT_SENDER := Some "security@example.com";
     MAX_EMAILS_PER_HOUR := 100;
     CAMPAIGN_CONSENT_REQUIRED := true |}.

(** A mail system that refuses John's address and accepts the others. *)
Definition refuse_john (m : Message) : option string :=
if String.eqb (msg_to m) "john.doe@example.com"
then Some "550 mailbox unavailable" else None.

(** The dispatcher about to run on the sample campaign at instant 1000. *)
Definition dispatch_start : Run :=
{| run_db := pending_db; clock := 1000;
   sender := {| sender_campaign := Some drill; rate_limit := 100;
                sent_count := 0; start_time := 1000 |};
   delivered := [] |}.

(** The campaigns view with nothing queued and nothing flashed yet. *)
Definition app (d : DB) : App := {| app_db := d; queued := []; flashes := [] |}.

End Sample.

(* ================================================================== *)
(** * Further relations on the store *)
(* ================================================================== *)

(** No target has two recorded events of one trigger type. *)
Definition deduplicated (d : DB) : Prop :=
  forall (id : Z) (t : Trigger),
    (event_count id (event_of_trigger t) d <= 1)%nat.

(** The rows of [campaign_targets] other than those with key [id]. *)
Definition other_targets (id : Z) (d : DB) : list CampaignTarget :=
  filter (fun ct => negb (ct_id ct =? id)) (campaign_targets d).

(** The events recorded for targets other than [id]. *)
Definition other_events (id : Z) (d : DB) : list EmailEvent :=
  filter (fun e => negb (campaign_target_id e =? id)) (email_events d).

(** The event [e] is attached to no target of campaign [cid]. *)
Definition foreign_event (cid : Z) (e : EmailEvent) (d : DB) : Prop :=
  forall ct, In ct (campaign_targets d) ->
             ct_id ct = campaign_target_id e -> campaign_id ct <> cid.

(* ================================================================== *)
(** * Views of a dispatcher run used to state its properties *)
(* ================================================================== *)

(** The [sent] event the dispatcher stores for a target at instant [t]. *)
Definition sent_event (campaign : Campaign) (template : Template)
    (campaign_target : CampaignTarget) (t : Z) : EmailEvent :=
  {| campaign_target_id := ct_id campaign_target;
     event_type := EvSent;
     timestamp := t;
     ip_address := Some "127.0.0.1";
     user_agent := None;
     metadata := [("server_time", JTime t);
                  ("campaign_name", JStr (c_name campaign));
                  ("template_name", JStr (tpl_name template))] |}.

(** The sender is over its hourly budget at the current instant. *)
Definition over_budget (st : Run) : Prop :=
  clock st - start_time (sender st) < 3600
  /\ rate_limit (sender st) <= sent_count (sender st).

(** Row [b] is row [a] after part of a run: same identity, status kept or
    set to [Sent], and [Sent] when its key is among [done]. *)
Definition sent_so_far (done : list Z) (a b : CampaignTarget) : Prop :=
  ct_id b = ct_id a /\ campaign_id b = campaign_id a
  /\ (status b = status a \/ status b = Sent)
  /\ (In (ct_id a) done -> status b = Sent).

(** The campaign row once a run has found no pending target left. *)
Definition completed (t : Z) (c : Campaign) : Campaign :=
  {| c_id := c_id c; c_name := c_name c; template_id := template_id c;
     c_status := Completed; consent_verified := consent_verified c;
     created_by := created_by c; started_at := started_at c;
     completed_at := Some t |}.

(** The recipient of [m] is the target of one of the rows [cts]. *)
Definition addressed_to (cts : list CampaignTarget) (d : DB) (m : Message) : Prop :=
  exists ct target,
    In ct cts /\ get_target (target_id ct) d = Some target
    /\ msg_to m = email target.

(* ================================================================== *)
(** * Further sample data *)
(* ================================================================== *)

Module Sample2.

(** A mail system that accepts every message. *)
Definition accept_all (_ : Message) : option string := None.

(** The dispatcher at instant 1000 with its hourly budget of 100 used up. *)
Definition exhausted_start : Run :=
{| run_db := Sample.pending_db; clock := 1000;
   sender := {| sender_campaign := Some Sample.drill; rate_limit := 100;
                sent_count := 100; start_time := 1000 |};
   delivered := [] |}.

(** The dispatcher on the store whose mails are already out. *)
Definition rerun_start : Run :=
{| run_db := Sample.sent_db; clock := 5000;
   sender := {| sender_campaign := None; rate_limit := 100;
                sent_count := 0; start_time := 5000 |};
   delivered := [] |}.

End Sample2.

(* ================================================================== *)
(** * Campaign lifecycle views ([routes/campaigns.py]) *)
(* ================================================================== *)

Definition pause_campaign_row (cid : Z) (d : DB) : DB :=
  with_campaigns
    (map (fun c =>
            if c_id c =? cid
            then {| c_id := c_id c; c_name := c_name c;
                    template_id := template_id c; c_status := Paused;
                    consent_verified := consent_verified c;
                    created_by := created_by c; started_at := started_at c;
                    completed_at := completed_at c |}
            else c)
         (campaigns d))
    d.

(** [pause_campaign(id)], behind [@login_required].  The audit entry
    carries no details. *)
Definition pause_campaign (id : Z) (req : Request) (a : App) : App * Reply :=
  match current_user req with
  | None => (a, LoginRequired)
  | Some (uid, is_admin) =>
      match get_campaign id (app_db a) with
      | None => (a, NotFound)
      | Some campaign =>
          if negb is_admin && negb (created_by campaign =? uid)
          then (flash "Access denied." "danger" a,
                RedirectTo "campaigns.index" None)
          else if negb (campaign_status_eqb (c_status campaign) Active)
          then (flash "Only active campaigns can be paused." "warning" a,
                RedirectTo "campaigns.view" (Some id))
          else
            let d1 := pause_campaign_row (c_id campaign) (app_db a) in
            let d2 := log_audit req "CAMPAIGN_PAUSED" "campaign"
                        (c_id campaign) [] d1 in
            (flash "Campaign has been paused." "info"
                   {| app_db := d2; queued := queued a; flashes := flashes a |},
             RedirectTo "campaigns.view" (Some id))
      end
  end.

(** [complete_campaign(id)]. *)
Definition complete_campaign (id : Z) (req : Request) (a : App) : App * Reply :=
  match current_user req with
  | None => (a, LoginRequired)
  | Some (uid, is_admin) =>
      match get_campaign id (app_db a) with
      | None => (a, NotFound)
      | Some campaign =>
          if negb is_admin && negb (created_by campaign =? uid)
          then (flash "Access denied." "danger" a,
                RedirectTo "campaigns.index" None)
          else if negb (campaign_status_eqb (c_status campaign) Active
                        || campaign_status_eqb (c_status campaign) Paused)
          then (flash "Only active or paused campaigns can be completed."
                      "warning" a,
                RedirectTo "campaigns.view" (Some id))
          else
            let d1 := complete_campaign_row (c_id campaign) (now req)
                                            (app_db a) in
            let d2 := log_audit req "CAMPAIGN_COMPLETED" "campaign"
                        (c_id campaign) [] d1 in
            (flash "Campaign has been marked as completed." "success"
                   {| app_db := d2; queued := queued a; flashes := flashes a |},
             RedirectTo "campaigns.view" (Some id))
      end
  end.

(** [delete_campaign(id)]: the campaign's rows of [campaign_targets] are
    deleted in bulk, then the campaign row; events are not touched. *)
Definition delete_campaign (id : Z) (req : Request) (a : App) : App * Reply :=
  match current_user req with
  | None => (a, LoginRequired)
  | Some (uid, is_admin) =>
      match get_campaign id (app_db a) with
      | None => (a, NotFound)
      | Some campaign =>
          if negb is_admin && negb (created_by campaign =? uid)
          then (flash "Access denied." "danger" a,
                RedirectTo "campaigns.index" None)
          else if campaign_status_eqb (c_status campaign) Active
          then (flash "Cannot delete active campaigns. Pause the campaign first."
                      "danger" a,
                RedirectTo "campaigns.view" (Some id))
          else
            let campaign_name := c_name campaign in
            let d1 := with_campaign_targets
                        (filter (fun ct => negb (campaign_id ct =? id))
                                (campaign_targets (app_db a)))
                        (app_db a) in
            let d2 := with_campaigns
                        (filter (fun c => negb (c_id c =? c_id campaign))
                                (campaigns d1))
                        d1 in
            let d3 := log_audit req "CAMPAIGN_DELETED" "campaign" id
                        [("name", JStr campaign_name)] d2 in
            (flash ("Campaign " ++ dq ++ campaign_name ++ dq
                    ++ " has been deleted.")
                   "success"
                   {| app_db := d3; queued := queued a; flashes := flashes a |},
             RedirectTo "campaigns.index" None)
      end
  end.

(** The four state-changing views of a campaign. *)
Inductive CampaignAction :=
| DoSend (thread_starts : bool)
| DoPause
| DoComplete
| DoDelete.

Definition perform (cfg : Config) (act : CampaignAction) (id : Z)
    (req : Request) (a : App) : App * Reply :=
  match act with
  | DoSend thread_starts => send_campaign cfg id req thread_starts a
  | DoPause => pause_campaign id req a
  | DoComplete => complete_campaign id req a
  | DoDelete => delete_campaign id req a
  end.

(** Requests served one after the other. *)
Definition perform_all (cfg : Config)
    (acts : list (CampaignAction * Z * Request)) (a : App) : App :=
  fold_left (fun acc x => fst (perform cfg (fst (fst x)) (snd (fst x)) (snd x) acc))
            acts a.

(** Position of a campaign status in the lifecycle
    draft < active < paused < completed. *)
Definition campaign_rank (s : CampaignStatus) : nat :=
  match s with
  | Draft => 0 | Active => 1 | Paused => 2 | Completed => 3
  end%nat.

(** Primary key of [campaigns], and the unique constraint on tokens. *)
Definition campaign_keys_unique (d : DB) : Prop :=
  NoDup (map c_id (campaigns d)).

Definition tokens_unique (d : DB) : Prop :=
  NoDup (map unique_token (campaign_targets d)).

(** Every campaign of [d'] was in [d] under the same key, at a status not
    further in the lifecycle. *)
Definition lifecycle_forward (d d' : DB) : Prop :=
  forall c', In c' (campaigns d') ->
             exists c, In c (campaigns d) /\ c_id c' = c_id c
                       /\ (campaign_rank (c_status c)
                           <= campaign_rank (c_status c'))%nat.

(** The request is one the permission checks of the campaign views turn
    away: nobody is signed in, the campaign does not exist, or the user
    is neither an administrator nor the campaign's creator. *)
Definition stranger (d : DB) (id : Z) (req : Request) : bool :=
  match current_user req with
  | None => true
  | Some (uid, is_admin) =>
      match get_campaign id d with
      | None => true
      | Some campaign => negb is_admin && negb (created_by campaign =? uid)
      end
  end.

(** The campaign targets of campaign [id]. *)
Definition enrolled (id : Z) (d : DB) : list CampaignTarget :=
  filter (fun ct => campaign_id ct =? id) (campaign_targets d).

Module Sample3.

(** A signed-in user without the administrator flag. *)
Definition user_request (uid t : Z) : Request :=
  {| remote_addr := "198.51.100.2"; x_forwarded_for := None;
     header_user_agent := Some "Mozilla/5.0"; header_referer := None;
     form := []; current_user := Some (uid, false); now := t |}.

(** A second campaign, paused, created by user 2, with one target. *)
Definition audit : Campaign :=
  {| c_id := 2; c_name := "Audit"; template_id := 1; c_status := Paused;
     consent_verified := true; created_by := 2; started_at := Some 10;
     completed_at := None |}.

Definition two_campaigns : DB :=
  {| templates := [Sample.alert]; campaigns := [Sample.drill; audit];
     targets := [Sample.john; Sample.jane];
     campaign_targets :=
       [Sample.enrol 1 Pending "tok-john";
        {| ct_id := 2; campaign_id := 2; target_id := 2; status := Sent;
           unique_token := "tok-jane"; sent_at := Some 11 |}];
     email_events :=
       [{| campaign_target_id := 2; event_type := EvSent; timestamp := 11;
           ip_address := Some "127.0.0.1"; user_agent := None;
           metadata := [] |}];
     audit_logs := [] |}.

(** Send, pause, complete, then attempts to send and pause again, and the
    deletion of the other campaign. *)
Definition session : list (CampaignAction * Z * Request) :=
  [(DoSend true, 1, Sample.admin_request 20);
   (DoPause, 1, Sample.admin_request 21);
   (DoSend true, 1, Sample.admin_request 22);
   (DoComplete, 1, Sample.admin_request 23);
   (DoPause, 1, Sample.admin_request 24);
   (DoDelete, 2, user_request 2 25)].

(** Requests by user 3, who created neither campaign, and by nobody. *)
Definition intrusion : list (CampaignAction * Z * Request) :=
  [(DoSend true, 1, user_request 3 30);
   (DoDelete, 2, user_request 3 31);
   (DoComplete, 2, Sample.request 32 []);
   (DoPause, 7, Sample.admin_request 33)].

End Sample3.

(* ================================================================== *)
(** * Text helpers: [str] methods and regular expressions *)
(* ================================================================== *)

Module Text.

(** [c.isspace()] for a character of a [str] with code point below 256. *)
Definition is_space (c : ascii) : bool :=
  let n := nat_of_ascii c in
  ((9 <=? n) && (n <=? 13) || (28 <=? n) && (n <=? 32)
   || (n =? 133) || (n =? 160))%nat.

Fixpoint lstrip (s : string) : string :=
  match s with
  | String c s' => if is_space c then lstrip s' else s
  | EmptyString => EmptyString
  end.

(** [s.strip()]. *)
Definition strip (s : string) : string :=
  Py.rev_string "" (lstrip (Py.rev_string "" (lstrip s))).




(** [s[:n]]. *)
Definition upto (n : nat) (s : string) : string := String.substring 0 n s.

(** [re.sub('[...]', '', s)] for a character class given as a test. *)
Fixpoint remove_class (cls : ascii -> bool) (s : string) : string :=
  match s with
  | EmptyString => EmptyString
  | String c s' =>
      if cls c then remove_class cls s' else String c (remove_class cls s')
  end.

(** Every character of [s] passes the test. *)
Fixpoint all_chars (p : ascii -> bool) (s : string) : bool :=
  match s with
  | EmptyString => true
  | String c s' => p c && all_chars p s'
  end.

(** [sep.join(items)]. *)
Fixpoint join (sep : string) (items : list string) : string :=
  match items with
  | [] => EmptyString
  | [x] => x
  | x :: rest => x ++ sep ++ join sep rest
  end.

End Text.

(** Regular expressions without groups or look-around, and whether a
    string belongs to the language of one, by derivatives. *)
Module Regex.

Inductive Re :=
| Nothing
| Eps
| Chr (c : ascii)
| Cls (p : ascii -> bool)
| Cat (r1 r2 : Re)
| Alt (r1 r2 : Re)
| Star (r : Re).

(** [r+] and [r{2,}]. *)
Definition Plus (r : Re) : Re := Cat r (Star r).
Definition TwoOrMore (r : Re) : Re := Cat r (Cat r (Star r)).

(** [$] at the end of a pattern, without [re.MULTILINE]: the end of the
    string, or the position before a newline that ends the string. *)
Definition Dollar : Re := Alt Eps (Chr "010").

Fixpoint nullable (r : Re) : bool :=
  match r with
  | Nothing | Chr _ | Cls _ => false
  | Eps | Star _ => true
  | Cat r1 r2 => nullable r1 && nullable r2
  | Alt r1 r2 => nullable r1 || nullable r2
  end.

Fixpoint deriv (a : ascii) (r : Re) : Re :=
  match r with
  | Nothing | Eps => Nothing
  | Chr c => if Ascii.eqb a c then Eps else Nothing
  | Cls p => if p a then Eps else Nothing
  | Cat r1 r2 =>
      if nullable r1 then Alt (Cat (deriv a r1) r2) (deriv a r2)
      else Cat (deriv a r1) r2
  | Alt r1 r2 => Alt (deriv a r1) (deriv a r2)
  | Star r1 => Cat (deriv a r1) (Star r1)
  end.

(** The whole of [s] is matched by [r]. *)
Fixpoint fullmatch (r : Re) (s : string) : bool :=
  match s with
  | EmptyString => nullable r
  | String a s' => fullmatch (deriv a r) s'
  end.

(** The strings a pattern matches entirely. *)
Inductive Lang : Re -> string -> Prop :=
| LEps : Lang Eps EmptyString
| LChr c : Lang (Chr c) (String c EmptyString)
| LCls (p : ascii -> bool) c : p c = true -> Lang (Cls p) (String c EmptyString)
| LCat r1 r2 s1 s2 : Lang r1 s1 -> Lang r2 s2 -> Lang (Cat r1 r2) (s1 ++ s2)
| LAltL r1 r2 s : Lang r1 s -> Lang (Alt r1 r2) s
| LAltR r1 r2 s : Lang r2 s -> Lang (Alt r1 r2) s
| LStarNil r : Lang (Star r) EmptyString
| LStarCons r s1 s2 :
    Lang r s1 -> Lang (Star r) s2 -> Lang (Star r) (s1 ++ s2).

End Regex.

(* ================================================================== *)
(** * Display and input helpers ([utils/security.py], [utils/helpers.py],
      [database/models.py]) *)
(* ================================================================== *)

Definition between (lo hi : nat) (c : ascii) : bool :=
  ((lo <=? nat_of_ascii c) && (nat_of_ascii c <=? hi))%nat.

(** The classes [[a-zA-Z]], [[a-zA-Z0-9._%+-]] and [[a-zA-Z0-9.-]]. *)
Definition is_letter (c : ascii) : bool := between 97 122 c || between 65 90 c.

Definition is_local_char (c : ascii) : bool :=
  is_letter c || between 48 57 c
  || Ascii.eqb c "." || Ascii.eqb c "_" || Ascii.eqb c "%"
  || Ascii.eqb c "+" || Ascii.eqb c "-".

Definition is_domain_char (c : ascii) : bool :=
  is_letter c || between 48 57 c || Ascii.eqb c "." || Ascii.eqb c "-".

(** [^[a-zA-Z0-9._%+-]+@[a-zA-Z0-9.-]+\.[a-zA-Z]{2,}$]. *)
Definition email_pattern : Regex.Re :=
  Regex.Cat (Regex.Plus (Regex.Cls is_local_char))
    (Regex.Cat (Regex.Chr "@")
       (Regex.Cat (Regex.Plus (Regex.Cls is_domain_char))
          (Regex.Cat (Regex.Chr ".")
             (Regex.Cat (Regex.TwoOrMore (Regex.Cls is_letter))
                        Regex.Dollar)))).

(** [validate_email(email)]: [re.match] of a pattern closed by [$]
    succeeds when the pattern, with its [$], matches the whole string. *)
Definition validate_email (address : string) : bool :=
  Regex.fullmatch email_pattern address.


(** The character class of [sanitize_filename]: less-than, greater-than,
    colon, double quote, slash, backslash, bar, question mark, star. *)
Definition is_dangerous (c : ascii) : bool :=
  Ascii.eqb c "<" || Ascii.eqb c ">" || Ascii.eqb c ":"
  || Ascii.eqb c (ascii_of_nat 34) || Ascii.eqb c "/" || Ascii.eqb c "\"
  || Ascii.eqb c "|" || Ascii.eqb c "?" || Ascii.eqb c "*".

(** [sanitize_filename(filename)]. *)
Definition sanitize_filename (filename : string) : string :=
  let filename := Py.replace ".." "" (Py.replace "/" "" filename) in
  let filename := Text.remove_class is_dangerous filename in
  Text.upto 100 filename.

(** A name with a colon put after each of its characters. *)
Fixpoint spaced_out (s : string) : string :=
  match s with
  | EmptyString => EmptyString
  | String c s' => String c (String ":" (spaced_out s'))
  end.

(** [time_ago(dt)] for [None] or an aware [datetime]; [dt] and the
    current instant [now] are counted in microseconds.  The difference is
    a [timedelta], whose [days] may be negative and whose [seconds] lie
    in [0, 86400). *)
Definition time_ago (dt : option Z) (now : Z) : string :=
  match dt with
  | None => "Never"
  | Some dt =>
      let diff := now - dt in
      let days := diff / 86400000000 in
      let seconds := (diff mod 86400000000) / 1000000 in
      if 0 <? days
      then Py.str_of_int days ++ " day"
           ++ (if negb (days =? 1) then "s" else "") ++ " ago"
      else if 3600 <? seconds
      then let hours := seconds / 3600 in
           Py.str_of_int hours ++ " hour"
           ++ (if negb (hours =? 1) then "s" else "") ++ " ago"
      else if 60 <? seconds
      then let minutes := seconds / 60 in
           Py.str_of_int minutes ++ " minute"
           ++ (if negb (minutes =? 1) then "s" else "") ++ " ago"
      else "Just now"
  end.

(** An f-string field holding an optional [str]. *)
Definition format_field (o : option string) : string :=
  match o with Some s => s | None => "None" end.

(** [Target.full_name()]. *)
Definition full_name (t : Target) : string :=
  let name := Text.strip (format_field (first_name t) ++ " "
                          ++ format_field (last_name t)) in
  if Py.truthy name then name else email t.




(* ================================================================== *)
(** * Enrolling targets ([utils/helpers.py], [routes/campaigns.py]) *)
(* ================================================================== *)

(** A row as [csv.DictReader] yields it, a dictionary from the field names
    to the values of the line; a field the line is too short for has the
    value [None]. *)
Definition CsvRow : Type := list (string * option string).

(** The reader over an uploaded file: [fieldnames] is [None] for a file
    without any line. *)
Record CsvReader := {
  fieldnames : option (list string);
  csv_rows : list CsvRow
}.

(** The keyword arguments of [Target(...)]. *)
Record TargetData := {
  td_email : string;
  td_first_name : option string;
  td_last_name : option string;
  td_department : option string
}.

(** [row.get(key)]: [None] when the key is absent. *)
Fixpoint dict_get (key : string) (row : CsvRow) : option (option string) :=
  match row with
  | [] => None
  | (k, v) :: rest => if String.eqb k key then Some v else dict_get key rest
  end.

(** [row.get(key, '').strip()]; [None] stands for the [AttributeError]
    raised on a value that is [None]. *)
Definition stripped_field (key : string) (row : CsvRow) : option string :=
  match dict_get key row with
  | None => Some (Text.strip "")
  | Some None => None
  | Some (Some v) => Some (Text.strip v)
  end.

(** [s or None]. *)
Definition or_none (s : string) : option string :=
  if Py.truthy s then Some s else None.

Definition processing_error (row_num : Z) : string :=
  "Row " ++ Py.str_of_int row_num
  ++ ": Error processing row - 'NoneType' object has no attribute 'strip'".

(** The body of the loop of [parse_target_csv]: the target data of the
    row, or the message appended to [errors]. *)
Definition parse_row (row_num : Z) (row : CsvRow) : TargetData + string :=
  match stripped_field "email" row with
  | None => inr (processing_error row_num)
  | Some address =>
      if negb (Py.truthy address)
      then inr ("Row " ++ Py.str_of_int row_num ++ ": Email is required")
      else if negb (Regex.fullmatch email_pattern address)
      then inr ("Row " ++ Py.str_of_int row_num
                ++ ": Invalid email format: " ++ address)
      else
        match stripped_field "first_name" row,
              stripped_field "last_name" row,
              stripped_field "department" row with
        | Some first, Some last, Some dept =>
            inl {| td_email := address;
                   td_first_name := or_none first;
                   td_last_name := or_none last;
                   td_department := or_none dept |}
        | _, _, _ => inr (processing_error row_num)
        end
  end.

Fixpoint parse_rows (row_num : Z) (rows : list CsvRow)
  : list TargetData * list string :=
  match rows with
  | [] => ([], [])
  | row :: rest =>
      let (targets, errors) := parse_rows (row_num + 1) rest in
      match parse_row row_num row with
      | inl target_data => (target_data :: targets, errors)
      | inr message => (targets, message :: errors)
      end
  end.

(** [parse_target_csv(file_content)], from the reader on; [None] stands
    for the [TypeError] of the header test on a file without any line. *)
Definition parse_target_csv (reader : CsvReader)
  : option (list TargetData * list string) :=
  match fieldnames reader with
  | None => None
  | Some names =>
      if negb (existsb (String.eqb "email") names)
      then Some ([], ["Missing required headers: email"])
      else Some (parse_rows 2 (csv_rows reader))
  end.

Definition with_targets (l : list Target) (d : DB) : DB :=
  {| templates := templates d; campaigns := campaigns d; targets := l;
     campaign_targets := campaign_targets d; email_events := email_events d;
     audit_logs := audit_logs d |}.

(** [Target.query.filter_by(email=address).first()]. *)
Definition find_target (address : string) (d : DB) : option Target :=
  find (fun t => String.eqb (email t) address) (targets d).

(** [CampaignTarget.query.filter_by(campaign_id=cid, target_id=tid).first()]. *)
Definition find_assignment (cid tid : Z) (d : DB) : option CampaignTarget :=
  find (fun ct => (campaign_id ct =? cid) && (target_id ct =? tid))
       (campaign_targets d).

(** The unique constraint on [unique_token] would be violated. *)
Definition token_taken (token : string) (d : DB) : bool :=
  existsb (fun ct => String.eqb (unique_token ct) token) (campaign_targets d).

(** [TargetForm.validate_email]: an address that is already in the target
    list fails the validation of the manual form. *)
Definition TargetForm_validate_email (address : string) (d : DB) : bool :=
  match find_target address d with
  | Some _ => false
  | None => true
  end.

(** What a request to [manage_targets] carries once the forms have been
    bound: an import form that validates and holds a file ([None] when
    its bytes are not UTF-8), else a manual form whose button was pressed
    and whose field validators (required address, address syntax,
    lengths) pass, else nothing to process. *)
Inductive Posted :=
| CsvFile (file : option CsvReader)
| ManualFields (form : TargetData)
| NoForm.

Section Enrolment.

(** The primary key the database gives to a row added to a table that
    holds the given keys. *)
Variable fresh : list Z -> Z.

(** The target with the address of [data], added to the session and
    flushed when there is none yet. *)
Definition ensure_target (data : TargetData) (d : DB) : Target * DB :=
  match find_target (td_email data) d with
  | Some target => (target, d)
  | None =>
      let target := {| t_id := fresh (map t_id (targets d));
                       email := td_email data;
                       first_name := td_first_name data;
                       last_name := td_last_name data;
                       department := td_department data |} in
      (target, with_targets (targets d ++ [target]) d)
  end.

(** [CampaignTarget(campaign_id=..., target_id=..., status='pending')],
    whose token is drawn from the random number [rnd]. *)
Definition pending_assignment (campaign : Campaign) (target : Target)
    (rnd : Z) (d : DB) : CampaignTarget :=
  Tokens.new_campaign_target (fresh (map ct_id (campaign_targets d)))
                             (c_id campaign) (t_id target) Pending None rnd.

(** One iteration of the loop of [handle_csv_import] on the database and
    [created_count]; [None] stands for the [IntegrityError] of a token
    that is already taken, raised when the row is flushed. *)
Definition import_row (campaign : Campaign) (rnd : nat -> Z)
    (target_data : TargetData) (st : DB * nat) : option (DB * nat) :=
  let (d, created_count) := st in
  let (target, d1) := ensure_target target_data d in
  match find_assignment (c_id campaign) (t_id target) d1 with
  | Some _ => Some (d1, created_count)
  | None =>
      let campaign_target :=
        pending_assignment campaign target (rnd created_count) d1 in
      if token_taken (unique_token campaign_target) d1 then None
      else Some (with_campaign_targets
                   (campaign_targets d1 ++ [campaign_target]) d1,
                 S created_count)
  end.

Fixpoint import_rows (campaign : Campaign) (rnd : nat -> Z)
    (targets : list TargetData) (st : DB * nat) : option (DB * nat) :=
  match targets with
  | [] => Some st
  | target_data :: rest =>
      match import_row campaign rnd target_data st with
      | Some st' => import_rows campaign rnd rest st'
      | None => None
      end
  end.

(** [handle_csv_import(file, campaign)].  Every exception is caught: the
    session is rolled back and an error is flashed. *)
Definition handle_csv_import (file : option CsvReader) (campaign : Campaign)
    (req : Request) (rnd : nat -> Z) (a : App) : App * Reply :=
  let back := RedirectTo "campaigns.manage_targets" (Some (c_id campaign)) in
  let failed :=
    (flash "An error occurred while importing the CSV file." "danger" a,
     back) in
  match file with
  | None => failed
  | Some reader =>
      match parse_target_csv reader with
      | None => failed
      | Some (targets, errors) =>
          match errors with
          | _ :: _ =>
              (flash ("CSV import errors: "
                      ++ Text.join "; " (firstn 5 errors)) "danger" a,
               back)
          | [] =>
              match import_rows campaign rnd targets (app_db a, O) with
              | None => failed
              | Some (d1, created_count) =>
                  let d2 := log_audit req "TARGETS_IMPORTED" "campaign"
                              (c_id campaign)
                              [("count", JInt (Z.of_nat created_count));
                               ("source", JStr "csv")] d1 in
                  (flash ("Successfully imported "
                          ++ Py.str_of_int (Z.of_nat created_count)
                          ++ " targets to the campaign.") "success"
                         {| app_db := d2; queued := queued a;
                            flashes := flashes a |},
                   back)
              end
          end
      end
  end.

(** [handle_manual_target(form, campaign)].  The audit entry is committed
    before the success is flashed, so a token that is already taken
    raises there and only the error is flashed. *)
Definition handle_manual_target (form : TargetData) (campaign : Campaign)
    (req : Request) (rnd : Z) (a : App) : App * Reply :=
  let back := RedirectTo "campaigns.manage_targets" (Some (c_id campaign)) in
  let (target, d1) := ensure_target form (app_db a) in
  match find_assignment (c_id campaign) (t_id target) d1 with
  | Some _ =>
      (flash "Target is already assigned to this campaign." "warning"
             {| app_db := d1; queued := queued a; flashes := flashes a |},
       back)
  | None =>
      let campaign_target := pending_assignment campaign target rnd d1 in
      if token_taken (unique_token campaign_target) d1
      then (flash "An error occurred while adding the target." "danger" a,
            back)
      else
        let d2 := with_campaign_targets
                    (campaign_targets d1 ++ [campaign_target]) d1 in
        let d3 := log_audit req "TARGET_ADDED" "campaign" (c_id campaign)
                    [("target_email", JStr (email target));
                     ("source", JStr "manual")] d2 in
        (flash ("Target " ++ email target ++ " added to campaign.") "success"
               {| app_db := d3; queued := queued a; flashes := flashes a |},
         back)
  end.

(** [manage_targets(id)], behind [@login_required]; the reply [None]
    stands for the rendered page of the campaign's targets. *)
Definition manage_targets (id : Z) (req : Request) (posted : Posted)
    (rnd : nat -> Z) (a : App) : App * option Reply :=
  match current_user req with
  | None => (a, Some LoginRequired)
  | Some (uid, is_admin) =>
      match get_campaign id (app_db a) with
      | None => (a, Some NotFound)
      | Some campaign =>
          if negb is_admin && negb (created_by campaign =? uid)
          then (flash "Access denied." "danger" a,
                Some (RedirectTo "campaigns.index" None))
          else if campaign_status_eqb (c_status campaign) Active
          then (flash "Cannot add targets to active campaigns." "warning" a,
                Some (RedirectTo "campaigns.view" (Some id)))
          else
            match posted with
            | CsvFile file =>
                let (a', reply) := handle_csv_import file campaign req rnd a in
                (a', Some reply)
            | ManualFields form =>
                if TargetForm_validate_email (td_email form) (app_db a)
                then let (a', reply) :=
                       handle_manual_target form campaign req (rnd O) a in
                     (a', Some reply)
                else (a, None)
            | NoForm => (a, None)
            end
      end
  end.

End Enrolment.

(** The constraints the enrolment code relies on and maintains: unique
    keys and addresses of targets, unique keys and tokens of campaign
    targets, at most one campaign target per campaign and target, and a
    target row behind every campaign target. *)
Definition target_keys_unique (d : DB) : Prop := NoDup (map t_id (targets d)).

Definition addresses_unique (d : DB) : Prop := NoDup (map email (targets d)).

Definition assignments_unique (d : DB) : Prop :=
  NoDup (map (fun ct => (campaign_id ct, target_id ct)) (campaign_targets d)).

Definition targets_exist (d : DB) : Prop :=
  forall ct, In ct (campaign_targets d) -> In (target_id ct) (map t_id (targets d)).

Definition enrolment_consistent (d : DB) : Prop :=
  target_keys_unique d /\ addresses_unique d /\ primary_keys_unique d
  /\ tokens_unique d /\ assignments_unique d /\ targets_exist d.

(** The allocator never hands out a key that is in use. *)
Definition allocates_fresh (fresh : list Z -> Z) : Prop :=
  forall keys, ~ In (fresh keys) keys.

(** The target with this address is assigned to the campaign. *)
Definition enrolled_address (cid : Z) (address : string) (d : DB) : Prop :=
  exists target ct,
    find_target address d = Some target
    /\ find_assignment cid (t_id target) d = Some ct.

(** Number of times the dispatch of a campaign was queued. *)
Definition times_queued (id : Z) (a : App) : nat :=
  count_occ Z.eq_dec (queued a) id.

Module Sample4.

(** Keys handed out in increasing order. *)
Definition next_key (keys : list Z) : Z := 1 + fold_right Z.max 0 keys.

Definition staff_csv : CsvReader :=
  {| fieldnames := Some ["email"; "first_name"; "department"];
     csv_rows :=
       [[("email", Some " bob.wilson@example.com ");
         ("first_name", Some "Bob"); ("department", Some "Finance")];
        [("email", Some "jane.smith@example.com");
         ("first_name", Some ""); ("department", Some "")]] |}.

(** The second line is too short and the third has no valid address. *)
Definition broken_csv : CsvReader :=
  {| fieldnames := Some ["email"; "first_name"];
     csv_rows :=
       [[("email", Some "bob.wilson@example.com"); ("first_name", Some "Bob")];
        [("email", Some "al@example.com"); ("first_name", None)];
        [("email", Some "not-an-address"); ("first_name", Some "Cy")]] |}.

Definition randomness (n : nat) : Z := 1000 + Z.of_nat n.

Definition bob_form : TargetData :=
  {| td_email := "bob.wilson@example.com"; td_first_name := Some "Bob";
     td_last_name := Some ""; td_department := Some "Finance" |}.

Definition jane_form : TargetData :=
  {| td_email := "jane.smith@example.com"; td_first_name := Some "Jane";
     td_last_name := Some "Smith"; td_department := Some "HR" |}.

End Sample4.

(** [n] calls of [rate_limit_check] in a row for one identifier, against
    the in-memory Redis: the answers in order, and the store left. *)
Fixpoint repeated_checks (n : nat) (identifier : string) (limit window : Z)
    (r : MemRedis) : list bool * MemRedis :=
  match n with
  | O => ([], r)
  | S k =>
      let (ok, r1) := rate_limit_check identifier limit window r in
      let (oks, r2) := repeated_checks k identifier limit window r1 in
      (ok :: oks, r2)
  end.

(** The number a string of decimal digits denotes after the digits read
    so far gave [acc]. *)
Fixpoint uint_value (d : Decimal.uint) (acc : Z) : Z :=
  match d with
  | Decimal.Nil => acc
  | Decimal.D0 l => uint_value l (10 * acc)
  | Decimal.D1 l => uint_value l (10 * acc + 1)
  | Decimal.D2 l => uint_value l (10 * acc + 2)
  | Decimal.D3 l => uint_value l (10 * acc + 3)
  | Decimal.D4 l => uint_value l (10 * acc + 4)
  | Decimal.D5 l => uint_value l (10 * acc + 5)
  | Decimal.D6 l => uint_value l (10 * acc + 6)
  | Decimal.D7 l => uint_value l (10 * acc + 7)
  | Decimal.D8 l => uint_value l (10 * acc + 8)
  | Decimal.D9 l => uint_value l (10 * acc + 9)
  end.

(** The body of the message opens with the training banner. *)
Definition banner_first (m : Message) : Prop :=
  Py.startswith watermark (msg_html m) = true.

(** The second state has the deliveries of the first, followed by
    messages that all open with the banner. *)
Definition delivers_with_banner (st st' : Run) : Prop :=
  exists new,
    delivered st' = (delivered st ++ new)%list /\ Forall banner_first new.

(** The class [[0-9a-f]]. *)
Definition is_lower_hex (c : ascii) : bool := between 48 57 c || between 97 102 c.

(* ================================================================== *)
(** * A primary key handed out twice *)
(* ================================================================== *)

(** SQLite gives a row of [campaign_targets] one more than the largest
    key in the table ([id] is an INTEGER PRIMARY KEY without
    AUTOINCREMENT), so the key of a deleted last row is handed out again.
    Jane submits the form of campaign 2; the creator of that campaign
    deletes it, which removes her row of [campaign_targets] and leaves her
    events; Bob is then added to campaign 1 by hand and his row receives
    the key that was Jane's. *)
Module Sample5.

Definition submitted : World MemRedis :=
  fst (handle Sample.digest Sample.no_indicators Submit "tok-jane"
              (Sample.request 12 [])
              (Sample.world Sample3.two_campaigns Sample.redis_up)).

Definition deleted : App :=
  fst (delete_campaign 2 (Sample3.user_request 2 25)
                       (Sample.app (db submitted))).

Definition reenrolled : App :=
  fst (manage_targets Sample4.next_key 1 (Sample.admin_request 26)
                      (ManualFields Sample4.bob_form) Sample4.randomness
                      deleted).

Definition reused : World MemRedis :=
  Sample.world (app_db reenrolled) (redis submitted).

(** The row of Bob and the token drawn for it. *)
Definition bob : CampaignTarget :=
  {| ct_id := 2; campaign_id := 1; target_id := 3; status := Pending;
     unique_token := "000000000000400080000000000003e8"; sent_at := None |}.

End Sample5.

(* ================================================================== *)
(** * The template form ([TemplateForm] of [utils/validators.py]) *)
(* ================================================================== *)

(** [TemplateForm.validate_html_content(self, html_content)], the
    validator that WTForms runs on the [html_content] field when the form
    a template is saved with is validated; the argument is
    [html_content.data].  [Some msg] is [ValidationError(msg)] and [None]
    the normal return. *)
Definition TemplateForm_validate_html_content (data : string) : option string :=
  if negb (Py.truthy (Text.strip data))
  then Some "HTML content cannot be empty."
  else
    match find (fun var => negb (Templates.is_allowed var))
               (Templates.findall data) with
    | Some var =>
        Some ("Template variable '" ++ var
              ++ "' is not allowed. Allowed variables: "
              ++ Text.join ", " Templates.allowed_variables)
    | None => None
    end.

(* ================================================================== *)
(** * Facts about the rate limiter *)
(* ================================================================== *)

Section RateLimitFacts.
Context {R : Type} `{RedisClient R}.

Lemma truthy_or_else (o : option string) :
  Py.truthy_opt o = true -> o = Some (Py.or_else o "").
Proof.
  destruct o as [s|]; simpl; [|discriminate].
  destruct s; simpl; [discriminate|reflexivity].
Qed.

(** The check refuses only after Redis has answered with a counter that
    reads as an integer at or above the limit. *)
Lemma rate_limit_refusal identifier limit window (r : R) :
  fst (rate_limit_check identifier limit window r) = false ->
  exists r1 r2 v n,
    redis_from_url r = Returned tt r1
    /\ r_get ("rate_limit:" ++ identifier) r1 = Returned (Some v) r2
    /\ Py.int v = Some n /\ limit <= n.
Proof.
  unfold rate_limit_check, rate_limit_try, bind, ret, raise.
  destruct (redis_from_url r) as [[] r1|e r1] eqn:Hurl; simpl; [|discriminate].
  destruct (r_get _ r1) as [current r2|e r2] eqn:Hget; simpl; [|discriminate].
  destruct (Py.truthy_opt current) eqn:Htruthy.
  - destruct (Py.int (Py.or_else current "")) as [n|] eqn:Hint; simpl;
      [|discriminate].
    destruct (limit <=? n) eqn:Hle; simpl.
    + intros _. exists r1, r2, (Py.or_else current ""), n.
      rewrite <- (truthy_or_else _ Htruthy).
      repeat split; auto. now apply Z.leb_le.
    + destruct (r_incr _ r2); simpl; discriminate.
  - simpl. destruct (r_set _ _ _ r2); simpl; discriminate.
Qed.

(** Whatever the [try] block raises, the answer is [True]. *)
Lemma rate_limit_exception identifier limit window (r : R) exn r' :
  rate_limit_try identifier limit window r = Raised exn r' ->
  rate_limit_check identifier limit window r = (true, r').
Proof. unfold rate_limit_check. now intros ->. Qed.

(** A store that cannot be read makes the [try] block raise. *)
Lemma unreachable_raises identifier limit window (r : R) :
  (forall key r0, exists exn r1, r_get key r0 = Raised exn r1) ->
  exists exn r', rate_limit_try identifier limit window r = Raised exn r'.
Proof.
  intros Hdown. unfold rate_limit_try, bind.
  destruct (redis_from_url r) as [[] r1|e r1]; [|now exists e, r1].
  destruct (Hdown ("rate_limit:" ++ identifier) r1) as (e & r2 & ->).
  now exists e, r2.
Qed.

End RateLimitFacts.

(* ================================================================== *)
(** * Facts about the tracking handlers *)
(* ================================================================== *)

Section TrackingFacts.
Context {R : Type} `{RedisClient R}.
Variable md5 : string -> string.
Variable ext : Template -> list Indicator.

Ltac split_limiter :=
  match goal with
  | |- context [rate_limit_check ?k ?l ?w ?r] =>
      destruct (rate_limit_check k l w r) as [[] ?]; simpl
  end.

Ltac split_match :=
  match goal with
  | |- context [match ?x with _ => _ end] => destruct x eqn:?; simpl
  end.

(** The four ways a trigger can go: refused by the limiter, unknown
    token, duplicate of a recorded event, or a new event. *)
Lemma handle_cases t token req (w : World R) :
  let w' := fst (handle md5 ext t token req w) in
  let resp := snd (handle md5 ext t token req w) in
  (admitted t req w = false /\ db w' = db w /\ code resp = 429)
  \/ (admitted t req w = true /\ find_by_token token (db w) = None
      /\ db w' = db w /\ code resp = 404)
  \/ (admitted t req w = true
      /\ exists ct, find_by_token token (db w) = Some ct
         /\ unseen t ct (db w) = false
         /\ campaign_targets (db w') = campaign_targets (db w)
         /\ email_events (db w') = email_events (db w))
  \/ (admitted t req w = true
      /\ exists ct e, find_by_token token (db w) = Some ct
         /\ unseen t ct (db w) = true
         /\ email_events (db w') = (email_events (db w) ++ [e])%list
         /\ campaign_target_id e = ct_id ct
         /\ event_type e = event_of_trigger t
         /\ campaign_targets (db w') =
              match assigns t (status ct) with
              | Some s => campaign_targets (set_status (ct_id ct) s (db w))
              | None => campaign_targets (db w)
              end).
Proof.
  destruct t; cbn zeta;
    unfold handle, track_open, track_click, track_submission, admitted,
      limiter_key, budget, unseen, event_of_trigger, assigns; cbn [fst snd];
    (split_limiter; [|left; repeat split; reflexivity]);
    (destruct (find_by_token token (db w)) as [ct|] eqn:Hfind; simpl;
     [|right; left; repeat split; reflexivity]);
    right; right.
  - destruct (first_event (ct_id ct) EvOpened (db w)) eqn:Hev; simpl.
    + left. split; auto. exists ct. rewrite Hev. auto.
    + right. split; auto. eexists ct, _. rewrite Hev.
      destruct (status_eqb (status ct) Sent);
        do 5 (split; [reflexivity|]); reflexivity.
  - destruct (first_event (ct_id ct) EvClicked (db w)) eqn:Hev; simpl.
    + left. split; auto. exists ct. rewrite Hev.
      repeat split; auto; repeat split_match; reflexivity.
    + right. split; auto. eexists ct, _. rewrite Hev.
      destruct (status_eqb (status ct) Sent || status_eqb (status ct) Opened);
        repeat split_match; do 5 (split; [reflexivity|]); reflexivity.
  - destruct (first_event (ct_id ct) EvSubmitted (db w)) eqn:Hev; simpl.
    + left. split; auto. exists ct. rewrite Hev. auto.
    + right. split; auto. eexists ct, _. rewrite Hev.
      do 5 (split; [reflexivity|]). reflexivity.
Qed.

End TrackingFacts.

(* ================================================================== *)
(** * Tables of campaign targets under status assignments *)
(* ================================================================== *)

Lemma with_status_same (ct : CampaignTarget) : with_status (status ct) ct = ct.
Proof. now destruct ct. Qed.

Lemma advances_refl (a : CampaignTarget) : advances a a.
Proof. split; [now rewrite with_status_same | apply Nat.le_refl]. Qed.

Lemma advances_trans (a b c : CampaignTarget) :
  advances a b -> advances b c -> advances a c.
Proof.
  intros [Hb Hab] [Hc Hbc]. split; [|now apply Nat.le_trans with (rank (status b))].
  rewrite Hc at 1. rewrite Hb. reflexivity.
Qed.

Lemma advances_token (a b : CampaignTarget) :
  advances a b -> unique_token b = unique_token a /\ ct_id b = ct_id a
                  /\ campaign_id b = campaign_id a /\ target_id b = target_id a.
Proof. intros [-> _]. now repeat split. Qed.

Lemma table_advances_refl (l : list CampaignTarget) : Forall2 advances l l.
Proof. induction l; constructor; auto using advances_refl. Qed.

Lemma table_advances_trans (l1 l2 l3 : list CampaignTarget) :
  Forall2 advances l1 l2 -> Forall2 advances l2 l3 -> Forall2 advances l1 l3.
Proof.
  intros H12. revert l3.
  induction H12 as [|a b l1 l2 Hab _ IH]; intros l3 H23; inversion H23; subst;
    constructor; eauto using advances_trans.
Qed.

Lemma table_advances_ids (l l' : list CampaignTarget) :
  Forall2 advances l l' -> map ct_id l' = map ct_id l.
Proof.
  induction 1 as [|a b l l' Hab _ IH]; simpl; [reflexivity|].
  destruct (advances_token _ _ Hab) as (_ & -> & _). now rewrite IH.
Qed.

Lemma table_advances_find (token : string) (l l' : list CampaignTarget) ct :
  Forall2 advances l l' ->
  find (fun x => String.eqb (unique_token x) token) l = Some ct ->
  exists ct', find (fun x => String.eqb (unique_token x) token) l' = Some ct'
              /\ advances ct ct'.
Proof.
  induction 1 as [|a b l l' Hab _ IH]; simpl; [discriminate|].
  destruct (advances_token _ _ Hab) as (-> & _).
  destruct (String.eqb (unique_token a) token).
  - intros [= <-]. now exists b.
  - exact IH.
Qed.

Lemma table_advances_in (l l' : list CampaignTarget) b :
  Forall2 advances l l' -> In b l' -> exists a, In a l /\ advances a b.
Proof.
  induction 1 as [|a0 b0 l l' Hab _ IH]; simpl; [tauto|].
  intros [<-|Hin]; [now exists a0; auto|].
  destruct (IH Hin) as (a & Ha & Hadv). exists a; auto.
Qed.

(** Rows are determined by their primary key. *)
Lemma unique_row (l : list CampaignTarget) a b :
  NoDup (map ct_id l) -> In a l -> In b l -> ct_id a = ct_id b -> a = b.
Proof.
  induction l as [|x l IH]; simpl; [tauto|].
  intros Hnd Ha Hb Hid. inversion Hnd as [|? ? Hnotin Hnd']; subst.
  destruct Ha as [->|Ha], Hb as [->|Hb]; auto.
  - exfalso. apply Hnotin. rewrite Hid. now apply in_map.
  - exfalso. apply Hnotin. rewrite <- Hid. now apply in_map.
Qed.

Lemma find_by_token_in token d ct :
  find_by_token token d = Some ct ->
  In ct (campaign_targets d) /\ unique_token ct = token.
Proof.
  unfold find_by_token. intros Hf. apply find_some in Hf as [Hin Heq].
  split; [assumption | now apply String.eqb_eq].
Qed.

(** Assigning a status to the row of a key moves the table forward when
    the new status is not behind the status of that row. *)
Lemma set_status_advances d ct s :
  primary_keys_unique d -> In ct (campaign_targets d) ->
  (rank (status ct) <= rank s)%nat ->
  Forall2 advances (campaign_targets d)
          (campaign_targets (set_status (ct_id ct) s d)).
Proof.
  unfold primary_keys_unique, set_status, update_campaign_target. simpl.
  intros Hnd Hin Hle.
  assert (Hall : forall x, In x (campaign_targets d) ->
                           advances x (if ct_id x =? ct_id ct
                                       then with_status s x else x)).
  { intros x Hx. destruct (ct_id x =? ct_id ct) eqn:Hid; [|apply advances_refl].
    apply Z.eqb_eq in Hid.
    rewrite (unique_row _ x ct Hnd Hx Hin Hid). now split. }
  revert Hall. generalize (campaign_targets d) as l.
  induction l as [|x l IH]; simpl; intros Hall; constructor; auto.
Qed.

Lemma set_status_find token d ct s :
  find_by_token token d = Some ct ->
  find_by_token token (set_status (ct_id ct) s d) = Some (with_status s ct).
Proof.
  unfold find_by_token, set_status, update_campaign_target. simpl.
  induction (campaign_targets d) as [|x l IH]; simpl; [discriminate|].
  destruct (String.eqb (unique_token x) token) eqn:Htok.
  - intros [= ->]. rewrite Z.eqb_refl. simpl. now rewrite Htok.
  - intros Hf. destruct (ct_id x =? ct_id ct); simpl; rewrite Htok; auto.
Qed.

Lemma assigns_forward (t : Trigger) (s s' : Status) :
  assigns t s = Some s' -> (rank s <= rank s')%nat.
Proof.
  destruct t, s; simpl; intros [= <-]; simpl; lia.
Qed.

Lemma events_of_ext id ty d d' :
  email_events d' = email_events d -> events_of id ty d' = events_of id ty d.
Proof. unfold events_of. now intros ->. Qed.

Lemma events_of_app id ty d d' e :
  email_events d' = (email_events d ++ [e])%list ->
  events_of id ty d' =
  (events_of id ty d
   ++ (if (campaign_target_id e =? id) && event_type_eqb (event_type e) ty
       then [e] else []))%list.
Proof. unfold events_of. intros ->. now rewrite filter_app. Qed.

Lemma event_type_eqb_eq a b : event_type_eqb a b = true <-> a = b.
Proof. destruct a, b; simpl; split; congruence. Qed.


Lemma find_by_token_ext token d d' :
  campaign_targets d' = campaign_targets d ->
  find_by_token token d' = find_by_token token d.
Proof. unfold find_by_token. now intros ->. Qed.

Lemma unseen_false_iff t ct d :
  unseen t ct d = false <-> events_of (ct_id ct) (event_of_trigger t) d <> [].
Proof.
  unfold unseen, first_event.
  destruct (events_of (ct_id ct) (event_of_trigger t) d); simpl;
    split; congruence.
Qed.

Lemma unseen_true_iff t ct d :
  unseen t ct d = true <-> events_of (ct_id ct) (event_of_trigger t) d = [].
Proof.
  unfold unseen, first_event.
  destruct (events_of (ct_id ct) (event_of_trigger t) d); simpl;
    split; congruence.
Qed.

Section TrackingInvariants.
Context {R : Type} `{RedisClient R}.
Variable md5 : string -> string.
Variable ext : Template -> list Indicator.

(** One trigger moves statuses forward only. *)
Lemma handle_table_advances t token req (w : World R) :
  primary_keys_unique (db w) ->
  table_advances (db w) (db (fst (handle md5 ext t token req w))).
Proof.
  intros Hnd. unfold table_advances.
  destruct (handle_cases md5 ext t token req w)
    as [(_ & -> & _)|[(_ & _ & -> & _)|[(_ & ct & _ & _ & -> & _)
       |(_ & ct & e & Hfind & _ & _ & _ & _ & ->)]]];
    try apply table_advances_refl.
  destruct (assigns t (status ct)) as [s|] eqn:Hs;
    [|apply table_advances_refl].
  apply set_status_advances; auto.
  - now apply find_by_token_in in Hfind.
  - now apply assigns_forward with t.
Qed.

Lemma handle_keys t token req (w : World R) :
  primary_keys_unique (db w) ->
  primary_keys_unique (db (fst (handle md5 ext t token req w))).
Proof.
  intros Hnd. unfold primary_keys_unique.
  now rewrite (table_advances_ids _ _ (handle_table_advances t token req w Hnd)).
Qed.

Lemma rank_submitted s : (rank Submitted <= rank s)%nat -> s = Submitted.
Proof. destruct s; simpl; intros; auto; lia. Qed.

(** Recorded submissions keep their targets in status [Submitted]. *)
Lemma handle_recorded t token req (w : World R) :
  primary_keys_unique (db w) ->
  submissions_recorded (db w) ->
  submissions_recorded (db (fst (handle md5 ext t token req w))).
Proof.
  intros Hnd Hrec x' Hin' Hev'.
  pose proof (handle_table_advances t token req w Hnd) as Hadv.
  destruct (table_advances_in _ _ _ Hadv Hin') as (x & Hx & Hxx').
  destruct (advances_token _ _ Hxx') as (_ & Hid & _).
  destruct Hxx' as [_ Hrank].
  destruct (handle_cases md5 ext t token req w)
    as [(_ & Hdb & _)|[(_ & _ & Hdb & _)|[(_ & ct & _ & _ & _ & Hevs)
       |(_ & ct & e & Hfind & _ & Hevs & Heid & Hety & Hcts)]]].
  - rewrite Hdb in *. auto.
  - rewrite Hdb in *. auto.
  - rewrite (events_of_ext _ _ _ _ Hevs), Hid in Hev'.
    apply rank_submitted. rewrite <- (Hrec x Hx Hev'). exact Hrank.
  - rewrite (events_of_app _ _ _ _ _ Hevs), Hid in Hev'.
    destruct (events_of (ct_id x) EvSubmitted (db w)) eqn:Hold.
    + simpl in Hev'.
      destruct ((campaign_target_id e =? ct_id x)
                && event_type_eqb (event_type e) EvSubmitted) eqn:Hmatch;
        [|congruence].
      apply andb_prop in Hmatch as [Hide Hty].
      apply Z.eqb_eq in Hide. apply event_type_eqb_eq in Hty.
      rewrite Hcts in Hin'.
      assert (t = Submit) as -> by (destruct t; simpl in Hety; congruence).
      unfold set_status, update_campaign_target in Hin'. simpl in Hin'.
      apply in_map_iff in Hin' as (y & <- & Hy).
      destruct (ct_id y =? ct_id ct) eqn:Hyid; [reflexivity|].
      exfalso. apply Z.eqb_neq in Hyid. apply Hyid.
      rewrite Hid, <- Hide. exact Heid.
    + apply rank_submitted. rewrite <- (Hrec x Hx); [exact Hrank|].
      rewrite Hold. discriminate.
Qed.

End TrackingInvariants.

Section ForwardOnly.
Context {R : Type} `{RedisClient R}.
Variable md5 : string -> string.
Variable ext : Template -> list Indicator.

Lemma run_cons_fst t token req rest (w : World R) :
  fst (run md5 ext ((t, token, req) :: rest) w)
  = fst (run md5 ext rest (fst (handle md5 ext t token req w))).
Proof.
  simpl. destruct (handle md5 ext t token req w) as [w1 resp]. simpl.
  now destruct (run md5 ext rest w1).
Qed.


(** The invariants of the tables along any sequence of triggers. *)
Lemma run_invariants reqs (w : World R) :
  primary_keys_unique (db w) ->
  primary_keys_unique (db (fst (run md5 ext reqs w)))
  /\ table_advances (db w) (db (fst (run md5 ext reqs w)))
  /\ (submissions_recorded (db w) ->
      submissions_recorded (db (fst (run md5 ext reqs w)))).
Proof.
  revert w. induction reqs as [|[[t token] req] rest IH]; intros w Hnd.
  - simpl. repeat split; auto. apply table_advances_refl.
  - rewrite run_cons_fst.
    pose proof (handle_keys md5 ext t token req w Hnd) as Hnd1.
    destruct (IH _ Hnd1) as (Hnd2 & Hadv2 & Hrec2).
    repeat split; auto.
    + eapply table_advances_trans; [|exact Hadv2].
      now apply handle_table_advances.
    + intros Hrec. apply Hrec2. now apply handle_recorded.
Qed.

(** What one trigger does to the target its token resolves to. *)
Lemma handle_resolved t token req (w : World R) ct :
  find_by_token token (db w) = Some ct ->
  exists ct',
    find_by_token token (db (fst (handle md5 ext t token req w))) = Some ct'
    /\ ct' = with_status (status ct') ct
    /\ status ct' = (if admitted t req w && unseen t ct (db w)
                     then next_status t (status ct) else status ct).
Proof.
  intros Hfind.
  assert (Hsame : forall d', campaign_targets d' = campaign_targets (db w) ->
            exists ct', find_by_token token d' = Some ct'
                        /\ ct' = with_status (status ct') ct
                        /\ status ct' = status ct).
  { intros d' Hd'. exists ct.
    rewrite (find_by_token_ext _ _ _ Hd'), with_status_same. auto. }
  destruct (handle_cases md5 ext t token req w)
    as [(-> & Hdb & _)|[(_ & Hnone & _)|[(-> & ct0 & Hf0 & Hun & Hcts & _)
       |(-> & ct0 & e & Hf0 & Hun & _ & _ & _ & Hcts)]]].
  - simpl. apply Hsame. now rewrite Hdb.
  - congruence.
  - assert (ct0 = ct) as -> by congruence. rewrite Hun. simpl. now apply Hsame.
  - assert (ct0 = ct) as -> by congruence. rewrite Hun. simpl.
    unfold next_status.
    destruct (assigns t (status ct)) as [s|] eqn:Hs; [|now apply Hsame].
    exists (with_status s ct). split; [|now split].
    rewrite (find_by_token_ext _ _ _ Hcts). now apply set_status_find.
Qed.

(** C1, with the submit rule as the handler has it.  Start from a store
    whose primary keys are unique and let any sequence of
    open/click/submit requests (on any tokens) be handled.  The target of
    a token keeps its row and its status never moves back, neither along
    the sequence nor at a further trigger [t] on that token.  If that
    trigger changes the status, then an open changed it from [Sent] to
    [Opened], a click from [Sent] or [Opened] to [Clicked], and a submit
    set it to [Submitted].  A submit that passes the rate limiter sets the
    status to [Submitted], whatever it was, when no submission is
    recorded yet under the key of the target, and leaves the status as it
    is when one is recorded; the status is [Submitted] after it in both
    cases when the store the sequence started from showed every recorded
    submission as [Submitted].  An open on a [Clicked] target leaves it
    [Clicked]. *)
Theorem status_forward_only (w : World R) (token : string) (ct : CampaignTarget) :
  primary_keys_unique (db w) ->
  find_by_token token (db w) = Some ct ->
  forall (reqs : list (Trigger * string * Request)) (t : Trigger) (req : Request),
    let w1 := fst (run md5 ext reqs w) in
    let w2 := fst (handle md5 ext t token req w1) in
    exists ct1 ct2,
      find_by_token token (db w1) = Some ct1
      /\ find_by_token token (db w2) = Some ct2
      /\ advances ct ct1
      /\ advances ct1 ct2
      /\ (status ct2 <> status ct1 ->
          match t with
          | Open => status ct1 = Sent /\ status ct2 = Opened
          | Click => (status ct1 = Sent \/ status ct1 = Opened)
                     /\ status ct2 = Clicked
          | Submit => status ct2 = Submitted
          end)
      /\ (t = Submit -> admitted t req w1 = true ->
          (unseen Submit ct1 (db w1) = true -> status ct2 = Submitted)
          /\ (unseen Submit ct1 (db w1) = false -> status ct2 = status ct1)
          /\ (submissions_recorded (db w) -> status ct2 = Submitted))
      /\ (t = Open -> status ct1 = Clicked -> status ct2 = Clicked).
Proof.
  intros Hnd Hfind reqs t req w1 w2.
  destruct (run_invariants reqs w Hnd) as (Hnd1 & Hadv1 & Hrec1).
  fold w1 in Hnd1, Hadv1, Hrec1.
  destruct (table_advances_find token _ _ ct Hadv1 Hfind) as (ct1 & Hf1 & Hct1).
  fold (find_by_token token (db w1)) in Hf1.
  destruct (handle_resolved t token req w1 ct1 Hf1) as (ct2 & Hf2 & Hrow & Hst).
  fold w2 in Hf2.
  exists ct1, ct2. split; [exact Hf1|]. split; [exact Hf2|]. split; [exact Hct1|].
  assert (Hnext : status ct2 = status ct1
                  \/ status ct2 = next_status t (status ct1)).
  { rewrite Hst. destruct (admitted t req w1 && unseen t ct1 (db w1)); auto. }
  split; [|split; [|split]].
  - split; [exact Hrow|].
    destruct Hnext as [->| ->]; [apply Nat.le_refl|].
    unfold next_status. destruct (assigns t (status ct1)) eqn:Hs;
      [now apply assigns_forward with t | apply Nat.le_refl].
  - intros Hchg. destruct Hnext as [Heq|Heq]; [congruence|].
    rewrite Heq in *. unfold next_status in *.
    destruct t, (status ct1); simpl in *; auto; congruence.
  - intros -> Hadm. rewrite Hst, Hadm. simpl.
    split; [intros ->; reflexivity|]. split; [intros ->; reflexivity|].
    intros Hrec.
    destruct (unseen Submit ct1 (db w1)) eqn:Hun; [reflexivity|].
    apply (Hrec1 Hrec).
    + now apply find_by_token_in in Hf1.
    + now apply (unseen_false_iff Submit).
  - intros -> Hclicked. destruct Hnext as [Heq|Heq]; [congruence|].
    rewrite Heq, Hclicked. reflexivity.
Qed.

End ForwardOnly.

(** On the sample store: the target of John is clicked first, then the
    late open arrives and leaves it clicked. *)
Lemma status_forward_only_witness :
  primary_keys_unique Sample.sent_db
  /\ find_by_token "tok-john" Sample.sent_db = Some (Sample.enrol 1 Sent "tok-john")
  /\ exists ct1 ct2,
       find_by_token "tok-john"
         (db (fst (run Sample.digest Sample.no_indicators
                     [(Click, "tok-john", Sample.request 5 [])]
                     (Sample.world Sample.sent_db Sample.redis_up))))
       = Some ct1
       /\ status ct1 = Clicked
       /\ status ct2 = Clicked.
Proof.
  assert (H1 : primary_keys_unique Sample.sent_db).
  { repeat constructor; simpl; intuition discriminate. }
  assert (H3 : find_by_token "tok-john" Sample.sent_db
               = Some (Sample.enrol 1 Sent "tok-john")) by reflexivity.
  split; [exact H1|]. split; [exact H3|].
  destruct (status_forward_only Sample.digest Sample.no_indicators
              (Sample.world Sample.sent_db Sample.redis_up) "tok-john" _
              H1 H3 [(Click, "tok-john", Sample.request 5 [])] Open
              (Sample.request 9 []))
    as (ct1 & ct2 & Hf1 & _ & _ & _ & _ & _ & Hopen).
  exists ct1, ct2. split; [exact Hf1|].
  assert (Hc : status ct1 = Clicked).
  { vm_compute in Hf1. injection Hf1 as <-. reflexivity. }
  split; [exact Hc|]. exact (Hopen eq_refl Hc).
Defined.

(** C1, counterexample.  A submit does not set the status to [Submitted]
    whatever the state.  After the submission of Jane, the deletion of
    her campaign and the enrolment of Bob under the key that was hers, the
    store has unique keys and the token of Bob resolves to his pending
    row; a submit on that token passes the rate limiter and is answered
    with the success message and code 200, and the row of Bob is still
    [Pending] after it. *)
Lemma submit_leaves_status_after_key_reuse :
  let req := Sample.request 40 [] in
  let token := unique_token Sample5.bob in
  let after :=
    handle Sample.digest Sample.no_indicators Submit token req Sample5.reused in
  primary_keys_unique (db Sample5.reused)
  /\ find_by_token token (db Sample5.reused) = Some Sample5.bob
  /\ admitted Submit req Sample5.reused = true
  /\ code (snd after) = 200
  /\ find_by_token token (db (fst after)) = Some Sample5.bob
  /\ status Sample5.bob = Pending
  /\ ~ (forall (w : World MemRedis) (token : string) (ct : CampaignTarget)
               (req : Request),
           primary_keys_unique (db w) ->
           find_by_token token (db w) = Some ct ->
           admitted Submit req w = true ->
           exists ct2,
             find_by_token token
               (db (fst (handle Sample.digest Sample.no_indicators
                                Submit token req w)))
             = Some ct2
             /\ status ct2 = Submitted).
Proof.
  intros req token after.
  assert (Hnd : primary_keys_unique (db Sample5.reused)).
  { unfold primary_keys_unique. vm_compute.
    repeat (constructor; [simpl; intuition discriminate|]). constructor. }
  assert (Hf : find_by_token token (db Sample5.reused) = Some Sample5.bob)
    by (vm_compute; reflexivity).
  assert (Hadm : admitted Submit req Sample5.reused = true)
    by (vm_compute; reflexivity).
  assert (Hafter : find_by_token token (db (fst after)) = Some Sample5.bob)
    by (vm_compute; reflexivity).
  split; [exact Hnd|]. split; [exact Hf|]. split; [exact Hadm|].
  split; [vm_compute; reflexivity|]. split; [exact Hafter|].
  split; [reflexivity|].
  intros Hall.
  destruct (Hall Sample5.reused token Sample5.bob req Hnd Hf Hadm)
    as (ct2 & Hf2 & Hs).
  fold after in Hf2. rewrite Hafter in Hf2. injection Hf2 as <-.
  discriminate Hs.
Qed.

(* ================================================================== *)
(** * Repeated triggers *)
(* ================================================================== *)

Section Idempotency.
Context {R : Type} `{RedisClient R}.
Variable md5 : string -> string.
Variable ext : Template -> list Indicator.

Ltac split_limiter :=
  match goal with
  | |- context [rate_limit_check ?k ?l ?w ?r] =>
      destruct (rate_limit_check k l w r) as [[] ?]; simpl
  end.

Ltac split_match :=
  match goal with
  | |- context [match ?x with _ => _ end] => destruct x eqn:?; simpl
  end.

(** Triggers write to [campaign_targets], [email_events] and the audit
    trail only. *)
Lemma handle_static t token req (w : World R) :
  campaigns (db (fst (handle md5 ext t token req w))) = campaigns (db w)
  /\ templates (db (fst (handle md5 ext t token req w))) = templates (db w)
  /\ targets (db (fst (handle md5 ext t token req w))) = targets (db w).
Proof.
  destruct t; unfold handle, track_open, track_click, track_submission;
    split_limiter; repeat split_match; auto.
Qed.

(** An accepted request on a known token gets the normal response. *)
Lemma handle_response t token req (w : World R) ct :
  admitted t req w = true ->
  find_by_token token (db w) = Some ct ->
  snd (handle md5 ext t token req w) = normal_response ext t token ct (db w).
Proof.
  unfold admitted. intros Hadm Hfind.
  destruct t; unfold handle, track_open, track_click, track_submission,
    normal_response, limiter_key, budget in *; simpl in Hadm |- *;
    match type of Hadm with
    | fst ?c = true => destruct c as [ok r']
    end; simpl in Hadm; subst ok; simpl; rewrite Hfind; try reflexivity.
  - now destruct (first_event (ct_id ct) EvOpened (db w)).
  - destruct (first_event (ct_id ct) EvClicked (db w));
      [|destruct (status_eqb (status ct) Sent || status_eqb (status ct) Opened)];
      unfold get_campaign, get_template, get_target; simpl;
      repeat split_match; reflexivity.
Qed.

Lemma normal_response_static t token ct ct' d d' :
  campaigns d' = campaigns d -> templates d' = templates d ->
  targets d' = targets d ->
  campaign_id ct' = campaign_id ct -> target_id ct' = target_id ct ->
  normal_response ext t token ct' d' = normal_response ext t token ct d.
Proof.
  unfold normal_response, get_campaign, get_template, get_target.
  now intros -> -> -> -> ->.
Qed.

(** A refused request is the only one answered 429. *)
Lemma not_refused t token req (w : World R) :
  code (snd (handle md5 ext t token req w)) <> 429 -> admitted t req w = true.
Proof.
  intros Hcode.
  destruct (handle_cases md5 ext t token req w)
    as [(_ & _ & Hc)|[(Ha & _)|[(Ha & _)|(Ha & _)]]];
    [contradiction|assumption..].
Qed.

Lemma repeat_cons t token req reqs (w : World R) :
  repeat_trigger md5 ext t token (req :: reqs) w
  = (fst (repeat_trigger md5 ext t token reqs
            (fst (handle md5 ext t token req w))),
     snd (handle md5 ext t token req w)
     :: snd (repeat_trigger md5 ext t token reqs
               (fst (handle md5 ext t token req w)))).
Proof.
  unfold repeat_trigger. simpl.
  destruct (handle md5 ext t token req w) as [w1 resp]. simpl.
  now destruct (run md5 ext _ w1).
Qed.

(** Once an event of the trigger's type is recorded, accepted repeats
    change neither table and all get the normal response. *)
Lemma repeat_after_first t token reqs :
  forall (w : World R) ct,
    find_by_token token (db w) = Some ct ->
    unseen t ct (db w) = false ->
    Forall (fun resp => code resp <> 429)
           (snd (repeat_trigger md5 ext t token reqs w)) ->
    campaign_targets (db (fst (repeat_trigger md5 ext t token reqs w)))
    = campaign_targets (db w)
    /\ email_events (db (fst (repeat_trigger md5 ext t token reqs w)))
       = email_events (db w)
    /\ Forall (fun resp => resp = normal_response ext t token ct (db w))
              (snd (repeat_trigger md5 ext t token reqs w)).
Proof.
  induction reqs as [|req reqs IH]; intros w ct Hfind Hseen Hcodes.
  - simpl. auto.
  - rewrite repeat_cons in *. cbn [fst snd] in *.
    inversion Hcodes as [|? ? Hcode Hrest]; subst.
    pose proof (not_refused _ _ _ _ Hcode) as Hadm.
    pose proof (handle_response _ _ _ _ _ Hadm Hfind) as Hresp.
    destruct (handle_static t token req w) as (Hc & Ht & Hg).
    destruct (handle_cases md5 ext t token req w)
      as [(Ha & _)|[(_ & Hnone & _)|[(_ & ct0 & Hf0 & _ & Hcts & Hevs)
         |(_ & ct0 & e & Hf0 & Hun & _)]]]; try congruence.
    assert (Hfind1 : find_by_token token
                       (db (fst (handle md5 ext t token req w))) = Some ct)
      by now rewrite (find_by_token_ext _ _ _ Hcts).
    assert (Hseen1 : unseen t ct (db (fst (handle md5 ext t token req w)))
                     = false).
    { apply unseen_false_iff. rewrite (events_of_ext _ _ _ _ Hevs).
      now apply unseen_false_iff. }
    destruct (IH _ ct Hfind1 Hseen1 Hrest) as (Hcts' & Hevs' & Hresps).
    split; [congruence|]. split; [congruence|].
    constructor; [exact Hresp|].
    eapply Forall_impl; [|exact Hresps]. simpl. intros resp ->.
    now apply normal_response_static.
Qed.

(** C2.  Idempotency.  The same trigger is sent [N >= 1] times on a valid
    token (requests [req :: reqs], none refused by the rate limiter).
    The tables of campaign targets and of events end up exactly as after
    the first request alone, so the status is the one a single trigger
    gives; the target has one event of the trigger's type if it had none
    before (and as many as before otherwise); and every request, first or
    repeated, gets the normal response: the tracking pixel for an open,
    the training page for a click, the acknowledgement for a submit. *)
Theorem repeated_trigger_idempotent (w : World R) (token : string)
    (ct : CampaignTarget) (t : Trigger) (req : Request) (reqs : list Request) :
  find_by_token token (db w) = Some ct ->
  Forall (fun resp => code resp <> 429)
         (snd (repeat_trigger md5 ext t token (req :: reqs) w)) ->
  let many := repeat_trigger md5 ext t token (req :: reqs) w in
  let once := handle md5 ext t token req w in
  campaign_targets (db (fst many)) = campaign_targets (db (fst once))
  /\ email_events (db (fst many)) = email_events (db (fst once))
  /\ event_count (ct_id ct) (event_of_trigger t) (db (fst many))
     = Nat.max 1 (event_count (ct_id ct) (event_of_trigger t) (db w))
  /\ Forall (fun resp => resp = normal_response ext t token ct (db w))
            (snd many)
  /\ (t = Open -> Forall (fun resp => resp = send_tracking_pixel) (snd many)).
Proof.
  intros Hfind Hcodes many once. subst many once.
  rewrite repeat_cons in *. cbn [fst snd] in *.
  inversion Hcodes as [|? ? Hcode Hrest]; subst.
  pose proof (not_refused _ _ _ _ Hcode) as Hadm.
  pose proof (handle_response _ _ _ _ _ Hadm Hfind) as Hresp.
  destruct (handle_static t token req w) as (Hc & Ht & Hg).
  destruct (handle_resolved md5 ext t token req w ct Hfind)
    as (ct1 & Hfind1 & Hrow & _).
  assert (Hids : ct_id ct1 = ct_id ct /\ campaign_id ct1 = campaign_id ct
                 /\ target_id ct1 = target_id ct)
    by (rewrite Hrow; auto).
  destruct Hids as (Hid & Hcid & Htid).
  assert (Hcount : event_count (ct_id ct) (event_of_trigger t)
                     (db (fst (handle md5 ext t token req w)))
                   = Nat.max 1 (event_count (ct_id ct) (event_of_trigger t) (db w))
                   /\ unseen t ct1 (db (fst (handle md5 ext t token req w)))
                      = false).
  { unfold event_count.
    destruct (handle_cases md5 ext t token req w)
      as [(Ha & _)|[(_ & Hnone & _)|[(_ & ct0 & Hf0 & Hun & _ & Hevs)
         |(_ & ct0 & e & Hf0 & Hun & Hevs & Heid & Hety & _)]]];
      try congruence; assert (ct0 = ct) as -> by congruence.
    - apply unseen_false_iff in Hun.
      split.
      + rewrite (events_of_ext _ _ _ _ Hevs).
        destruct (events_of (ct_id ct) (event_of_trigger t) (db w));
          [congruence|reflexivity].
      + apply unseen_false_iff. rewrite Hid, (events_of_ext _ _ _ _ Hevs).
        exact Hun.
    - apply unseen_true_iff in Hun.
      assert (Hnew : events_of (ct_id ct) (event_of_trigger t)
                       (db (fst (handle md5 ext t token req w))) = [e]).
      { rewrite (events_of_app _ _ _ _ _ Hevs), Hun, Heid, Hety, Z.eqb_refl.
        simpl. now destruct t. }
      split.
      + now rewrite Hnew, Hun.
      + apply unseen_false_iff. rewrite Hid, Hnew. discriminate. }
  destruct Hcount as (Hcount & Hseen1).
  destruct (repeat_after_first t token reqs _ ct1 Hfind1 Hseen1 Hrest)
    as (Hcts & Hevs & Hresps).
  assert (Hall : Forall (fun resp => resp = normal_response ext t token ct (db w))
                   (snd (handle md5 ext t token req w)
                    :: snd (repeat_trigger md5 ext t token reqs
                              (fst (handle md5 ext t token req w))))).
  { constructor; [exact Hresp|].
    eapply Forall_impl; [|exact Hresps]. simpl. intros resp ->.
    now apply normal_response_static. }
  split; [exact Hcts|]. split; [exact Hevs|].
  split; [|split; [exact Hall|]].
  - unfold event_count in *. now rewrite (events_of_ext _ _ _ _ Hevs).
  - intros ->. exact Hall.
Qed.

End Idempotency.

(** Three opens of John's mail from one client, Redis up and counters
    empty: one event, status [Opened], three pixels. *)
Lemma repeated_trigger_idempotent_witness :
  find_by_token "tok-john" Sample.sent_db = Some (Sample.enrol 1 Sent "tok-john")
  /\ Forall (fun resp => code resp <> 429)
       (snd (repeat_trigger Sample.digest Sample.no_indicators Open "tok-john"
               [Sample.request 5 []; Sample.request 6 []; Sample.request 7 []]
               (Sample.world Sample.sent_db Sample.redis_up)))
  /\ event_count 1 EvOpened
       (db (fst (repeat_trigger Sample.digest Sample.no_indicators Open "tok-john"
                   [Sample.request 5 []; Sample.request 6 []; Sample.request 7 []]
                   (Sample.world Sample.sent_db Sample.redis_up))))
     = 1%nat.
Proof.
  assert (H1 : find_by_token "tok-john" Sample.sent_db
               = Some (Sample.enrol 1 Sent "tok-john")) by reflexivity.
  assert (H2 : Forall (fun resp => code resp <> 429)
       (snd (repeat_trigger Sample.digest Sample.no_indicators Open "tok-john"
               [Sample.request 5 []; Sample.request 6 []; Sample.request 7 []]
               (Sample.world Sample.sent_db Sample.redis_up)))).
  { vm_compute. repeat constructor; discriminate. }
  split; [exact H1|]. split; [exact H2|].
  exact (proj1 (proj2 (proj2
           (repeated_trigger_idempotent Sample.digest Sample.no_indicators
              (Sample.world Sample.sent_db Sample.redis_up) "tok-john" _ Open
              (Sample.request 5 []) [Sample.request 6 []; Sample.request 7 []]
              H1 H2)))).
Defined.

(* ================================================================== *)
(** * Unknown tokens, refused requests and the fallback of the limiter *)
(* ================================================================== *)

Section Rejections.
Context {R : Type} `{RedisClient R}.
Variable md5 : string -> string.
Variable ext : Template -> list Indicator.

Ltac split_limiter :=
  match goal with
  | |- context [rate_limit_check ?k ?l ?w ?r] =>
      destruct (rate_limit_check k l w r) as [[] ?]; simpl
  end.

(** What a trigger does when its token does not resolve. *)
Lemma unknown_token_shape (r : R) (token : string) (t : Trigger) (req : Request)
    (d : DB) :
  find_by_token token d = None ->
  db (fst (handle md5 ext t token req (Build_World d r))) = d
  /\ snd (handle md5 ext t token req (Build_World d r))
     = (if admitted t req (Build_World d r) then not_found_response t
        else too_many_response t).
Proof.
  intros Hd.
  destruct t; unfold handle, track_open, track_click, track_submission,
    admitted, limiter_key, budget; simpl;
    split_limiter; rewrite ?Hd; auto.
Qed.

(** C4 (amended).  For a token no campaign target carries, each of the
    three triggers leaves the whole database as it was (no event, no
    status change) and answers not-found (404) when the request passes
    the rate limiter, which the handlers consult before they resolve the
    token, and too-many-requests (429) when it does not.  The answer is
    the same for every database in which the token does not resolve, so
    it tells nothing about the stored campaigns. *)
Theorem unknown_token_rejected (w : World R) (token : string) (t : Trigger)
    (req : Request) :
  find_by_token token (db w) = None ->
  db (fst (handle md5 ext t token req w)) = db w
  /\ snd (handle md5 ext t token req w)
     = (if admitted t req w then not_found_response t else too_many_response t)
  /\ (forall d2 : DB,
        find_by_token token d2 = None ->
        snd (handle md5 ext t token req (Build_World d2 (redis w)))
        = snd (handle md5 ext t token req w)).
Proof.
  intros Hnone. destruct w as [d r]. cbn [db redis] in *.
  destruct (unknown_token_shape r token t req d Hnone) as (Hdb & Hresp).
  split; [exact Hdb|]. split; [exact Hresp|].
  intros d2 Hd2.
  destruct (unknown_token_shape r token t req d2 Hd2) as (_ & ->).
  now rewrite Hresp.
Qed.

(** Only the limiter answers 429. *)
Lemma refused_by_limiter t token req (w : World R) :
  code (snd (handle md5 ext t token req w)) = 429 -> admitted t req w = false.
Proof.
  intros Hcode. destruct (admitted t req w) eqn:Hadm; [exfalso|reflexivity].
  destruct (find_by_token token (db w)) as [ct|] eqn:Hfind.
  - rewrite (handle_response md5 ext t token req w ct Hadm Hfind) in Hcode.
    destruct t; unfold normal_response in Hcode; simpl in Hcode;
      try discriminate.
    destruct (get_campaign (campaign_id ct) (db w)); [|discriminate].
    destruct (get_template (template_id c) (db w)); discriminate.
  - destruct w as [d r]. cbn [db redis] in *.
    destruct (unknown_token_shape r token t req d Hfind) as (_ & Hresp).
    rewrite Hresp, Hadm in Hcode. destruct t; discriminate.
Qed.

(** C10.  Fallback of the rate limiter.  Whatever the [try] block of
    [rate_limit_check] raises, the answer is [True]; in particular, when
    the counter store cannot be read the answer is [True] for every
    identifier, limit and window.  The answer [False] is given only after
    Redis has returned a counter that reads as an integer at or above the
    limit.  Hence with an unreadable store no tracking trigger is answered
    429, and a 429 means that Redis returned a counter at or above the
    trigger's budget (30 for open, 20 for click, 10 for submit). *)
Theorem rate_limit_fails_open (identifier : string) (limit window : Z) (r : R) :
  (forall exn r',
      rate_limit_try identifier limit window r = Raised exn r' ->
      rate_limit_check identifier limit window r = (true, r'))
  /\ ((forall key r0, exists exn r1, r_get key r0 = Raised exn r1) ->
      fst (rate_limit_check identifier limit window r) = true)
  /\ (fst (rate_limit_check identifier limit window r) = false ->
      exists r1 r2 v n,
        redis_from_url r = Returned tt r1
        /\ r_get ("rate_limit:" ++ identifier) r1 = Returned (Some v) r2
        /\ Py.int v = Some n /\ limit <= n)
  /\ (forall t token req (w : World R),
        ((forall key r0, exists exn r1, r_get key r0 = Raised exn r1) ->
         code (snd (handle md5 ext t token req w)) <> 429)
        /\ (code (snd (handle md5 ext t token req w)) = 429 ->
            exists r1 r2 v n,
              redis_from_url (redis w) = Returned tt r1
              /\ r_get ("rate_limit:" ++ limiter_key t req) r1
                 = Returned (Some v) r2
              /\ Py.int v = Some n /\ fst (budget t) <= n
              /\ budget t = match t with
                            | Open => (30, 60)
                            | Click => (20, 60)
                            | Submit => (10, 300)
                            end)).
Proof.
  assert (Hdown : forall id l wd (r0 : R),
            (forall key r0, exists exn r1, r_get key r0 = Raised exn r1) ->
            fst (rate_limit_check id l wd r0) = true).
  { intros id l wd r0 Hd.
    destruct (unreachable_raises id l wd r0 Hd) as (exn & r' & Hraise).
    now rewrite (rate_limit_exception _ _ _ _ _ _ Hraise). }
  split; [apply rate_limit_exception|].
  split; [apply Hdown|].
  split; [apply rate_limit_refusal|].
  intros t token req w. split.
  - intros Hd Hcode. apply refused_by_limiter in Hcode.
    unfold admitted in Hcode. rewrite Hdown in Hcode by assumption.
    discriminate.
  - intros Hcode. apply refused_by_limiter in Hcode.
    destruct (rate_limit_refusal _ _ _ _ Hcode) as (r1 & r2 & v & n & H1 & H2 & H3 & H4).
    exists r1, r2, v, n. repeat split; auto; now destruct t.
Qed.

(** C7.  Submissions store nothing of the form.  Whatever fields the
    request carries, [track_submission] returns the same response and the
    same state (events, statuses, audit trail, counters); the event a
    first submission appends has as metadata the received flag, the
    timestamp and the hash of the user agent, and nothing else. *)
Theorem submission_ignores_form (w : World R) (token : string) (req : Request)
    (fields : list (string * string)) :
  track_submission md5 token (with_form fields req) w
  = track_submission md5 token req w
  /\ (email_events (db (fst (track_submission md5 token req w)))
      = email_events (db w)
      \/ exists ct,
           find_by_token token (db w) = Some ct
           /\ email_events (db (fst (track_submission md5 token req w)))
              = (email_events (db w) ++ [submission_event md5 ct req])%list)
  /\ (forall ct,
        metadata (submission_event md5 ct req)
        = [("form_data_received", JBool true);
           ("timestamp", JTime (now req));
           ("user_agent_hash",
            JStr (hash md5 (match header_user_agent req with
                            | Some ua => ua
                            | None => ""
                            end)))]).
Proof.
  split; [reflexivity|]. split; [|reflexivity].
  unfold track_submission. split_limiter; auto.
  destruct (find_by_token token (db w)) as [ct|] eqn:Hfind; simpl; auto.
  destruct (first_event (ct_id ct) EvSubmitted (db w)); simpl; auto.
  right. exists ct. split; reflexivity.
Qed.

End Rejections.

(** A token nobody was issued, on the sample store. *)
Lemma unknown_token_rejected_witness :
  find_by_token "never-issued" Sample.sent_db = None
  /\ db (fst (handle Sample.digest Sample.no_indicators Submit "never-issued"
                (Sample.request 5 [("password", "hunter2")])
                (Sample.world Sample.sent_db Sample.redis_up)))
     = Sample.sent_db.
Proof.
  split; [reflexivity|].
  exact (proj1 (unknown_token_rejected Sample.digest Sample.no_indicators
                  (Sample.world Sample.sent_db Sample.redis_up) "never-issued"
                  Submit (Sample.request 5 [("password", "hunter2")]) eq_refl)).
Defined.

(** C4 as stated fails: with the client's counter at its budget, an open on
    a token never issued is answered 429, not 404. *)
Lemma unknown_token_not_always_404 :
  ~ (forall (w : World MemRedis) (token : string) (t : Trigger) (req : Request),
        find_by_token token (db w) = None ->
        code (snd (handle Sample.digest Sample.no_indicators t token req w)) = 404).
Proof.
  intros Hall.
  specialize (Hall (Sample.world Sample.sent_db Sample.redis_exhausted)
                   "never-issued" Open (Sample.request 5 []) eq_refl).
  vm_compute in Hall. discriminate.
Qed.

(** With Redis down the limiter lets every request through. *)
Example redis_down_allows :
  fst (rate_limit_check "open_203.0.113.7" 30 60 Sample.redis_down) = true
  /\ code (snd (track_open "tok-john" (Sample.request 5 [])
                  (Sample.world Sample.sent_db Sample.redis_down))) = 200.
Proof. split; reflexivity. Qed.

(* ================================================================== *)
(** * Metrics: counting and rounding *)
(* ================================================================== *)

(** Selecting rows keeps the keys distinct. *)
Lemma unique_keys_filter (p : CampaignTarget -> bool) (rows : list CampaignTarget) :
  NoDup (map ct_id rows) -> NoDup (map ct_id (filter p rows)).
Proof.
  induction rows as [|row rows IH]; intros Hkeys; cbn [filter map];
    [constructor|].
  apply NoDup_cons_iff in Hkeys as [Hfresh Hkeys].
  destruct (p row); cbn [map]; [|auto].
  apply NoDup_cons; [|auto].
  contradict Hfresh.
  apply in_map_iff in Hfresh as (other & Hsame & Hin).
  apply in_map_iff. exists other. split; [assumption|].
  now apply filter_In in Hin.
Qed.

(** With unique keys at most one row answers a lookup by key. *)
Lemma filter_by_key (l : list CampaignTarget) (k : Z) :
  NoDup (map ct_id l) ->
  filter (fun ct => ct_id ct =? k) l = []
  \/ exists ct, filter (fun ct => ct_id ct =? k) l = [ct].
Proof.
  induction l as [|a l IH]; simpl; intros Hnd; [now left|].
  inversion Hnd as [|? ? Hnotin Hnd']; subst.
  destruct (ct_id a =? k) eqn:Hk.
  - right. exists a. f_equal.
    apply Z.eqb_eq in Hk.
    destruct (filter (fun ct => ct_id ct =? k) l) as [|b rest] eqn:Hf; [reflexivity|].
    exfalso. apply Hnotin.
    assert (Hb : In b (filter (fun ct => ct_id ct =? k) l))
      by (rewrite Hf; now left).
    apply filter_In in Hb as [Hb Hbk]. apply Z.eqb_eq in Hbk.
    rewrite Hk, <- Hbk. now apply in_map.
  - now apply IH.
Qed.

(** On SQLite the count after [distinct] is the number of events of the
    requested type recorded for a target of the campaign. *)
Lemma distinct_events_count cid ty d :
  List.length (Metrics.distinct_events cid ty d)
  = Metrics.events_in_campaign cid ty d.
Proof.
  unfold Metrics.distinct_events, Metrics.events_in_campaign.
  f_equal. apply filter_ext. intros e.
  induction (campaign_targets d) as [|ct l IH]; simpl.
  - now rewrite andb_false_r.
  - destruct (ct_id ct =? campaign_target_id e); simpl; [|exact IH].
    rewrite IH.
    destruct (campaign_id ct =? cid), (event_type_eqb (event_type e) ty);
      reflexivity.
Qed.

(** Events of one type that are recorded at most once per target have
    pairwise different target ids. *)
Lemma deduplicated_keys ty (p : EmailEvent -> bool) (evs : list EmailEvent) :
  (forall id,
      (List.length
         (filter (fun e => (campaign_target_id e =? id)%Z
                           && event_type_eqb (event_type e) ty) evs) <= 1)%nat) ->
  NoDup (map campaign_target_id
             (filter (fun e => event_type_eqb (event_type e) ty && p e) evs)).
Proof.
  induction evs as [|a evs IH]; intros Hone; simpl; [constructor|].
  assert (Htail : forall id,
             (List.length
                (filter (fun e => (campaign_target_id e =? id)%Z
                                  && event_type_eqb (event_type e) ty) evs)
              <= 1)%nat).
  { intros id. specialize (Hone id). simpl in Hone.
    destruct ((campaign_target_id a =? id)%Z
              && event_type_eqb (event_type a) ty); simpl in Hone; lia. }
  destruct (event_type_eqb (event_type a) ty && p a) eqn:Ha;
    [|now apply IH].
  simpl. constructor; [|now apply IH].
  intros Hin. apply in_map_iff in Hin as (e & Hid & He).
  apply filter_In in He as [He Hq].
  apply andb_prop in Hq as [Hty _]. apply andb_prop in Ha as [Hta _].
  specialize (Hone (campaign_target_id a)). simpl in Hone.
  rewrite Z.eqb_refl, Hta in Hone. simpl in Hone.
  assert (Hmem : In e (filter (fun e0 => (campaign_target_id e0
                                          =? campaign_target_id a)%Z
                                         && event_type_eqb (event_type e0) ty)
                              evs)).
  { apply filter_In. split; [exact He|].
    rewrite Hid, Z.eqb_refl. exact Hty. }
  match type of Hmem with
  | In _ ?l => change (S (List.length l) <= 1)%nat in Hone;
               destruct l; [contradiction | simpl in Hone; lia]
  end.
Qed.

(** In a deduplicated store with unique keys, the events of a type
    recorded for the targets of a campaign are as many as the targets of
    the campaign that have such an event. *)
Lemma deduplicated_event_targets cid t d :
  primary_keys_unique d ->
  deduplicated d ->
  Metrics.events_in_campaign cid (event_of_trigger t) d
  = Metrics.targets_with_event cid (event_of_trigger t) d.
Proof.
  intros Hnd Hdd.
  unfold Metrics.events_in_campaign, Metrics.targets_with_event.
  set (ty := event_of_trigger t).
  set (Q := fun e => existsb (fun ct => (ct_id ct =? campaign_target_id e)
                                        && (campaign_id ct =? cid))
                             (campaign_targets d)).
  set (P := fun ct => (campaign_id ct =? cid)
                      && existsb (fun e => (campaign_target_id e =? ct_id ct)
                                           && event_type_eqb (event_type e) ty)
                                 (email_events d)).
  change (List.length
            (filter (fun e => event_type_eqb (event_type e) ty && Q e)
                    (email_events d))
          = List.length (filter P (campaign_targets d))).
  rewrite <- (length_map campaign_target_id),
          <- (length_map ct_id (filter P (campaign_targets d))).
  apply Permutation_length, NoDup_Permutation.
  - apply deduplicated_keys. intros id. exact (Hdd id t).
  - now apply unique_keys_filter.
  - intros z. rewrite !in_map_iff. split.
    + intros (e & Hz & Hin). apply filter_In in Hin as [He Hq].
      apply andb_prop in Hq as [Hty Hex]. unfold Q in Hex.
      apply existsb_exists in Hex as (ct & Hct & Hm).
      apply andb_prop in Hm as [Hid Hc]. apply Z.eqb_eq in Hid.
      exists ct. split; [congruence|]. apply filter_In. split; [exact Hct|].
      unfold P. rewrite Hc. simpl.
      apply existsb_exists. exists e. split; [exact He|].
      rewrite Hty, andb_true_r. apply Z.eqb_eq. congruence.
    + intros (ct & Hz & Hin). apply filter_In in Hin as [Hct HP].
      unfold P in HP. apply andb_prop in HP as [Hc Hex].
      apply existsb_exists in Hex as (e & He & Hm).
      apply andb_prop in Hm as [Hid Hty]. apply Z.eqb_eq in Hid.
      exists e. split; [congruence|]. apply filter_In. split; [exact He|].
      rewrite Hty. simpl. unfold Q.
      apply existsb_exists. exists ct. split; [exact Hct|].
      rewrite Hc, andb_true_r. apply Z.eqb_eq. congruence.
Qed.

(** Conversely, events of one type with pairwise different target ids
    are recorded at most once per target. *)
Lemma unique_ids_counted ty (evs : list EmailEvent) :
  NoDup (map campaign_target_id
             (filter (fun e => event_type_eqb (event_type e) ty) evs)) ->
  forall id,
    (List.length
       (filter (fun e => (campaign_target_id e =? id)%Z
                         && event_type_eqb (event_type e) ty) evs) <= 1)%nat.
Proof.
  induction evs as [|a evs IH]; intros Hnd id; simpl; [lia|].
  simpl in Hnd.
  destruct (event_type_eqb (event_type a) ty) eqn:Hty.
  - simpl in Hnd. apply NoDup_cons_iff in Hnd as [Hnot Hnd].
    destruct (Z.eqb_spec (campaign_target_id a) id) as [Hid|Hid]; simpl;
      [|now apply IH].
    match goal with
    | |- (S (List.length ?l) <= 1)%nat => destruct l as [|e l'] eqn:Hf
    end; [simpl; lia|].
    exfalso. apply Hnot.
    assert (Hin : In e (filter (fun e => (campaign_target_id e =? id)%Z
                                         && event_type_eqb (event_type e) ty)
                               evs))
      by (rewrite Hf; now left).
    apply filter_In in Hin as [He Hq]. apply andb_prop in Hq as [Hq1 Hq2].
    apply Z.eqb_eq in Hq1.
    apply in_map_iff. exists e. split; [congruence|].
    apply filter_In. split; assumption.
  - rewrite andb_false_r. now apply IH.
Qed.

(** The funnel example records each event once. *)
Lemma funnel_db_deduplicated : deduplicated Metrics.funnel_db.
Proof.
  intros id t. unfold event_count, events_of. apply unique_ids_counted.
  destruct t; vm_compute;
    repeat (constructor; [simpl; intuition discriminate|]); constructor.
Qed.

(** The join keeps one row for each event of a target of the campaign. *)
Lemma campaign_events_count cid ty d :
  primary_keys_unique d ->
  List.length (Metrics.campaign_events cid ty d)
  = Metrics.events_in_campaign cid ty d.
Proof.
  intros Hnd.
  unfold Metrics.campaign_events, Metrics.join_campaign_target,
    Metrics.events_in_campaign.
  induction (email_events d) as [|e evs IH]; simpl; [reflexivity|].
  rewrite filter_app, length_app, IH. clear IH.
  assert (Hex : forall l,
             existsb (fun ct => (ct_id ct =? campaign_target_id e)
                                && (campaign_id ct =? cid)) l
             = existsb (fun ct => campaign_id ct =? cid)
                       (filter (fun ct => ct_id ct =? campaign_target_id e) l)).
  { induction l as [|a l IHl]; simpl; [reflexivity|].
    destruct (ct_id a =? campaign_target_id e); simpl; now rewrite IHl. }
  rewrite Hex.
  destruct (filter_by_key (campaign_targets d) (campaign_target_id e) Hnd)
    as [->|(ct & ->)]; simpl.
  - now rewrite andb_false_r.
  - rewrite orb_false_r.
    destruct (campaign_id ct =? cid), (event_type_eqb (event_type e) ty);
      reflexivity.
Qed.

(** [round_half_even p q] is within one half of [p / q]. *)
Lemma round_half_even_nearest (p q : Z) :
  0 < q -> Z.abs (2 * (q * Metrics.round_half_even p q - p)) <= q.
Proof.
  intros Hq. unfold Metrics.round_half_even.
  pose proof (Z.div_mod p q ltac:(lia)) as Hdm.
  pose proof (Z.mod_pos_bound p q Hq) as Hr.
  destruct (2 * (p mod q) <? q) eqn:H1; [apply Z.ltb_lt in H1; nia|].
  apply Z.ltb_ge in H1.
  destruct (q <? 2 * (p mod q)) eqn:H2; [apply Z.ltb_lt in H2; nia|].
  apply Z.ltb_ge in H2.
  destruct (Z.even (p / q)); nia.
Qed.

Lemma rate_as_computed (num den : nat) :
  Metrics.py_round2 (if (0 <? den)%nat
                     then Metrics.PyFloat (Metrics.percentage num den)
                     else Metrics.PyInt 0)
  = Metrics.rate num den.
Proof. now destruct den. Qed.

Set Warnings "-inexact-float".

(** C3, as the program computes it on its SQLite database.  For every
    existing campaign of a store with unique keys,
    [calculate_campaign_metrics] returns: the number of the campaign's
    targets; the number of [sent] events of those targets; for opens,
    clicks and submissions the number of recorded events of that type of
    those targets, which is the number of distinct targets that have such
    an event whenever the store is deduplicated; and the four rates
    delivery = sent / targets, open = opens / sent, click = clicks /
    opens, submission = submissions / clicks, each times 100, rounded to
    two decimals and 0 for a zero denominator.  The rounding takes the
    hundredth nearest to the exact value of the float (ties to even).  Ten
    targets, ten sent, six opened, three clicked and one submitted give
    100.0, 60.0, 50.0 and 33.33.  A target whose open was recorded twice
    is counted twice: one target, one mail sent and two [opened] events
    give unique_opens = 2 and open_rate = 200.0, where one target
    opened. *)
Theorem campaign_metrics_formulas (d : DB) (cid : Z) (c : Campaign) :
  primary_keys_unique d ->
  get_campaign cid d = Some c ->
  (exists m,
      Metrics.calculate_campaign_metrics cid d = Some m
      /\ Metrics.total_targets m
         = List.length (filter (fun ct => campaign_id ct =? cid)
                               (campaign_targets d))
      /\ Metrics.emails_sent m = Metrics.events_in_campaign cid EvSent d
      /\ Metrics.unique_opens m = Metrics.events_in_campaign cid EvOpened d
      /\ Metrics.unique_clicks m = Metrics.events_in_campaign cid EvClicked d
      /\ Metrics.unique_submissions m
         = Metrics.events_in_campaign cid EvSubmitted d
      /\ (deduplicated d ->
          Metrics.unique_opens m = Metrics.targets_with_event cid EvOpened d
          /\ Metrics.unique_clicks m
             = Metrics.targets_with_event cid EvClicked d
          /\ Metrics.unique_submissions m
             = Metrics.targets_with_event cid EvSubmitted d)
      /\ Metrics.delivery_rate m
         = Metrics.rate (Metrics.emails_sent m) (Metrics.total_targets m)
      /\ Metrics.open_rate m
         = Metrics.rate (Metrics.unique_opens m) (Metrics.emails_sent m)
      /\ Metrics.click_rate m
         = Metrics.rate (Metrics.unique_clicks m) (Metrics.unique_opens m)
      /\ Metrics.submission_rate m
         = Metrics.rate (Metrics.unique_submissions m) (Metrics.unique_clicks m))
  /\ (forall num, Metrics.rate num 0 = Metrics.PyInt 0)
  /\ (forall x s m e,
         Prim2SF x = S754_finite s m e -> e <= -7 ->
         exists k,
           Metrics.round2 x
           = (let y := (PrimFloat.of_uint63 (Uint63.of_Z k) / 100)%float in
              if s then (- y)%float else y)
           /\ Z.abs (2 * (2 ^ (- e) * k - Zpos m * 100)) <= 2 ^ (- e))
  /\ Metrics.calculate_campaign_metrics 1 Metrics.funnel_db
     = Some {| Metrics.total_targets := 10;
               Metrics.emails_sent := 10;
               Metrics.unique_opens := 6;
               Metrics.unique_clicks := 3;
               Metrics.unique_submissions := 1;
               Metrics.open_rate := Metrics.PyFloat 60.0;
               Metrics.click_rate := Metrics.PyFloat 50.0;
               Metrics.submission_rate := Metrics.PyFloat 33.33;
               Metrics.delivery_rate := Metrics.PyFloat 100.0 |}
  /\ (primary_keys_unique Metrics.reopened_db
      /\ Metrics.targets_with_event 1 EvOpened Metrics.reopened_db = 1%nat
      /\ Metrics.calculate_campaign_metrics 1 Metrics.reopened_db
         = Some {| Metrics.total_targets := 1;
                   Metrics.emails_sent := 1;
                   Metrics.unique_opens := 2;
                   Metrics.unique_clicks := 0;
                   Metrics.unique_submissions := 0;
                   Metrics.open_rate := Metrics.PyFloat 200.0;
                   Metrics.click_rate := Metrics.PyFloat 0.0;
                   Metrics.submission_rate := Metrics.PyInt 0;
                   Metrics.delivery_rate := Metrics.PyFloat 100.0 |}).
Proof.
  intros Hnd Hc. split; [|split; [|split; [|split]]].
  - unfold Metrics.calculate_campaign_metrics. rewrite Hc.
    eexists. split; [reflexivity|]. cbn [Metrics.total_targets
      Metrics.emails_sent Metrics.unique_opens Metrics.unique_clicks
      Metrics.unique_submissions Metrics.delivery_rate Metrics.open_rate
      Metrics.click_rate Metrics.submission_rate].
    rewrite !rate_as_computed, !distinct_events_count.
    rewrite campaign_events_count by assumption.
    do 5 (split; [reflexivity|]).
    split; [|repeat split; reflexivity].
    intros Hdd.
    split; [exact (deduplicated_event_targets cid Open d Hnd Hdd)|].
    split; [exact (deduplicated_event_targets cid Click d Hnd Hdd)|].
    exact (deduplicated_event_targets cid Submit d Hnd Hdd).
  - reflexivity.
  - intros x s m e Hx He. unfold Metrics.round2. rewrite Hx.
    destruct (-7 <? e) eqn:Hle; [apply Z.ltb_lt in Hle; lia|].
    eexists. split; [reflexivity|].
    apply round_half_even_nearest. apply Z.pow_pos_nonneg; lia.
  - vm_compute. reflexivity.
  - split; [|split].
    + unfold primary_keys_unique. simpl.
      constructor; [intros []|constructor].
    + reflexivity.
    + vm_compute. reflexivity.
Qed.

(** The funnel example has unique keys, its campaign exists and it
    records each event once. *)
Lemma campaign_metrics_formulas_witness :
  primary_keys_unique Metrics.funnel_db
  /\ get_campaign 1 Metrics.funnel_db <> None
  /\ deduplicated Metrics.funnel_db
  /\ exists m, Metrics.calculate_campaign_metrics 1 Metrics.funnel_db = Some m
               /\ Metrics.unique_opens m
                  = Metrics.targets_with_event 1 EvOpened Metrics.funnel_db
               /\ Metrics.submission_rate m
                  = Metrics.rate (Metrics.unique_submissions m)
                                 (Metrics.unique_clicks m).
Proof.
  assert (H1 : primary_keys_unique Metrics.funnel_db).
  { unfold primary_keys_unique. simpl.
    repeat (constructor; [simpl; intuition discriminate|]). constructor. }
  split; [exact H1|]. split; [discriminate|].
  split; [exact funnel_db_deduplicated|].
  destruct (proj1 (campaign_metrics_formulas Metrics.funnel_db 1 _ H1 eq_refl))
    as (m & Hm & _ & _ & _ & _ & _ & Hdd & _ & _ & _ & Hs).
  exists m. split; [exact Hm|].
  split; [exact (proj1 (Hdd funnel_db_deduplicated)) | exact Hs].
Defined.

(* ================================================================== *)
(** * Dispatcher: what a failed send leaves behind *)
(* ================================================================== *)

Section DispatcherFacts.
Variable cfg : Config.
Variable flask_mail_send : Message -> option string.
Variable smtp_send : Message -> option string.

Lemma check_rate_limit_db (st : Run) :
  run_db (snd (check_rate_limit st)) = run_db st.
Proof. unfold check_rate_limit. now destruct (_ <? 3600). Qed.

(** C5, as the code behaves.  When both mail transports refuse the message
    for a pending target (the mail capability fails), one iteration of the
    dispatcher loop appends no event at all, in particular no [bounced]
    event, leaves every campaign target as it was, so the target stays
    [Pending], and counts one more error; the loop goes on with the next
    target. *)
Theorem mail_failure_leaves_no_event (campaign_target : CampaignTarget)
    (target : Target) (st : Run) (success_count error_count : Z) :
  get_target (target_id campaign_target) (run_db st) = Some target ->
  (forall m, msg_to m = email target ->
             flask_mail_send m <> None /\ smtp_send m <> None) ->
  let out := send_one cfg flask_mail_send smtp_send campaign_target
               (st, (success_count, error_count)) in
  email_events (run_db (fst out)) = email_events (run_db st)
  /\ campaign_targets (run_db (fst out)) = campaign_targets (run_db st)
  /\ snd out = (success_count, error_count + 1)
  /\ forall rest,
       send_loop cfg flask_mail_send smtp_send (campaign_target :: rest) st
       = fold_left (fun acc ct => send_one cfg flask_mail_send smtp_send ct acc)
                   rest (fst out, (0, 1)).
Proof.
  intros Htarget Hfail out.
  assert (Hone : forall sc ec,
            let o := send_one cfg flask_mail_send smtp_send campaign_target
                       (st, (sc, ec)) in
            run_db (fst o) = run_db st /\ snd o = (sc, ec + 1)
            /\ fst o = fst out).
  { intros sc ec. subst out. unfold send_one.
    pose proof (check_rate_limit_db st) as Hdb.
    destruct (check_rate_limit st) as [within st0]. simpl in Hdb.
    set (st1 := if within then st0 else sleep 60 st0).
    assert (Hdb1 : run_db st1 = run_db st)
      by (subst st1; destruct within; simpl; exact Hdb).
    unfold send_email_to_target. rewrite Hdb1, Htarget.
    destruct (sender_campaign (sender st1)) as [campaign|]; [|now simpl].
    destruct (get_template (template_id campaign) (run_db st)) as [template|];
      [|now simpl].
    unfold send_email_flask_mail, send_email_direct_smtp.
    match goal with
    | |- context [flask_mail_send ?m] =>
        destruct (Hfail m eq_refl) as [Hf Hs];
        destruct (flask_mail_send m); [|congruence];
        destruct (smtp_send m); [|congruence]
    end.
    now simpl. }
  destruct (Hone success_count error_count) as (Hdb & Hcnt & _).
  fold out in Hdb, Hcnt.
  split; [now rewrite Hdb|]. split; [now rewrite Hdb|]. split; [exact Hcnt|].
  intros rest. unfold send_loop. cbn [fold_left]. f_equal.
  destruct (Hone 0 0) as (_ & Hc0 & Hf0). cbn zeta in Hc0, Hf0.
  rewrite (surjective_pairing
             (send_one cfg flask_mail_send smtp_send campaign_target
                       (st, (0, 0)))), Hc0, Hf0.
  reflexivity.
Qed.

End DispatcherFacts.

(** The run on the sample campaign when the mail system refuses John:
    John's target stays pending and no event is stored for it; Jane's mail
    goes out afterwards, with a [sent] event, status [Sent] and [sent_at]. *)
Lemma mail_failure_leaves_no_event_witness :
  get_target 1 (run_db Sample.dispatch_start) = Some Sample.john
  /\ (forall m, msg_to m = email Sample.john ->
                Sample.refuse_john m <> None /\ Sample.refuse_john m <> None)
  /\ email_events
       (run_db (fst (send_one Sample.config Sample.refuse_john Sample.refuse_john
                       (Sample.enrol 1 Pending "tok-john")
                       (Sample.dispatch_start, (0, 0)))))
     = []
  /\ (let out := send_campaign_emails Sample.config Sample.refuse_john
                   Sample.refuse_john 1 (Sample.admin_request 1000)
                   Sample.dispatch_start in
      map event_type (email_events (run_db (snd out))) = [EvSent]
      /\ map campaign_target_id (email_events (run_db (snd out))) = [2]
      /\ map status (campaign_targets (run_db (snd out))) = [Pending; Sent]
      /\ map sent_at (campaign_targets (run_db (snd out))) = [None; Some 1000]
      /\ map c_status (campaigns (run_db (snd out))) = [Draft]).
Proof.
  assert (H1 : get_target 1 (run_db Sample.dispatch_start) = Some Sample.john)
    by reflexivity.
  assert (H2 : forall m, msg_to m = email Sample.john ->
                Sample.refuse_john m <> None /\ Sample.refuse_john m <> None).
  { intros m Hm. unfold Sample.refuse_john. rewrite Hm. simpl.
    split; discriminate. }
  split; [exact H1|]. split; [exact H2|]. split.
  - exact (proj1 (mail_failure_leaves_no_event Sample.config Sample.refuse_john
                    Sample.refuse_john (Sample.enrol 1 Pending "tok-john")
                    Sample.john Sample.dispatch_start 0 0 H1 H2)).
  - vm_compute. repeat split; reflexivity.
Defined.

(* ================================================================== *)
(** * Campaign send: preconditions *)
(* ================================================================== *)

Lemma campaign_status_eqb_eq a b : campaign_status_eqb a b = true <-> a = b.
Proof. destruct a, b; simpl; split; congruence. Qed.

Lemma get_campaign_id id d c : get_campaign id d = Some c -> c_id c = id.
Proof.
  unfold get_campaign. intros Hf. apply find_some in Hf as [_ Hid].
  now apply Z.eqb_eq.
Qed.

Lemma get_campaign_activated id t d c :
  get_campaign id d = Some c ->
  get_campaign id (activate_campaign_row id t d) = Some (activated t c).
Proof.
  unfold get_campaign, activate_campaign_row. simpl.
  induction (campaigns d) as [|x l IH]; simpl; [discriminate|].
  destruct (c_id x =? id) eqn:Hid; simpl; rewrite Hid.
  - now intros [= ->].
  - exact IH.
Qed.

Section CampaignFacts.
Variable cfg : Config.

(** C6 (amended).  For a logged-in user allowed to act on an existing
    campaign, [send_campaign] rejects the request, leaving the database
    and the dispatch queue untouched and flashing the failed condition,
    when the campaign is not a draft, or no target at all is assigned to
    it, or consent is required by configuration and not verified (checked
    in this order).  Otherwise the campaign becomes [Active] with its
    start time, the dispatch is handed to the background thread, and
    targets and events are left as they were.  Conversely, whenever the
    database or the queue changes, the campaign was a draft with at least
    one assigned target and consent in order. *)
Theorem send_campaign_preconditions (id : Z) (req : Request)
    (thread_starts : bool) (a : App) (uid : Z) (is_admin : bool)
    (campaign : Campaign) :
  current_user req = Some (uid, is_admin) ->
  get_campaign id (app_db a) = Some campaign ->
  is_admin = true \/ created_by campaign = uid ->
  let out := fst (send_campaign cfg id req thread_starts a) in
  let consent_missing :=
    CAMPAIGN_CONSENT_REQUIRED cfg && negb (consent_verified campaign) in
  (c_status campaign <> Draft ->
   app_db out = app_db a /\ queued out = queued a
   /\ flashes out
      = (flashes a ++ [("Only draft campaigns can be sent.", "warning")])%list)
  /\ (c_status campaign = Draft -> assigned_targets id (app_db a) = 0%nat ->
      app_db out = app_db a /\ queued out = queued a
      /\ flashes out
         = (flashes a ++ [("No targets assigned to this campaign.", "warning")])%list)
  /\ (c_status campaign = Draft -> assigned_targets id (app_db a) <> 0%nat ->
      consent_missing = true ->
      app_db out = app_db a /\ queued out = queued a
      /\ flashes out
         = (flashes a
            ++ [("Consent must be verified before sending campaigns.", "danger")])%list)
  /\ (c_status campaign = Draft -> assigned_targets id (app_db a) <> 0%nat ->
      consent_missing = false ->
      get_campaign id (app_db out) = Some (activated (now req) campaign)
      /\ queued out = (if thread_starts then queued a ++ [id] else queued a)%list
      /\ campaign_targets (app_db out) = campaign_targets (app_db a)
      /\ email_events (app_db out) = email_events (app_db a))
  /\ (app_db out <> app_db a \/ queued out <> queued a ->
      c_status campaign = Draft /\ assigned_targets id (app_db a) <> 0%nat
      /\ consent_missing = false).
Proof.
  intros Huser Hcamp Hperm out consent_missing.
  assert (Hdenied : negb is_admin && negb (created_by campaign =? uid) = false).
  { destruct Hperm as [->| ->]; [reflexivity|].
    rewrite Z.eqb_refl. now destruct is_admin. }
  assert (Hout : out = fst (
    if negb (campaign_status_eqb (c_status campaign) Draft)
    then (flash "Only draft campaigns can be sent." "warning" a,
          RedirectTo "campaigns.view" (Some id))
    else if (assigned_targets id (app_db a) =? 0)%nat
    then (flash "No targets assigned to this campaign." "warning" a,
          RedirectTo "campaigns.view" (Some id))
    else if consent_missing
    then (flash "Consent must be verified before sending campaigns." "danger" a,
          RedirectTo "campaigns.view" (Some id))
    else
      let (_, a1) := queue_campaign_emails thread_starts campaign a in
      let d1 := activate_campaign_row (c_id campaign) (now req) (app_db a1) in
      let d2 := log_audit req "CAMPAIGN_STARTED" "campaign" (c_id campaign)
                  [("target_count",
                    JInt (Z.of_nat (assigned_targets id (app_db a))))] d1 in
      (flash ("Campaign " ++ dq ++ c_name campaign ++ dq
              ++ " has been queued for sending to "
              ++ Py.str_of_int (Z.of_nat (assigned_targets id (app_db a)))
              ++ " targets.")
             "success"
             {| app_db := d2; queued := queued a1; flashes := flashes a1 |},
       RedirectTo "campaigns.view" (Some id)))).
  { subst out. unfold send_campaign. rewrite Huser, Hcamp, Hdenied. reflexivity. }
  clearbody out. subst out.
  pose proof (get_campaign_id _ _ _ Hcamp) as Hid.
  destruct (campaign_status_eqb (c_status campaign) Draft) eqn:Hdraft; simpl.
  - apply campaign_status_eqb_eq in Hdraft.
    destruct (assigned_targets id (app_db a) =? 0)%nat eqn:Hn; simpl.
    + apply Nat.eqb_eq in Hn.
      repeat split; try tauto; try congruence;
        try (intros [Hc|Hc]; congruence).
    + apply Nat.eqb_neq in Hn.
      destruct consent_missing eqn:Hcons; simpl.
      * repeat split; try tauto; try congruence;
          try (intros [Hc|Hc]; congruence).
      * unfold queue_campaign_emails.
        split; [intros Hc; congruence|].
        split; [intros _ Hz; congruence|].
        split; [intros _ _ Hm; discriminate|].
        split; [|intros _; auto].
        intros _ _ _.
        destruct thread_starts; simpl; rewrite Hid; repeat split; auto;
          now apply get_campaign_activated.
  - assert (c_status campaign <> Draft).
    { intros Hc. apply campaign_status_eqb_eq in Hc. congruence. }
    repeat split; try tauto; try congruence;
      try (intros [Hc|Hc]; congruence).
Qed.

End CampaignFacts.

(** An administrator sends the sample draft, which has two pending
    targets and verified consent. *)
Lemma send_campaign_preconditions_witness :
  current_user (Sample.admin_request 7) = Some (1, true)
  /\ get_campaign 1 (app_db (Sample.app Sample.pending_db)) = Some Sample.drill
  /\ (true = true \/ created_by Sample.drill = 1)
  /\ get_campaign 1
       (app_db (fst (send_campaign Sample.config 1 (Sample.admin_request 7) true
                       (Sample.app Sample.pending_db))))
     = Some (activated 7 Sample.drill).
Proof.
  split; [reflexivity|]. split; [reflexivity|]. split; [now left|].
  refine (proj1 (proj1 (proj2 (proj2 (proj2
            (send_campaign_preconditions Sample.config 1 (Sample.admin_request 7)
               true (Sample.app Sample.pending_db) 1 true Sample.drill
               eq_refl eq_refl (or_introl eq_refl))))) eq_refl _ eq_refl)).
  vm_compute. discriminate.
Defined.

(** C6 as stated fails: a draft whose targets are all past [Pending] (here
    both already [Sent]) has no pending target, yet the send is accepted. *)
Lemma send_without_pending_target :
  ~ (forall (cfg : Config) (id : Z) (req : Request) (thread_starts : bool)
            (a : App),
        pending_targets id (app_db a) = [] ->
        app_db (fst (send_campaign cfg id req thread_starts a)) = app_db a
        /\ queued (fst (send_campaign cfg id req thread_starts a)) = queued a).
Proof.
  intros Hall.
  destruct (Hall Sample.config 1 (Sample.admin_request 7) true
                 (Sample.app Sample.sent_db) eq_refl) as [_ Hq].
  vm_compute in Hq. discriminate.
Qed.

(* ================================================================== *)
(** * Tokens: the random bits a token carries *)
(* ================================================================== *)

Lemma uuid4_int_ignores_fixed_bits (rnd : Z) :
  Tokens.uuid4_int (Z.land rnd (Z.lnot Tokens.fixed_bits)) = Tokens.uuid4_int rnd.
Proof.
  unfold Tokens.uuid4_int, Tokens.fixed_bits.
  apply Z.bits_inj'. intros n Hn.
  repeat (rewrite ?Z.lor_spec, ?Z.land_spec, ?Z.lnot_spec by assumption).
  destruct (Z.testbit rnd n), (Z.testbit (Z.shiftl 49152 48) n),
    (Z.testbit (Z.shiftl 61440 64) n), (Z.testbit (Z.shiftl 32768 48) n),
    (Z.testbit (Z.shiftl 4 76) n); reflexivity.
Qed.

(** C8, as the code behaves.  A campaign target created without a token
    gets [uuid.uuid4().hex]: of the 128 random bits drawn, the six bits of
    the version and variant fields (bits 62, 63 and 76 to 79) are
    overwritten, so the token is a function of the remaining 122 bits only
    and two different draws can give the same token. *)
Theorem token_carries_122_bits :
  (forall id cid tid st rnd,
      unique_token (Tokens.new_campaign_target id cid tid st None rnd)
      = Tokens.uuid4_hex rnd)
  /\ (forall rnd,
         Tokens.uuid4_hex rnd
         = Tokens.uuid4_hex (Z.land rnd (Z.lnot Tokens.fixed_bits)))
  /\ Tokens.fixed_bits = 2 ^ 62 + 2 ^ 63 + 2 ^ 76 + 2 ^ 77 + 2 ^ 78 + 2 ^ 79
  /\ (0 <= Tokens.fixed_bits < 2 ^ 128
      /\ Tokens.fixed_bits <> 0
      /\ Tokens.uuid4_hex Tokens.fixed_bits = Tokens.uuid4_hex 0
      /\ Tokens.uuid4_hex 0 = "00000000000040008000000000000000").
Proof.
  split; [reflexivity|]. split; [|split; [reflexivity|]].
  - intros rnd. unfold Tokens.uuid4_hex.
    now rewrite uuid4_int_ignores_fixed_bits.
  - repeat split; try (vm_compute; congruence).
Qed.

(* ================================================================== *)
(** * Strings: replacement and scanning *)
(* ================================================================== *)

Lemma append_assoc (a b c : string) : ((a ++ b) ++ c = a ++ (b ++ c))%string.
Proof. induction a as [|x a IH]; simpl; [reflexivity | now rewrite IH]. Qed.


Lemma startswith_append (p s : string) : Py.startswith p (p ++ s) = true.
Proof.
  induction p as [|a p IH]; simpl; [reflexivity|].
  now rewrite Ascii.eqb_refl.
Qed.










(* ================================================================== *)
(** * Rendering a template given as segments *)
(* ================================================================== *)








(* ================================================================== *)
(** * Scanning a template for placeholders *)
(* ================================================================== *)














(** The sample template rendered for John, and two validations. *)
Example render_sample :
  Templates.render_template_content
    "Dear {{first_name}} of {{department}}, ref {{ticket}}"
    (prepare_template_variables Sample.config Sample.drill Sample.john
       (Sample.enrol 1 Pending "tok-john"))
  = "Dear John of IT, ref {{ticket}}"
  /\ Templates.validate_template_variables
       "Dear {{first_name}}, ref {{ticket}}"
     = inl "Template variable 'ticket' is not allowed"
  /\ Templates.validate_template_variables (html_content Sample.alert)
     = inr true.
Proof. repeat split; reflexivity. Qed.

(** A template with a style sheet is within the templates the rendering
    result covers, and passes the validator of the template form; a blank
    content and a content with an unknown placeholder do not pass. *)
Example render_style_sheet :
  let segs := [Templates.Lit "<style>p { color: #333; }</style><p>Dear ";
               Templates.Var "first_name";
               Templates.Lit ", visit ";
               Templates.Var "click_url";
               Templates.Lit "</p>"] in
  let variables := [("first_name", "John");
                    ("click_url", "http://localhost:5000/track/click/tok-john")] in
  forallb Templates.well_formed segs = true
  /\ forallb Templates.plain_binding variables = true
  /\ Templates.render_template_content (Templates.flatten segs) variables
     = "<style>p { color: #333; }</style><p>Dear John, visit http://localhost:5000/track/click/tok-john</p>"
  /\ TemplateForm_validate_html_content (Templates.flatten segs) = None
  /\ TemplateForm_validate_html_content "   " = Some "HTML content cannot be empty."
  /\ TemplateForm_validate_html_content "Dear {{first_name}}, ref {{ticket}}"
     = Some "Template variable 'ticket' is not allowed. Allowed variables: first_name, last_name, email, department, company, click_url, tracking_pixel, tracking_number, campaign_name, sender_name, sender_email".
Proof. repeat split; reflexivity. Qed.

(* ================================================================== *)
(** * Tracking: deduplication and isolation over whole runs *)
(* ================================================================== *)

Section TrackingRuns.
Context {R : Type} `{RedisClient R}.
Variable md5 : string -> string.
Variable ext : Template -> list Indicator.

Lemma event_of_trigger_inj (t t' : Trigger) :
  event_of_trigger t = event_of_trigger t' -> t = t'.
Proof. destruct t, t'; simpl; congruence. Qed.

Lemma handle_deduplicated t token req (w : World R) :
  deduplicated (db w) ->
  deduplicated (db (fst (handle md5 ext t token req w))).
Proof.
  intros Hd id t'. unfold event_count.
  destruct (handle_cases md5 ext t token req w)
    as [(_ & Hdb & _)|[(_ & _ & Hdb & _)|[(_ & ct & _ & _ & _ & Hevs)
       |(_ & ct & e & _ & Hun & Hevs & Heid & Hety & _)]]].
  - rewrite Hdb. apply Hd.
  - rewrite Hdb. apply Hd.
  - rewrite (events_of_ext _ _ _ _ Hevs). apply Hd.
  - rewrite (events_of_app _ _ _ _ _ Hevs), length_app.
    destruct ((campaign_target_id e =? id)
              && event_type_eqb (event_type e) (event_of_trigger t')) eqn:Hm.
    + apply andb_prop in Hm as [Hid Hty].
      apply Z.eqb_eq in Hid. apply event_type_eqb_eq in Hty.
      rewrite Hety in Hty. apply event_of_trigger_inj in Hty. subst t'.
      rewrite <- Hid, Heid.
      apply unseen_true_iff in Hun. rewrite Hun. simpl. lia.
    + simpl. rewrite Nat.add_0_r. apply Hd.
Qed.

(** X1.  Over any sequence of open, click and submit requests, on any
    tokens and whether accepted or not, a store in which no target has two
    events of one trigger type stays so. *)
Theorem run_keeps_deduplicated (reqs : list (Trigger * string * Request))
    (w : World R) :
  deduplicated (db w) ->
  deduplicated (db (fst (run md5 ext reqs w))).
Proof.
  revert w. induction reqs as [|[[t token] req] rest IH]; intros w Hd.
  - exact Hd.
  - rewrite run_cons_fst. apply IH. now apply handle_deduplicated.
Qed.

Lemma filter_update_other (id : Z) (f : CampaignTarget -> CampaignTarget)
    (l : list CampaignTarget) :
  (forall x, ct_id (f x) = ct_id x) ->
  filter (fun ct => negb (ct_id ct =? id))
         (map (fun ct => if ct_id ct =? id then f ct else ct) l)
  = filter (fun ct => negb (ct_id ct =? id)) l.
Proof.
  intros Hf. induction l as [|x l IH]; simpl; [reflexivity|].
  destruct (ct_id x =? id) eqn:Hx; simpl.
  - now rewrite Hf, Hx.
  - now rewrite Hx, IH.
Qed.

(** X2.  A trigger on a token touches nothing of the other targets: their
    rows and their events are exactly as before, and the campaigns,
    templates and target identities are untouched. *)
Theorem trigger_isolated (t : Trigger) (token : string) (req : Request)
    (w : World R) (ct : CampaignTarget) :
  find_by_token token (db w) = Some ct ->
  let d' := db (fst (handle md5 ext t token req w)) in
  other_targets (ct_id ct) d' = other_targets (ct_id ct) (db w)
  /\ other_events (ct_id ct) d' = other_events (ct_id ct) (db w)
  /\ campaigns d' = campaigns (db w)
  /\ templates d' = templates (db w)
  /\ targets d' = targets (db w).
Proof.
  intros Hfind d'. subst d'.
  split; [|split; [|apply handle_static]]; unfold other_targets, other_events;
    destruct (handle_cases md5 ext t token req w)
      as [(_ & Hdb & _)|[(_ & _ & Hdb & _)|[(_ & ct0 & Hf0 & _ & Hcts & Hevs)
         |(_ & ct0 & e & Hf0 & _ & Hevs & Heid & _ & Hcts)]]];
    try (rewrite Hdb; reflexivity); try (now rewrite ?Hcts, ?Hevs);
    assert (ct0 = ct) as -> by congruence.
  - rewrite Hcts. destruct (assigns t (status ct)); [|reflexivity].
    unfold set_status, update_campaign_target. simpl.
    now apply filter_update_other.
  - rewrite Hevs, filter_app. simpl. rewrite Heid, Z.eqb_refl. simpl.
    apply app_nil_r.
Qed.

End TrackingRuns.

(** The sample store holds no event, hence no duplicate. *)
Lemma run_keeps_deduplicated_witness :
  deduplicated Sample.sent_db
  /\ deduplicated
       (db (fst (run Sample.digest Sample.no_indicators
                   [(Open, "tok-john", Sample.request 5 []);
                    (Open, "tok-john", Sample.request 6 []);
                    (Click, "tok-jane", Sample.request 7 [])]
                   (Sample.world Sample.sent_db Sample.redis_up)))).
Proof.
  assert (H0 : deduplicated Sample.sent_db).
  { intros id t. unfold event_count, events_of. simpl. lia. }
  split; [exact H0|].
  exact (run_keeps_deduplicated Sample.digest Sample.no_indicators _
           (Sample.world Sample.sent_db Sample.redis_up) H0).
Defined.

Lemma trigger_isolated_witness :
  find_by_token "tok-john" Sample.sent_db = Some (Sample.enrol 1 Sent "tok-john")
  /\ other_targets 1
       (db (fst (handle Sample.digest Sample.no_indicators Submit "tok-john"
                   (Sample.request 5 [])
                   (Sample.world Sample.sent_db Sample.redis_up))))
     = [Sample.enrol 2 Sent "tok-jane"].
Proof.
  split; [reflexivity|].
  exact (proj1 (trigger_isolated Sample.digest Sample.no_indicators Submit
                  "tok-john" (Sample.request 5 [])
                  (Sample.world Sample.sent_db Sample.redis_up) _ eq_refl)).
Defined.

(* ================================================================== *)
(** * Metrics: bounds and independence of other campaigns *)
(* ================================================================== *)

Lemma filter_conj_length {A} (p q : A -> bool) (l : list A) :
  (List.length (filter (fun x => p x && q x) l)
   <= List.length (filter p l))%nat.
Proof.
  induction l as [|x l IH]; simpl; [lia|].
  destruct (p x), (q x); simpl; lia.
Qed.

(** X3.  In a deduplicated store with unique keys the numbers of opens,
    clicks and submissions reported for a campaign never exceed its
    number of targets. *)
Theorem unique_counts_bounded (d : DB) (cid : Z) (m : Metrics.CampaignMetrics) :
  primary_keys_unique d ->
  deduplicated d ->
  Metrics.calculate_campaign_metrics cid d = Some m ->
  (Metrics.unique_opens m <= Metrics.total_targets m)%nat
  /\ (Metrics.unique_clicks m <= Metrics.total_targets m)%nat
  /\ (Metrics.unique_submissions m <= Metrics.total_targets m)%nat.
Proof.
  intros Hnd Hdd. unfold Metrics.calculate_campaign_metrics.
  destruct (get_campaign cid d); [|discriminate].
  intros [= <-]. cbn [Metrics.unique_opens Metrics.unique_clicks
                        Metrics.unique_submissions Metrics.total_targets].
  rewrite !distinct_events_count.
  pose proof (deduplicated_event_targets cid Open d Hnd Hdd) as Ho.
  pose proof (deduplicated_event_targets cid Click d Hnd Hdd) as Hk.
  pose proof (deduplicated_event_targets cid Submit d Hnd Hdd) as Hs.
  cbn [event_of_trigger] in Ho, Hk, Hs. rewrite Ho, Hk, Hs.
  unfold Metrics.targets_with_event.
  repeat split; apply filter_conj_length.
Qed.

Lemma campaign_events_foreign cid ty e d :
  foreign_event cid e d ->
  Metrics.campaign_events cid ty (add_event e d) = Metrics.campaign_events cid ty d.
Proof.
  intros Hforeign.
  unfold Metrics.campaign_events, Metrics.join_campaign_target. simpl.
  rewrite flat_map_app, filter_app. simpl. rewrite app_nil_r.
  match goal with
  | |- (_ ++ ?tail)%list = _ => assert (Hnil : tail = [])
  end.
  { assert (Hrows : forall rows,
              (forall ct, In ct rows -> In ct (campaign_targets d)) ->
              filter (fun p => (campaign_id (snd p) =? cid)
                               && event_type_eqb (event_type (fst p)) ty)
                     (map (pair e)
                          (filter (fun ct => ct_id ct =? campaign_target_id e) rows))
              = []).
    { induction rows as [|ct rows IH]; intros Hin; [reflexivity|].
      simpl. destruct (ct_id ct =? campaign_target_id e) eqn:Hid; simpl.
      - apply Z.eqb_eq in Hid.
        assert (Hc : campaign_id ct <> cid)
          by (apply Hforeign; [apply Hin; now left | exact Hid]).
        apply Z.eqb_neq in Hc. rewrite Hc. simpl.
        apply IH. intros x Hx. apply Hin. now right.
      - apply IH. intros x Hx. apply Hin. now right. }
    apply Hrows. auto. }
  rewrite Hnil. apply app_nil_r.
Qed.

Lemma distinct_events_foreign cid ty e d :
  foreign_event cid e d ->
  Metrics.distinct_events cid ty (add_event e d)
  = Metrics.distinct_events cid ty d.
Proof.
  intros Hforeign. unfold Metrics.distinct_events. simpl.
  rewrite filter_app. simpl.
  assert (Hrows : forall rows,
             (forall ct, In ct rows -> In ct (campaign_targets d)) ->
             existsb (fun p => (campaign_id (snd p) =? cid)
                               && event_type_eqb (event_type (fst p)) ty)
                     (map (pair e)
                          (filter (fun ct => ct_id ct =? campaign_target_id e)
                                  rows))
             = false).
  { induction rows as [|ct rows IH]; intros Hin; [reflexivity|].
    simpl. destruct (ct_id ct =? campaign_target_id e) eqn:Hid; simpl.
    - apply Z.eqb_eq in Hid.
      assert (Hc : campaign_id ct <> cid)
        by (apply Hforeign; [apply Hin; now left | exact Hid]).
      apply Z.eqb_neq in Hc. rewrite Hc. simpl.
      apply IH. intros x Hx. apply Hin. now right.
    - apply IH. intros x Hx. apply Hin. now right. }
  rewrite Hrows by auto. apply app_nil_r.
Qed.

(** X4.  The metrics of a campaign depend only on the events of its own
    targets: recording an event attached to no target of the campaign
    leaves every figure of that campaign as it was. *)
Theorem metrics_ignore_foreign_events (d : DB) (cid : Z) (e : EmailEvent) :
  foreign_event cid e d ->
  Metrics.calculate_campaign_metrics cid (add_event e d)
  = Metrics.calculate_campaign_metrics cid d.
Proof.
  intros Hforeign. unfold Metrics.calculate_campaign_metrics.
  rewrite !(campaign_events_foreign _ _ _ _ Hforeign),
          !(distinct_events_foreign _ _ _ _ Hforeign).
  reflexivity.
Qed.

Lemma unique_counts_bounded_witness :
  primary_keys_unique Metrics.funnel_db
  /\ deduplicated Metrics.funnel_db
  /\ (exists m, Metrics.calculate_campaign_metrics 1 Metrics.funnel_db = Some m
                /\ (Metrics.unique_opens m <= Metrics.total_targets m)%nat).
Proof.
  assert (H1 : primary_keys_unique Metrics.funnel_db).
  { unfold primary_keys_unique. simpl.
    repeat (constructor; [simpl; intuition discriminate|]). constructor. }
  split; [exact H1|]. split; [exact funnel_db_deduplicated|].
  eexists. split; [reflexivity|].
  exact (proj1 (unique_counts_bounded Metrics.funnel_db 1 _ H1
                  funnel_db_deduplicated eq_refl)).
Defined.

(** An event of target 42, which is not enrolled in campaign 1. *)
Lemma metrics_ignore_foreign_events_witness :
  foreign_event 1 (Metrics.funnel_event EvOpened 42) Metrics.funnel_db
  /\ Metrics.calculate_campaign_metrics 1
       (add_event (Metrics.funnel_event EvOpened 42) Metrics.funnel_db)
     = Metrics.calculate_campaign_metrics 1 Metrics.funnel_db.
Proof.
  assert (H1 : foreign_event 1 (Metrics.funnel_event EvOpened 42)
                             Metrics.funnel_db).
  { intros ct Hin Hid. simpl in Hin, Hid.
    repeat (destruct Hin as [<-|Hin]; [simpl in Hid; discriminate|]).
    contradiction. }
  split; [exact H1|].
  exact (metrics_ignore_foreign_events _ _ _ H1).
Defined.

(* ================================================================== *)
(** * Dispatcher: what a run does to each pending target *)
(* ================================================================== *)

Section DispatcherRuns.
Variable cfg : Config.
Variable flask_mail_send : Message -> option string.
Variable smtp_send : Message -> option string.

(** The three outcomes of [send_email_to_target]. *)
Lemma send_email_to_target_cases campaign_target (st : Run) :
  match send_email_to_target cfg flask_mail_send smtp_send campaign_target st with
  | Returned true st2 =>
      exists target campaign template m,
        get_target (target_id campaign_target) (run_db st) = Some target
        /\ sender_campaign (sender st) = Some campaign
        /\ get_template (template_id campaign) (run_db st) = Some template
        /\ msg_to m = email target
        /\ (flask_mail_send m = None \/ smtp_send m = None)
        /\ st2 = bump_sent_count
                   (log_sent_event campaign template campaign_target
                      {| run_db := run_db st; clock := clock st;
                         sender := sender st;
                         delivered := (delivered st ++ [m])%list |})
  | Returned false st2 => st2 = st
  | Raised _ st2 =>
      st2 = st /\ get_target (target_id campaign_target) (run_db st) = None
  end.
Proof.
  unfold send_email_to_target.
  destruct (get_target (target_id campaign_target) (run_db st))
    as [target|] eqn:Ht; [|now split].
  destruct (sender_campaign (sender st)) as [campaign|] eqn:Hc; [|reflexivity].
  destruct (get_template (template_id campaign) (run_db st))
    as [template|] eqn:Htp; [|reflexivity].
  unfold send_email_flask_mail, send_email_direct_smtp.
  match goal with
  | |- context [flask_mail_send ?m] =>
      destruct (flask_mail_send m) eqn:Hf;
      [destruct (smtp_send m) eqn:Hs; [simpl; reflexivity|]|];
      simpl;
      exists target, campaign, template, m;
      (split; [reflexivity|]); (split; [reflexivity|]);
      (split; [assumption|]); (split; [reflexivity|]);
      (split; [auto|reflexivity])
  end.
Qed.

Lemma before_send (st : Run) :
  let st1 := if fst (check_rate_limit st) then snd (check_rate_limit st)
             else sleep 60 (snd (check_rate_limit st)) in
  run_db st1 = run_db st /\ delivered st1 = delivered st
  /\ sender_campaign (sender st1) = sender_campaign (sender st)
  /\ clock st <= clock st1 <= clock st + 60.
Proof.
  unfold check_rate_limit.
  destruct (clock st - start_time (sender st) <? 3600); simpl;
    [destruct (sent_count (sender st) <? rate_limit (sender st)); simpl|];
    repeat split; lia.
Qed.

Lemma send_one_unfold campaign_target st sc ec :
  send_one cfg flask_mail_send smtp_send campaign_target (st, (sc, ec))
  = let st1 := if fst (check_rate_limit st) then snd (check_rate_limit st)
               else sleep 60 (snd (check_rate_limit st)) in
    match send_email_to_target cfg flask_mail_send smtp_send campaign_target st1 with
    | Returned true st2 => (mark_sent campaign_target st2, (sc + 1, ec))
    | Returned false st2 => (st2, (sc, ec + 1))
    | Raised e st2 => (log_error_event campaign_target e st2, (sc, ec + 1))
    end.
Proof. unfold send_one. now destruct (check_rate_limit st). Qed.

(** What one iteration keeps and counts. *)
Lemma send_one_step campaign_target st sc ec :
  let out := send_one cfg flask_mail_send smtp_send campaign_target (st, (sc, ec)) in
  targets (run_db (fst out)) = targets (run_db st)
  /\ templates (run_db (fst out)) = templates (run_db st)
  /\ campaigns (run_db (fst out)) = campaigns (run_db st)
  /\ sender_campaign (sender (fst out)) = sender_campaign (sender st)
  /\ fst (snd out) + snd (snd out) = sc + ec + 1
  /\ sc <= fst (snd out) /\ ec <= snd (snd out)
  /\ exists new,
       delivered (fst out) = (delivered st ++ new)%list
       /\ Z.of_nat (List.length new) = fst (snd out) - sc
       /\ Forall (addressed_to [campaign_target] (run_db st)) new.
Proof.
  cbn zeta. rewrite send_one_unfold. cbn zeta.
  destruct (before_send st) as (Hdb & Hdel & Hcamp & _).
  set (st1 := if fst (check_rate_limit st) then snd (check_rate_limit st)
              else sleep 60 (snd (check_rate_limit st))) in *.
  pose proof (send_email_to_target_cases campaign_target st1) as Hcases.
  destruct (send_email_to_target cfg flask_mail_send smtp_send campaign_target st1) as [[|] st2|e st2].
  - destruct Hcases as (target & campaign & template & m & Ht & _ & _ & Hm & _ & ->).
    cbn. rewrite Hdb, Hdel, Hcamp. repeat split; try lia.
    exists [m]. repeat split; [simpl; lia|].
    constructor; [|constructor].
    exists campaign_target, target. rewrite <- Hdb. repeat split; auto. now left.
  - subst st2. cbn. rewrite Hdb, Hdel, Hcamp. repeat split; try lia.
    exists []. rewrite app_nil_r. repeat split; [simpl; lia|constructor].
  - destruct Hcases as [-> _]. cbn. rewrite Hdb, Hdel, Hcamp.
    repeat split; try lia.
    exists []. rewrite app_nil_r. repeat split; [simpl; lia|constructor].
Qed.

Lemma addressed_to_incl cts cts' d d' m :
  (forall ct, In ct cts -> In ct cts') -> targets d = targets d' ->
  addressed_to cts d m -> addressed_to cts' d' m.
Proof.
  intros Hincl Ht (ct & target & Hin & Hget & Hto).
  exists ct, target. repeat split; auto.
  unfold get_target in *. now rewrite <- Ht.
Qed.

(** The loop, from any counters. *)
Lemma send_loop_from (pending : list CampaignTarget) :
  forall st sc ec,
    let out := fold_left (fun acc ct => send_one cfg flask_mail_send smtp_send ct acc) pending (st, (sc, ec)) in
    targets (run_db (fst out)) = targets (run_db st)
    /\ templates (run_db (fst out)) = templates (run_db st)
    /\ campaigns (run_db (fst out)) = campaigns (run_db st)
    /\ sender_campaign (sender (fst out)) = sender_campaign (sender st)
    /\ fst (snd out) + snd (snd out) = sc + ec + Z.of_nat (List.length pending)
    /\ sc <= fst (snd out) /\ ec <= snd (snd out)
    /\ exists new,
         delivered (fst out) = (delivered st ++ new)%list
         /\ Z.of_nat (List.length new) = fst (snd out) - sc
         /\ Forall (addressed_to pending (run_db st)) new.
Proof.
  induction pending as [|ct pending IH]; intros st sc ec.
  - cbn. repeat split; try lia. exists []. rewrite app_nil_r.
    repeat split; [simpl; lia|constructor].
  - cbn [fold_left].
    destruct (send_one_step ct st sc ec)
      as (Ht & Htp & Hc & Hs & Hsum & Hsc & Hec & new1 & Hd1 & Hn1 & Ha1).
    destruct (send_one cfg flask_mail_send smtp_send ct (st, (sc, ec))) as [st1 [sc1 ec1]] eqn:Hone.
    cbn [fst snd] in *.
    destruct (IH st1 sc1 ec1)
      as (Ht2 & Htp2 & Hc2 & Hs2 & Hsum2 & Hsc2 & Hec2 & new2 & Hd2 & Hn2 & Ha2).
    cbn zeta in *.
    repeat split; try congruence; try lia.
    + cbn [List.length]. lia.
    + exists (new1 ++ new2)%list. repeat split.
      * now rewrite Hd2, Hd1, app_assoc.
      * rewrite length_app, Nat2Z.inj_add. lia.
      * apply Forall_app. split.
        -- eapply Forall_impl; [|exact Ha1]. intros m.
           apply addressed_to_incl; [|reflexivity].
           intros x [<-|[]]. now left.
        -- eapply Forall_impl; [|exact Ha2]. intros m.
           apply addressed_to_incl; [|exact Ht].
           intros x Hx. now right.
Qed.

(** X5.  A dispatcher run attempts every target of its list exactly once:
    successes and errors add up to the number of targets, the messages
    accepted by a mail transport are as many as the successes, and each of
    them is addressed to the target of one of the listed rows.  The tables
    of targets, templates and campaigns are not written by the loop. *)
Theorem send_loop_accounts (pending : list CampaignTarget) (st : Run) :
  let out := send_loop cfg flask_mail_send smtp_send pending st in
  let success_count := fst (snd out) in
  let error_count := snd (snd out) in
  success_count + error_count = Z.of_nat (List.length pending)
  /\ 0 <= success_count /\ 0 <= error_count
  /\ targets (run_db (fst out)) = targets (run_db st)
  /\ templates (run_db (fst out)) = templates (run_db st)
  /\ campaigns (run_db (fst out)) = campaigns (run_db st)
  /\ exists new,
       delivered (fst out) = (delivered st ++ new)%list
       /\ Z.of_nat (List.length new) = success_count
       /\ Forall (addressed_to pending (run_db st)) new.
Proof.
  cbn zeta. unfold send_loop.
  destruct (send_loop_from pending st 0 0)
    as (Ht & Htp & Hc & _ & Hsum & Hsc & Hec & new & Hd & Hn & Ha).
  cbn zeta in *. repeat split; auto; try lia.
  exists new. repeat split; auto. lia.
Qed.

End DispatcherRuns.

Lemma get_campaign_completed id t d c :
  get_campaign id d = Some c ->
  get_campaign id (complete_campaign_row id t d) = Some (completed t c).
Proof.
  unfold get_campaign, complete_campaign_row. simpl.
  induction (campaigns d) as [|x l IH]; simpl; [discriminate|].
  destruct (c_id x =? id) eqn:Hid; simpl; rewrite Hid.
  - now intros [= ->].
  - exact IH.
Qed.

Lemma sent_so_far_start (l : list CampaignTarget) : Forall2 (sent_so_far []) l l.
Proof.
  induction l; constructor; auto.
  repeat split; auto. intros [].
Qed.

Lemma sent_so_far_step (done : list Z) (id t : Z) (l l' : list CampaignTarget) :
  Forall2 (sent_so_far done) l l' ->
  Forall2 (sent_so_far (id :: done)) l
          (map (fun ct => if ct_id ct =? id
                          then with_sent_at t (with_status Sent ct) else ct) l').
Proof.
  induction 1 as [|a b l l' (Hid & Hcid & Hst & Hdone) _ IH]; simpl;
    constructor; auto.
  destruct (ct_id b =? id) eqn:Hb; simpl.
  - repeat split; auto.
  - repeat split; auto. intros [Heq|Hin]; auto.
    apply Z.eqb_neq in Hb. congruence.
Qed.

Lemma none_pending_left (cid : Z) (done : list Z) (l l' : list CampaignTarget) :
  Forall2 (sent_so_far done) l l' ->
  (forall a, In a l -> campaign_id a = cid -> status a = Pending ->
             In (ct_id a) done) ->
  filter (fun ct => (campaign_id ct =? cid) && status_eqb (status ct) Pending) l'
  = [].
Proof.
  induction 1 as [|a b l l' (Hid & Hcid & Hst & Hdone) _ IH]; intros Hall;
    simpl; [reflexivity|].
  rewrite IH by (intros x Hx; apply Hall; now right).
  destruct (campaign_id b =? cid) eqn:Hc; simpl; [|reflexivity].
  destruct (status b) eqn:Hsb; simpl; try reflexivity.
  exfalso. apply Z.eqb_eq in Hc.
  assert (Hsa : status a = Pending) by (destruct Hst; congruence).
  assert (Hin : In (ct_id a) done)
    by (apply Hall; [now left | congruence | exact Hsa]).
  specialize (Hdone Hin). congruence.
Qed.

Section DispatcherCompletion.
Variable cfg : Config.
Variable flask_mail_send : Message -> option string.
Variable smtp_send : Message -> option string.

(** A deliverable target is sent to, whatever the counters say. *)
Lemma send_one_delivers campaign_target target campaign template st sc ec :
  get_target (target_id campaign_target) (run_db st) = Some target ->
  sender_campaign (sender st) = Some campaign ->
  get_template (template_id campaign) (run_db st) = Some template ->
  (forall m, flask_mail_send m = None) ->
  let out := send_one cfg flask_mail_send smtp_send campaign_target
               (st, (sc, ec)) in
  exists t,
    clock st <= t <= clock st + 60
    /\ clock (fst out) = t
    /\ snd out = (sc + 1, ec)
    /\ sent_count (sender (fst out)) = 1 + (if clock st - start_time (sender st) <? 3600
                                           then sent_count (sender st) else 0)
    /\ email_events (run_db (fst out))
       = (email_events (run_db st)
          ++ [sent_event campaign template campaign_target t])%list
    /\ campaign_targets (run_db (fst out))
       = map (fun ct => if ct_id ct =? ct_id campaign_target
                        then with_sent_at t (with_status Sent ct) else ct)
             (campaign_targets (run_db st))
    /\ List.length (delivered (fst out)) = S (List.length (delivered st))
    /\ (t = clock st + 60 <->
        clock st - start_time (sender st) < 3600
        /\ rate_limit (sender st) <= sent_count (sender st)).
Proof.
  intros Ht Hc Htp Hflask. cbn zeta. rewrite send_one_unfold. cbn zeta.
  set (st1 := if fst (check_rate_limit st) then snd (check_rate_limit st)
              else sleep 60 (snd (check_rate_limit st))).
  assert (Hst1 : run_db st1 = run_db st /\ delivered st1 = delivered st
                 /\ sender_campaign (sender st1) = Some campaign
                 /\ clock st <= clock st1 <= clock st + 60
                 /\ sent_count (sender st1)
                    = (if clock st - start_time (sender st) <? 3600
                       then sent_count (sender st) else 0)
                 /\ (clock st1 = clock st + 60 <->
                     clock st - start_time (sender st) < 3600
                     /\ rate_limit (sender st) <= sent_count (sender st))).
  { subst st1. unfold check_rate_limit.
    destruct (clock st - start_time (sender st) <? 3600) eqn:He; simpl.
    - apply Z.ltb_lt in He.
      destruct (sent_count (sender st) <? rate_limit (sender st)) eqn:Hb; simpl.
      + apply Z.ltb_lt in Hb. repeat split; auto; lia.
      + apply Z.ltb_ge in Hb. repeat split; auto; lia.
    - apply Z.ltb_ge in He. repeat split; auto; lia. }
  destruct Hst1 as (Hdb & Hdel & Hcamp & Hclock & Hcount & Hslept).
  unfold send_email_to_target. rewrite Hdb, Ht, Hcamp, Htp.
  unfold send_email_flask_mail. rewrite Hflask. cbn -[Z.add].
  exists (clock st1). rewrite Hdb, Hdel, Hcount.
  repeat split; try lia; try tauto.
  rewrite length_app. simpl. lia.
Qed.

(** X6.  The hourly budget never prevents a send.  When the sender is over
    [MAX_EMAILS_PER_HOUR] within the hour and the target's mail is
    deliverable, the loop sleeps one minute and sends all the same: the
    mail goes out, the target is marked [Sent] with a [sent] event, and the
    counter of the hour moves further above the budget. *)
Theorem over_budget_still_sends (campaign_target : CampaignTarget)
    (target : Target) (campaign : Campaign) (template : Template) (st : Run)
    (success_count error_count : Z) :
  over_budget st ->
  get_target (target_id campaign_target) (run_db st) = Some target ->
  sender_campaign (sender st) = Some campaign ->
  get_template (template_id campaign) (run_db st) = Some template ->
  (forall m, flask_mail_send m = None) ->
  let out := send_one cfg flask_mail_send smtp_send campaign_target
               (st, (success_count, error_count)) in
  snd out = (success_count + 1, error_count)
  /\ clock (fst out) = clock st + 60
  /\ sent_count (sender (fst out)) = sent_count (sender st) + 1
  /\ rate_limit (sender (fst out)) < sent_count (sender (fst out))
  /\ email_events (run_db (fst out))
     = (email_events (run_db st)
        ++ [sent_event campaign template campaign_target (clock st + 60)])%list
  /\ List.length (delivered (fst out)) = S (List.length (delivered st))
  /\ (forall ct, In ct (campaign_targets (run_db (fst out))) ->
                 ct_id ct = ct_id campaign_target ->
                 status ct = Sent /\ sent_at ct = Some (clock st + 60)).
Proof.
  intros [Hhour Hover] Ht Hc Htp Hflask out.
  destruct (send_one_delivers campaign_target target campaign template st
              success_count error_count Ht Hc Htp Hflask)
    as (t & _ & Hclock & Hcnt & Hsent & Hevs & Hcts & Hdel & Hslept).
  fold out in Hclock, Hcnt, Hsent, Hevs, Hcts, Hdel.
  assert (t = clock st + 60) as -> by (apply Hslept; split; assumption).
  assert (Hlt : (clock st - start_time (sender st) <? 3600) = true)
    by now apply Z.ltb_lt.
  rewrite Hlt in Hsent.
  assert (Hrl : rate_limit (sender (fst out)) = rate_limit (sender st)).
  { subst out. rewrite send_one_unfold. cbn zeta.
    unfold check_rate_limit. rewrite Hlt.
    assert (Hb : (sent_count (sender st) <? rate_limit (sender st)) = false)
      by now apply Z.ltb_ge.
    rewrite Hb. cbn [fst snd].
    unfold send_email_to_target. cbn [sleep run_db sender].
    rewrite Ht, Hc, Htp. unfold send_email_flask_mail. rewrite Hflask.
    reflexivity. }
  repeat split; auto; try lia.
  - rewrite Hcts in H. apply in_map_iff in H as (x & <- & _).
    destruct (ct_id x =? ct_id campaign_target) eqn:Hx; [reflexivity|].
    apply Z.eqb_neq in Hx. simpl in H0. contradiction.
  - rewrite Hcts in H. apply in_map_iff in H as (x & <- & _).
    destruct (ct_id x =? ct_id campaign_target) eqn:Hx; [reflexivity|].
    apply Z.eqb_neq in Hx. simpl in H0. contradiction.
Qed.

(** The loop on deliverable targets. *)
Lemma send_loop_delivers (campaign : Campaign) (template : Template)
    (pending : list CampaignTarget) :
  (forall m, flask_mail_send m = None) ->
  forall st sc ec done cts0,
    sender_campaign (sender st) = Some campaign ->
    get_template (template_id campaign) (run_db st) = Some template ->
    (forall ct, In ct pending ->
                get_target (target_id ct) (run_db st) <> None) ->
    Forall2 (sent_so_far done) cts0 (campaign_targets (run_db st)) ->
    let out := fold_left
                 (fun acc ct => send_one cfg flask_mail_send smtp_send ct acc)
                 pending (st, (sc, ec)) in
    snd out = (sc + Z.of_nat (List.length pending), ec)
    /\ clock st <= clock (fst out)
    /\ Forall2 (sent_so_far (rev (map ct_id pending) ++ done)) cts0
               (campaign_targets (run_db (fst out))).
Proof.
  intros Hflask. induction pending as [|ct pending IH];
    intros st sc ec done cts0 Hc Htp Htargets Hinv.
  - cbn. repeat split; auto; try lia. f_equal. lia.
  - cbn [fold_left].
    destruct (get_target (target_id ct) (run_db st)) as [target|] eqn:Ht;
      [|exfalso; apply (Htargets ct); [now left | exact Ht]].
    destruct (send_one_delivers ct target campaign template st sc ec
                Ht Hc Htp Hflask)
      as (t & Htb & Hclock & Hcnt & _ & _ & Hcts & _).
    destruct (send_one_step cfg flask_mail_send smtp_send ct st sc ec)
      as (Htg & Htpl & _ & Hsc & _).
    destruct (send_one cfg flask_mail_send smtp_send ct (st, (sc, ec)))
      as [st1 cnt1] eqn:Hone. cbn [fst snd] in *. subst cnt1.
    assert (Hinv1 : Forall2 (sent_so_far (ct_id ct :: done)) cts0
                            (campaign_targets (run_db st1))).
    { rewrite Hcts. now apply sent_so_far_step. }
    destruct (IH st1 (sc + 1) ec (ct_id ct :: done) cts0) as (Hcnt2 & Hclk2 & Hinv2).
    + congruence.
    + unfold get_template in *. now rewrite Htpl.
    + intros x Hx. unfold get_target. rewrite Htg. apply Htargets. now right.
    + exact Hinv1.
    + cbn zeta in *. repeat split.
      * rewrite Hcnt2. cbn [List.length]. f_equal. lia.
      * lia.
      * cbn [map rev]. rewrite <- app_assoc. exact Hinv2.
Qed.

(** X7.  When every pending target of a campaign has a target row, the
    template exists and the mail transport accepts every message, a run of
    [send_campaign_emails] sends one mail per pending target, leaves no
    target of the campaign pending and marks the campaign [Completed],
    whatever its status was (draft, active or paused); it returns [True]
    exactly when there was a pending target. *)
Theorem successful_run_completes (cid : Z) (req : Request) (st : Run)
    (campaign : Campaign) (template : Template) :
  get_campaign cid (run_db st) = Some campaign ->
  get_template (template_id campaign) (run_db st) = Some template ->
  (forall ct, In ct (pending_targets cid (run_db st)) ->
              get_target (target_id ct) (run_db st) <> None) ->
  (forall m, flask_mail_send m = None) ->
  let out := send_campaign_emails cfg flask_mail_send smtp_send cid req st in
  pending_targets cid (run_db (snd out)) = []
  /\ (exists t, clock st <= t
                /\ get_campaign cid (run_db (snd out)) = Some (completed t campaign))
  /\ fst out = negb (List.length (pending_targets cid (run_db st)) =? 0)%nat
  /\ List.length (delivered (snd out))
     = (List.length (delivered st)
        + List.length (pending_targets cid (run_db st)))%nat.
Proof.
  intros Hcamp Htp Htargets Hflask. cbn zeta.
  unfold send_campaign_emails. rewrite Hcamp. cbn [run_db].
  set (st0 := {| run_db := run_db st; clock := clock st;
                 sender := {| sender_campaign := Some campaign;
                              rate_limit := rate_limit (sender st);
                              sent_count := sent_count (sender st);
                              start_time := start_time (sender st) |};
                 delivered := delivered st |}).
  set (pending := pending_targets cid (run_db st)) in *.
  destruct (send_loop_delivers campaign template pending Hflask st0 0 0 []
              (campaign_targets (run_db st)) eq_refl Htp Htargets
              (sent_so_far_start _))
    as (Hcnt & Hclk & Hinv).
  destruct (send_loop_from cfg flask_mail_send smtp_send pending st0 0 0)
    as (_ & _ & Hcampaigns & _ & _ & _ & _ & new & Hdel & Hnew & _).
  unfold send_loop in *. cbn zeta in *.
  destruct (fold_left _ pending (st0, (0, 0))) as [st1 [sc1 ec1]] eqn:Hloop.
  cbn [fst snd] in *. injection Hcnt as -> ->.
  assert (Hleft : pending_targets cid (run_db st1) = []).
  { unfold pending_targets. eapply none_pending_left; [exact Hinv|].
    intros a Ha Hc Hs. rewrite app_nil_r, <- in_rev. apply in_map.
    subst pending. unfold pending_targets. apply filter_In. split; auto.
    apply andb_true_intro. split; [now apply Z.eqb_eq | now rewrite Hs]. }
  rewrite ?Z.add_0_l, ?Z.add_0_r, Z.eqb_refl.
  rewrite Hleft. cbn [List.length Nat.eqb with_run_db run_db].
  repeat split.
  - unfold pending_targets in *. exact Hleft.
  - exists (clock st1). split; [exact Hclk|].
    unfold get_campaign. cbn [log_audit add_audit campaigns].
    apply get_campaign_completed.
    unfold get_campaign in *. now rewrite Hcampaigns.
  - cbn [fst]. destruct pending; [reflexivity|].
    cbn [List.length Nat.eqb negb]. apply Z.ltb_lt. lia.
  - cbn [snd delivered with_run_db]. rewrite Hdel, length_app.
    cbn [delivered st0]. f_equal.
    apply Nat2Z.inj. lia.
Qed.

End DispatcherCompletion.

Section DispatcherIdle.
Variable cfg : Config.
Variable flask_mail_send : Message -> option string.
Variable smtp_send : Message -> option string.

(** X8.  A run on a campaign without pending target sends nothing, stores
    no event and touches no target, returns [False], and marks the
    campaign [Completed] whatever its status was: so a second run after a
    complete one does not send again, and a run on a draft without targets
    completes it. *)
Theorem idle_run_completes (cid : Z) (req : Request) (st : Run)
    (campaign : Campaign) :
  get_campaign cid (run_db st) = Some campaign ->
  pending_targets cid (run_db st) = [] ->
  let out := send_campaign_emails cfg flask_mail_send smtp_send cid req st in
  fst out = false
  /\ delivered (snd out) = delivered st
  /\ email_events (run_db (snd out)) = email_events (run_db st)
  /\ campaign_targets (run_db (snd out)) = campaign_targets (run_db st)
  /\ get_campaign cid (run_db (snd out)) = Some (completed (clock st) campaign).
Proof.
  intros Hcamp Hpending. cbn zeta.
  unfold send_campaign_emails. rewrite Hcamp. cbn [run_db].
  rewrite Hpending. cbn [send_loop fold_left List.length Z.of_nat].
  cbn [Z.add Z.eqb run_db]. rewrite Hpending.
  cbn [List.length Nat.eqb with_run_db run_db fst snd delivered clock Z.ltb
       Z.compare].
  repeat split.
  unfold get_campaign. cbn [log_audit add_audit campaigns].
  now apply get_campaign_completed.
Qed.

End DispatcherIdle.

(** Over budget from the first target on, both sample mails still go out. *)
Lemma over_budget_still_sends_witness :
  over_budget Sample2.exhausted_start
  /\ get_target 1 (run_db Sample2.exhausted_start) = Some Sample.john
  /\ sender_campaign (sender Sample2.exhausted_start) = Some Sample.drill
  /\ get_template 1 (run_db Sample2.exhausted_start) = Some Sample.alert
  /\ (forall m, Sample2.accept_all m = None)
  /\ clock (fst (send_one Sample.config Sample2.accept_all Sample2.accept_all
                   (Sample.enrol 1 Pending "tok-john")
                   (Sample2.exhausted_start, (0, 0))))
     = 1060.
Proof.
  assert (H1 : over_budget Sample2.exhausted_start)
    by (unfold over_budget; simpl; lia).
  split; [exact H1|]. split; [reflexivity|]. split; [reflexivity|].
  split; [reflexivity|]. split; [reflexivity|].
  exact (proj1 (proj2
           (over_budget_still_sends Sample.config Sample2.accept_all
              Sample2.accept_all (Sample.enrol 1 Pending "tok-john")
              Sample.john Sample.drill Sample.alert Sample2.exhausted_start
              0 0 H1 eq_refl eq_refl eq_refl (fun _ => eq_refl)))).
Defined.

Lemma successful_run_completes_witness :
  get_campaign 1 (run_db Sample.dispatch_start) = Some Sample.drill
  /\ get_template 1 (run_db Sample.dispatch_start) = Some Sample.alert
  /\ (forall ct, In ct (pending_targets 1 (run_db Sample.dispatch_start)) ->
                 get_target (target_id ct) (run_db Sample.dispatch_start) <> None)
  /\ (forall m, Sample2.accept_all m = None)
  /\ pending_targets 1
       (run_db (snd (send_campaign_emails Sample.config Sample2.accept_all
                       Sample2.accept_all 1 (Sample.admin_request 1000)
                       Sample.dispatch_start)))
     = [].
Proof.
  assert (H3 : forall ct,
             In ct (pending_targets 1 (run_db Sample.dispatch_start)) ->
             get_target (target_id ct) (run_db Sample.dispatch_start) <> None).
  { intros ct Hin. simpl in Hin.
    destruct Hin as [<-|[<-|[]]]; discriminate. }
  split; [reflexivity|]. split; [reflexivity|]. split; [exact H3|].
  split; [reflexivity|].
  exact (proj1 (successful_run_completes Sample.config Sample2.accept_all
                  Sample2.accept_all 1 (Sample.admin_request 1000)
                  Sample.dispatch_start Sample.drill Sample.alert
                  eq_refl eq_refl H3 (fun _ => eq_refl))).
Defined.

Lemma idle_run_completes_witness :
  get_campaign 1 (run_db Sample2.rerun_start) = Some Sample.drill
  /\ pending_targets 1 (run_db Sample2.rerun_start) = []
  /\ delivered (snd (send_campaign_emails Sample.config Sample.refuse_john
                       Sample.refuse_john 1 (Sample.admin_request 5000)
                       Sample2.rerun_start))
     = [].
Proof.
  split; [reflexivity|]. split; [reflexivity|].
  exact (proj1 (proj2
           (idle_run_completes Sample.config Sample.refuse_john
              Sample.refuse_john 1 (Sample.admin_request 5000)
              Sample2.rerun_start Sample.drill eq_refl eq_refl))).
Defined.

(* ================================================================== *)
(** * Campaign lifecycle *)
(* ================================================================== *)

Lemma unique_campaign (l : list Campaign) a b :
  NoDup (map c_id l) -> In a l -> In b l -> c_id a = c_id b -> a = b.
Proof.
  induction l as [|x l IH]; simpl; [tauto|].
  intros Hnd Ha Hb Hid. apply NoDup_cons_iff in Hnd as [Hfresh Hnd].
  destruct Ha as [->|Ha], Hb as [->|Hb]; auto; exfalso; apply Hfresh.
  - rewrite Hid. now apply in_map.
  - rewrite <- Hid. now apply in_map.
Qed.

Lemma get_campaign_in id d c :
  get_campaign id d = Some c -> In c (campaigns d) /\ c_id c = id.
Proof.
  unfold get_campaign. intros Hf. apply find_some in Hf as [Hin Hid].
  split; [assumption | now apply Z.eqb_eq].
Qed.

Lemma lifecycle_forward_refl d d' :
  campaigns d' = campaigns d -> lifecycle_forward d d'.
Proof.
  intros Heq c' Hin. rewrite Heq in Hin. exists c'. auto.
Qed.

Lemma lifecycle_forward_trans d1 d2 d3 :
  lifecycle_forward d1 d2 -> lifecycle_forward d2 d3 -> lifecycle_forward d1 d3.
Proof.
  intros H12 H23 c3 Hin3.
  destruct (H23 c3 Hin3) as (c2 & Hin2 & Hid2 & Hr2).
  destruct (H12 c2 Hin2) as (c1 & Hin1 & Hid1 & Hr1).
  exists c1. repeat split; auto; [congruence | lia].
Qed.

(** Rewriting the row of a key to a later status moves the table forward
    and keeps the keys. *)
Lemma update_campaign_forward (d d' : DB) (c : Campaign) (f : Campaign -> Campaign) :
  campaign_keys_unique d -> In c (campaigns d) ->
  (forall x, c_id (f x) = c_id x) ->
  (campaign_rank (c_status c) <= campaign_rank (c_status (f c)))%nat ->
  campaigns d' = map (fun x => if c_id x =? c_id c then f x else x) (campaigns d) ->
  lifecycle_forward d d' /\ campaign_keys_unique d'.
Proof.
  intros Hnd Hin Hf Hrank Heq. split.
  - intros c' Hin'. rewrite Heq in Hin'.
    apply in_map_iff in Hin' as (x & <- & Hx).
    destruct (c_id x =? c_id c) eqn:Hid.
    + apply Z.eqb_eq in Hid.
      rewrite (unique_campaign _ x c Hnd Hx Hin Hid).
      exists c. repeat split; auto.
    + exists x. repeat split; auto.
  - unfold campaign_keys_unique. rewrite Heq, map_map.
    erewrite map_ext; [exact Hnd|].
    intros x. simpl. now destruct (c_id x =? c_id c).
Qed.

Lemma delete_campaign_forward (d d' : DB) (p : Campaign -> bool) :
  campaign_keys_unique d ->
  campaigns d' = filter p (campaigns d) ->
  lifecycle_forward d d' /\ campaign_keys_unique d'.
Proof.
  intros Hnd Heq. split.
  - intros c' Hin'. rewrite Heq in Hin'. apply filter_In in Hin' as [Hin' _].
    exists c'. auto.
  - unfold campaign_keys_unique in *. rewrite Heq. clear Heq.
    induction (campaigns d) as [|x l IH]; simpl; [constructor|].
    apply NoDup_cons_iff in Hnd as [Hfresh Hnd].
    destruct (p x); simpl; auto.
    apply NoDup_cons; auto.
    contradict Hfresh. apply in_map_iff in Hfresh as (y & Hy & Hin).
    apply filter_In in Hin as [Hin _]. apply in_map_iff. eauto.
Qed.

Section Lifecycle.
Variable cfg : Config.

Lemma perform_forward (act : CampaignAction) (id : Z) (req : Request) (a : App) :
  campaign_keys_unique (app_db a) ->
  lifecycle_forward (app_db a) (app_db (fst (perform cfg act id req a)))
  /\ campaign_keys_unique (app_db (fst (perform cfg act id req a))).
Proof.
  intros Hnd.
  assert (Hsame : forall d', campaigns d' = campaigns (app_db a) ->
                             lifecycle_forward (app_db a) d'
                             /\ campaign_keys_unique d').
  { intros d' Heq. split; [now apply lifecycle_forward_refl|].
    unfold campaign_keys_unique. now rewrite Heq. }
  destruct act; unfold perform, send_campaign, pause_campaign,
    complete_campaign, delete_campaign;
    (destruct (current_user req) as [[uid is_admin]|]; [|now apply Hsame]);
    (destruct (get_campaign id (app_db a)) as [campaign|] eqn:Hcamp;
     [|now apply Hsame]);
    (destruct (negb is_admin && negb (created_by campaign =? uid));
     [now apply Hsame|]);
    apply get_campaign_in in Hcamp as [Hin Hid].
  - destruct (campaign_status_eqb (c_status campaign) Draft) eqn:Hs; simpl;
      [|now apply Hsame].
    apply campaign_status_eqb_eq in Hs.
    destruct (_ =? 0)%nat; [now apply Hsame|].
    destruct (CAMPAIGN_CONSENT_REQUIRED cfg && negb (consent_verified campaign));
      [now apply Hsame|].
    unfold queue_campaign_emails.
    destruct thread_starts; cbn [fst app_db];
      (apply update_campaign_forward with (c := campaign)
         (f := activated (now req));
       [exact Hnd | exact Hin | reflexivity | rewrite Hs; simpl; lia
       | reflexivity]).
  - destruct (campaign_status_eqb (c_status campaign) Active) eqn:Hs; simpl;
      [|now apply Hsame].
    apply campaign_status_eqb_eq in Hs.
    apply update_campaign_forward with (c := campaign)
      (f := fun c => {| c_id := c_id c; c_name := c_name c;
                        template_id := template_id c; c_status := Paused;
                        consent_verified := consent_verified c;
                        created_by := created_by c; started_at := started_at c;
                        completed_at := completed_at c |});
      [exact Hnd | exact Hin | reflexivity | rewrite Hs; simpl; lia
      | reflexivity].
  - destruct (campaign_status_eqb (c_status campaign) Active
              || campaign_status_eqb (c_status campaign) Paused) eqn:Hs; simpl;
      [|now apply Hsame].
    apply update_campaign_forward with (c := campaign)
      (f := completed (now req));
      [exact Hnd | exact Hin | reflexivity
      | destruct (c_status campaign); simpl; lia | reflexivity].
  - destruct (campaign_status_eqb (c_status campaign) Active); simpl;
      [now apply Hsame|].
    apply delete_campaign_forward
      with (p := fun c => negb (c_id c =? c_id campaign));
      [exact Hnd | reflexivity].
Qed.

(** X9.  Campaign lifecycle.  Over any sequence of send, pause, complete
    and delete requests, by any users and on any campaigns, no campaign
    appears and every campaign still stored has moved forward or stayed in
    the order draft < active < paused < completed: a completed campaign
    stays completed, and a paused campaign is never active again (there is
    no way to resume). *)
Theorem campaign_lifecycle_forward
    (acts : list (CampaignAction * Z * Request)) (a : App) :
  campaign_keys_unique (app_db a) ->
  lifecycle_forward (app_db a) (app_db (perform_all cfg acts a))
  /\ (forall id c c',
         get_campaign id (app_db a) = Some c ->
         get_campaign id (app_db (perform_all cfg acts a)) = Some c' ->
         (campaign_rank (c_status c) <= campaign_rank (c_status c'))%nat
         /\ (c_status c = Completed -> c_status c' = Completed)
         /\ (c_status c = Paused -> c_status c' = Paused
                                    \/ c_status c' = Completed)).
Proof.
  intros Hnd.
  assert (Hrun : lifecycle_forward (app_db a) (app_db (perform_all cfg acts a))).
  { unfold perform_all. revert a Hnd.
    induction acts as [|[[act id] req] acts IH]; intros a Hnd;
      [now apply lifecycle_forward_refl|].
    cbn [fold_left fst snd].
    destruct (perform_forward act id req a Hnd) as [Hstep Hnd1].
    eapply lifecycle_forward_trans; [exact Hstep | now apply IH]. }
  split; [exact Hrun|].
  intros id c c' Hc Hc'.
  apply get_campaign_in in Hc as [Hin Hid].
  apply get_campaign_in in Hc' as [Hin' Hid'].
  destruct (Hrun c' Hin') as (c0 & Hin0 & Hid0 & Hrank).
  assert (c0 = c) as -> by (apply (unique_campaign _ _ _ Hnd Hin0 Hin); congruence).
  split; [exact Hrank|].
  split; intros Hs; rewrite Hs in Hrank;
    destruct (c_status c'); simpl in Hrank; auto; lia.
Qed.

Lemma stranger_step (act : CampaignAction) (id : Z) (req : Request) (a : App) :
  stranger (app_db a) id req = true ->
  app_db (fst (perform cfg act id req a)) = app_db a
  /\ queued (fst (perform cfg act id req a)) = queued a.
Proof.
  unfold stranger. intros Hs.
  destruct act; unfold perform, send_campaign, pause_campaign,
    complete_campaign, delete_campaign;
    (destruct (current_user req) as [[uid is_admin]|]; [|now split]);
    (destruct (get_campaign id (app_db a)) as [campaign|]; [|now split]);
    rewrite Hs; now split.
Qed.

(** X10.  Access control of the campaign views.  A sequence of send,
    pause, complete and delete requests each of which comes from nobody
    signed in, names a campaign that does not exist, or comes from a user
    who is neither an administrator nor the creator of the campaign it
    names, leaves the database (no status change, no deletion, no audit
    entry) and the dispatch queue exactly as they were. *)
Theorem strangers_change_nothing
    (acts : list (CampaignAction * Z * Request)) (a : App) :
  Forall (fun x => stranger (app_db a) (snd (fst x)) (snd x) = true) acts ->
  app_db (perform_all cfg acts a) = app_db a
  /\ queued (perform_all cfg acts a) = queued a.
Proof.
  unfold perform_all. revert a.
  induction acts as [|[[act id] req] acts IH]; intros a Hall; [now split|].
  apply Forall_cons_iff in Hall as [Hx Hall]. cbn [fst snd] in Hx.
  cbn [fold_left fst snd].
  destruct (stranger_step act id req a Hx) as [Hdb Hq].
  destruct (IH (fst (perform cfg act id req a))) as [Hdb' Hq'].
  { now rewrite Hdb. }
  split; congruence.
Qed.

End Lifecycle.

Lemma campaign_lifecycle_forward_witness :
  campaign_keys_unique Sample3.two_campaigns
  /\ option_map c_status
       (get_campaign 1
          (app_db (perform_all Sample.config Sample3.session
                     (Sample.app Sample3.two_campaigns))))
     = Some Completed
  /\ (campaign_rank Draft <= campaign_rank Completed)%nat.
Proof.
  assert (Hnd : campaign_keys_unique Sample3.two_campaigns).
  { unfold campaign_keys_unique. simpl.
    repeat constructor; simpl; intuition discriminate. }
  split; [exact Hnd|]. split; [reflexivity|].
  exact (proj1 (proj2 (campaign_lifecycle_forward Sample.config Sample3.session
                         (Sample.app Sample3.two_campaigns) Hnd)
                  1 Sample.drill _ eq_refl eq_refl)).
Defined.

Lemma strangers_change_nothing_witness :
  Forall (fun x => stranger Sample3.two_campaigns (snd (fst x)) (snd x) = true)
         Sample3.intrusion
  /\ app_db (perform_all Sample.config Sample3.intrusion
               (Sample.app Sample3.two_campaigns))
     = Sample3.two_campaigns.
Proof.
  assert (Hall : Forall (fun x => stranger Sample3.two_campaigns (snd (fst x))
                                           (snd x) = true)
                        Sample3.intrusion)
    by (repeat constructor).
  split; [exact Hall|].
  exact (proj1 (strangers_change_nothing Sample.config Sample3.intrusion
                  (Sample.app Sample3.two_campaigns) Hall)).
Defined.

(* ================================================================== *)
(** * Deleting a campaign *)
(* ================================================================== *)

Lemma find_filter_agree {A} (p q : A -> bool) (l : list A) :
  (forall x, In x l -> p x = true -> q x = true) ->
  find p (filter q l) = find p l.
Proof.
  induction l as [|x l IH]; intros Hpq; simpl; [reflexivity|].
  destruct (p x) eqn:Hp.
  - rewrite (Hpq x (or_introl eq_refl) Hp). simpl. now rewrite Hp.
  - destruct (q x); simpl; rewrite ?Hp; apply IH; intros y Hy; apply Hpq;
      now right.
Qed.

Lemma find_filter_none {A} (p q : A -> bool) (l : list A) :
  (forall x, In x l -> p x = true -> q x = false) ->
  find p (filter q l) = None.
Proof.
  induction l as [|x l IH]; intros Hpq; simpl; [reflexivity|].
  destruct (q x) eqn:Hq; simpl.
  - destruct (p x) eqn:Hp.
    + rewrite (Hpq x (or_introl eq_refl) Hp) in Hq. discriminate.
    + apply IH. intros y Hy. apply Hpq. now right.
  - apply IH. intros y Hy. apply Hpq. now right.
Qed.

Lemma filter_filter_other (id other : Z) (l : list CampaignTarget) :
  other <> id ->
  filter (fun ct => campaign_id ct =? other)
         (filter (fun ct => negb (campaign_id ct =? id)) l)
  = filter (fun ct => campaign_id ct =? other) l.
Proof.
  intros Hne. induction l as [|x l IH]; simpl; [reflexivity|].
  destruct (campaign_id x =? id) eqn:Hid; simpl.
  - apply Z.eqb_eq in Hid.
    assert ((campaign_id x =? other) = false) as -> by (apply Z.eqb_neq; lia).
    exact IH.
  - now rewrite IH.
Qed.

Lemma filter_none_left (id : Z) (l : list CampaignTarget) :
  filter (fun ct => campaign_id ct =? id)
         (filter (fun ct => negb (campaign_id ct =? id)) l) = [].
Proof.
  induction l as [|x l IH]; simpl; [reflexivity|].
  destruct (campaign_id x =? id) eqn:Hid; simpl; [exact IH|].
  now rewrite Hid.
Qed.

Lemma unique_by_token (l : list CampaignTarget) a b :
  NoDup (map unique_token l) -> In a l -> In b l ->
  unique_token a = unique_token b -> a = b.
Proof.
  induction l as [|x l IH]; simpl; [tauto|].
  intros Hnd Ha Hb Htok. apply NoDup_cons_iff in Hnd as [Hfresh Hnd].
  destruct Ha as [->|Ha], Hb as [->|Hb]; auto; exfalso; apply Hfresh.
  - rewrite Htok. now apply in_map.
  - rewrite <- Htok. now apply in_map.
Qed.

(** What an accepted deletion leaves in the database. *)
Lemma delete_campaign_db (id : Z) (req : Request) (a : App) (campaign : Campaign) :
  get_campaign id (app_db a) = Some campaign ->
  stranger (app_db a) id req = false ->
  c_status campaign <> Active ->
  campaigns (app_db (fst (delete_campaign id req a)))
  = filter (fun c => negb (c_id c =? id)) (campaigns (app_db a))
  /\ campaign_targets (app_db (fst (delete_campaign id req a)))
     = filter (fun ct => negb (campaign_id ct =? id))
              (campaign_targets (app_db a))
  /\ email_events (app_db (fst (delete_campaign id req a)))
     = email_events (app_db a)
  /\ targets (app_db (fst (delete_campaign id req a))) = targets (app_db a)
  /\ templates (app_db (fst (delete_campaign id req a)))
     = templates (app_db a).
Proof.
  unfold stranger, delete_campaign. intros Hc Hs Hst.
  destruct (get_campaign_in _ _ _ Hc) as [_ Hid].
  destruct (current_user req) as [[uid is_admin]|]; [|discriminate].
  rewrite Hc in *. rewrite Hs.
  destruct (campaign_status_eqb (c_status campaign) Active) eqn:Ha.
  - apply campaign_status_eqb_eq in Ha. contradiction.
  - rewrite Hid. simpl. repeat split; reflexivity.
Qed.

(** X11.  Scope of a deletion.  When the administrator or the creator
    deletes a campaign that is not active, the campaign is gone and so
    are all of its campaign targets; every other campaign and the
    campaign targets of every other campaign are exactly as before; the
    targets and the recorded events, including the events of the deleted
    campaign targets, stay in the database. *)
Theorem delete_campaign_scope (id : Z) (req : Request) (a : App)
    (campaign : Campaign) :
  get_campaign id (app_db a) = Some campaign ->
  stranger (app_db a) id req = false ->
  c_status campaign <> Active ->
  get_campaign id (app_db (fst (delete_campaign id req a))) = None
  /\ enrolled id (app_db (fst (delete_campaign id req a))) = []
  /\ (forall other, other <> id ->
        get_campaign other (app_db (fst (delete_campaign id req a)))
        = get_campaign other (app_db a)
        /\ enrolled other (app_db (fst (delete_campaign id req a)))
           = enrolled other (app_db a))
  /\ email_events (app_db (fst (delete_campaign id req a)))
     = email_events (app_db a)
  /\ targets (app_db (fst (delete_campaign id req a))) = targets (app_db a).
Proof.
  intros Hc Hs Hst.
  destruct (delete_campaign_db id req a campaign Hc Hs Hst)
    as (Hcs & Hcts & Hev & Htg & _).
  unfold get_campaign, enrolled. rewrite Hcs, Hcts.
  split; [|split; [|split; [|split]]]; auto.
  - apply find_filter_none. intros x _ Hx. now rewrite Hx.
  - apply filter_none_left.
  - intros other Hne. split.
    + apply find_filter_agree. intros x _ Hx. apply Z.eqb_eq in Hx.
      apply negb_true_iff, Z.eqb_neq. lia.
    + now apply filter_filter_other.
Qed.

Lemma delete_campaign_scope_witness :
  get_campaign 2 Sample3.two_campaigns = Some Sample3.audit
  /\ stranger Sample3.two_campaigns 2 (Sample3.user_request 2 25) = false
  /\ Paused <> Active
  /\ enrolled 2 (app_db (fst (delete_campaign 2 (Sample3.user_request 2 25)
                                (Sample.app Sample3.two_campaigns)))) = [].
Proof.
  assert (Hst : Paused <> Active) by discriminate.
  split; [reflexivity|]. split; [reflexivity|]. split; [exact Hst|].
  exact (proj1 (proj2 (delete_campaign_scope 2 (Sample3.user_request 2 25)
                         (Sample.app Sample3.two_campaigns) Sample3.audit
                         eq_refl eq_refl Hst))).
Defined.

Section DeleteThenTrack.
Context {R : Type} `{RedisClient R}.
Variable md5 : string -> string.
Variable ext : Template -> list Indicator.

(** X12.  Links of a deleted campaign.  After an accepted deletion, and
    with tokens unique as the schema requires, a token that resolved to a
    campaign target of the deleted campaign resolves to nothing: an open,
    a click or a submission on it changes nothing in the database and is
    answered like an unknown token, with not-found when the rate limiter
    admits the request and too-many-requests when it does not. *)
Theorem deleted_campaign_links_dead (r : R) (id : Z) (req : Request) (a : App)
    (campaign : Campaign) (token : string) (ct : CampaignTarget)
    (t : Trigger) (visit : Request) :
  get_campaign id (app_db a) = Some campaign ->
  stranger (app_db a) id req = false ->
  c_status campaign <> Active ->
  tokens_unique (app_db a) ->
  find_by_token token (app_db a) = Some ct ->
  campaign_id ct = id ->
  find_by_token token (app_db (fst (delete_campaign id req a))) = None
  /\ db (fst (handle md5 ext t token visit
                (Build_World (app_db (fst (delete_campaign id req a))) r)))
     = app_db (fst (delete_campaign id req a))
  /\ snd (handle md5 ext t token visit
            (Build_World (app_db (fst (delete_campaign id req a))) r))
     = (if admitted t visit
             (Build_World (app_db (fst (delete_campaign id req a))) r)
        then not_found_response t else too_many_response t).
Proof.
  intros Hc Hs Hst Htok Hfind Hcid.
  destruct (delete_campaign_db id req a campaign Hc Hs Hst)
    as (_ & Hcts & _).
  assert (Hnone : find_by_token token
                    (app_db (fst (delete_campaign id req a))) = None).
  { unfold find_by_token. rewrite Hcts.
    apply find_by_token_in in Hfind as [Hin Heq].
    apply find_filter_none. intros x Hx Hx'. apply String.eqb_eq in Hx'.
    assert (x = ct) as ->
        by (apply (unique_by_token _ _ _ Htok Hx Hin); congruence).
    apply negb_false_iff, Z.eqb_eq, Hcid. }
  split; [exact Hnone|].
  exact (unknown_token_shape md5 ext r token t visit _ Hnone).
Qed.

End DeleteThenTrack.

Lemma deleted_campaign_links_dead_witness :
  get_campaign 2 Sample3.two_campaigns = Some Sample3.audit
  /\ stranger Sample3.two_campaigns 2 (Sample3.user_request 2 25) = false
  /\ Paused <> Active
  /\ tokens_unique Sample3.two_campaigns
  /\ option_map campaign_id (find_by_token "tok-jane" Sample3.two_campaigns)
     = Some 2
  /\ find_by_token "tok-jane"
       (app_db (fst (delete_campaign 2 (Sample3.user_request 2 25)
                       (Sample.app Sample3.two_campaigns)))) = None.
Proof.
  assert (Hst : Paused <> Active) by discriminate.
  assert (Htok : tokens_unique Sample3.two_campaigns).
  { unfold tokens_unique. simpl.
    repeat constructor; simpl; intuition discriminate. }
  split; [reflexivity|]. split; [reflexivity|]. split; [exact Hst|].
  split; [exact Htok|]. split; [reflexivity|].
  exact (proj1 (deleted_campaign_links_dead Sample.digest Sample.no_indicators
                  Sample.redis_up 2 (Sample3.user_request 2 25)
                  (Sample.app Sample3.two_campaigns) Sample3.audit "tok-jane"
                  _ Click (Sample.request 40 []) eq_refl eq_refl Hst Htok
                  eq_refl eq_refl)).
Defined.
(* ================================================================== *)
(** * Regular expressions: the matcher decides the language *)
(* ================================================================== *)

Lemma append_empty (s1 s2 : string) :
  (s1 ++ s2)%string = EmptyString -> s1 = EmptyString /\ s2 = EmptyString.
Proof. destruct s1; simpl; [auto | discriminate]. Qed.

Lemma append_empty_r (s : string) : (s ++ "")%string = s.
Proof. induction s as [|c s IH]; simpl; [reflexivity | now rewrite IH]. Qed.

Lemma lang_cat_inv (r1 r2 : Regex.Re) (s : string) :
  Regex.Lang (Regex.Cat r1 r2) s ->
  exists s1 s2, s = (s1 ++ s2)%string /\ Regex.Lang r1 s1 /\ Regex.Lang r2 s2.
Proof. intros HL. inversion HL; subst. eauto. Qed.

Lemma lang_alt_inv (r1 r2 : Regex.Re) (s : string) :
  Regex.Lang (Regex.Alt r1 r2) s -> Regex.Lang r1 s \/ Regex.Lang r2 s.
Proof. intros HL. inversion HL; subst; auto. Qed.

Lemma lang_chr_inv (c : ascii) (s : string) :
  Regex.Lang (Regex.Chr c) s -> s = String c EmptyString.
Proof. intros HL. now inversion HL. Qed.

Lemma lang_cls_inv (p : ascii -> bool) (s : string) :
  Regex.Lang (Regex.Cls p) s -> exists c, s = String c EmptyString /\ p c = true.
Proof. intros HL. inversion HL; subst. eauto. Qed.

Lemma lang_eps_inv (s : string) : Regex.Lang Regex.Eps s -> s = EmptyString.
Proof. intros HL. now inversion HL. Qed.

Lemma lang_nothing (s : string) : ~ Regex.Lang Regex.Nothing s.
Proof. intros HL. inversion HL. Qed.

Lemma nullable_lang (r : Regex.Re) :
  Regex.nullable r = true <-> Regex.Lang r EmptyString.
Proof.
  induction r as [| | c | p | r1 IH1 r2 IH2 | r1 IH1 r2 IH2 | r IH]; simpl.
  - split; [discriminate | intros HL; now apply lang_nothing in HL].
  - split; [constructor | reflexivity].
  - split; [discriminate | intros HL; apply lang_chr_inv in HL; discriminate].
  - split; [discriminate|].
    intros HL. apply lang_cls_inv in HL as (c & Hc & _). discriminate.
  - rewrite andb_true_iff, IH1, IH2. split.
    + intros [H1 H2]. exact (Regex.LCat _ _ _ _ H1 H2).
    + intros HL. apply lang_cat_inv in HL as (s1 & s2 & Heq & H1 & H2).
      symmetry in Heq. apply append_empty in Heq as [-> ->]. now split.
  - rewrite orb_true_iff, IH1, IH2. split.
    + intros [H1|H2]; [now apply Regex.LAltL | now apply Regex.LAltR].
    + apply lang_alt_inv.
  - split; [constructor | reflexivity].
Qed.

(** A non-empty match of a star starts with a non-empty match of its body. *)
Lemma star_cons_inv (r : Regex.Re) (a : ascii) (s : string) :
  Regex.Lang (Regex.Star r) (String a s) ->
  exists s1 s2, s = (s1 ++ s2)%string
                /\ Regex.Lang r (String a s1) /\ Regex.Lang (Regex.Star r) s2.
Proof.
  intros HL. remember (Regex.Star r) as r0 eqn:Hr.
  remember (String a s) as w eqn:Hw.
  revert a s Hw.
  induction HL as [| | | | | | r' | r' s1 s2 H1 _ H2 IH2]; intros b w Hw;
    try discriminate.
  injection Hr as ->.
  destruct s1 as [|c s1]; simpl in Hw.
  - now apply IH2.
  - injection Hw as Hc Hs. subst c w. exists s1, s2. auto.
Qed.

Lemma deriv_cat_fwd (r1 r2 : Regex.Re) (a : ascii) (s : string) :
  (forall w, Regex.Lang (Regex.deriv a r1) w -> Regex.Lang r1 (String a w)) ->
  Regex.Lang (Regex.Cat (Regex.deriv a r1) r2) s ->
  Regex.Lang (Regex.Cat r1 r2) (String a s).
Proof.
  intros IH HL. apply lang_cat_inv in HL as (s1 & s2 & -> & H1 & H2).
  exact (Regex.LCat r1 r2 (String a s1) s2 (IH _ H1) H2).
Qed.

Lemma deriv_cat_bwd (r1 r2 : Regex.Re) (a : ascii) (s : string) :
  (forall w, Regex.Lang r1 (String a w) -> Regex.Lang (Regex.deriv a r1) w) ->
  Regex.Lang (Regex.Cat r1 r2) (String a s) ->
  Regex.Lang (Regex.Cat (Regex.deriv a r1) r2) s
  \/ (Regex.Lang r1 EmptyString /\ Regex.Lang r2 (String a s)).
Proof.
  intros IH HL. apply lang_cat_inv in HL as (s1 & s2 & Heq & H1 & H2).
  destruct s1 as [|b s1]; simpl in Heq.
  - subst s2. now right.
  - injection Heq as Hb Hs. subst b s. left.
    constructor; [now apply IH | exact H2].
Qed.

Lemma deriv_lang (r : Regex.Re) (a : ascii) (s : string) :
  Regex.Lang (Regex.deriv a r) s <-> Regex.Lang r (String a s).
Proof.
  revert s.
  induction r as [| | c | p | r1 IH1 r2 IH2 | r1 IH1 r2 IH2 | r IH];
    intros s; simpl.
  - split; intros HL; now apply lang_nothing in HL.
  - split; intros HL; [now apply lang_nothing in HL|].
    apply lang_eps_inv in HL. discriminate.
  - destruct (Ascii.eqb a c) eqn:Hac.
    + apply Ascii.eqb_eq in Hac as ->. split; intros HL.
      * apply lang_eps_inv in HL as ->. constructor.
      * apply lang_chr_inv in HL. injection HL as ->. constructor.
    + apply Ascii.eqb_neq in Hac. split; intros HL.
      * now apply lang_nothing in HL.
      * apply lang_chr_inv in HL. congruence.
  - destruct (p a) eqn:Hpa; split; intros HL.
    + apply lang_eps_inv in HL as ->. now constructor.
    + apply lang_cls_inv in HL as (c & Heq & _). injection Heq as _ ->.
      constructor.
    + now apply lang_nothing in HL.
    + apply lang_cls_inv in HL as (c & Heq & Hc). injection Heq as -> _.
      congruence.
  - destruct (Regex.nullable r1) eqn:Hn.
    + split; intros HL.
      * apply lang_alt_inv in HL as [HL|HL].
        -- apply deriv_cat_fwd; [apply IH1 | exact HL].
        -- apply nullable_lang in Hn.
           apply (Regex.LCat r1 r2 EmptyString (String a s) Hn).
           now apply IH2.
      * apply deriv_cat_bwd in HL as [HL|[_ HL]]; [| |apply IH1].
        -- now apply Regex.LAltL.
        -- apply Regex.LAltR. now apply IH2.
    + split; intros HL.
      * apply deriv_cat_fwd; [apply IH1 | exact HL].
      * apply deriv_cat_bwd in HL as [HL|[HL _]]; [exact HL| |apply IH1].
        apply nullable_lang in HL. congruence.
  - split; intros HL.
    + apply lang_alt_inv in HL as [HL|HL];
        [apply Regex.LAltL; now apply IH1 | apply Regex.LAltR; now apply IH2].
    + apply lang_alt_inv in HL as [HL|HL];
        [apply Regex.LAltL; now apply IH1 | apply Regex.LAltR; now apply IH2].
  - split; intros HL.
    + apply lang_cat_inv in HL as (s1 & s2 & -> & H1 & H2).
      apply IH in H1.
      exact (Regex.LStarCons r (String a s1) s2 H1 H2).
    + apply star_cons_inv in HL as (s1 & s2 & -> & H1 & H2).
      apply IH in H1. now constructor.
Qed.

Lemma fullmatch_lang (r : Regex.Re) (s : string) :
  Regex.fullmatch r s = true <-> Regex.Lang r s.
Proof.
  revert r. induction s as [|a s IH]; intros r; simpl.
  - apply nullable_lang.
  - rewrite IH. apply deriv_lang.
Qed.

(* ================================================================== *)
(** * Address validation *)
(* ================================================================== *)

Lemma star_cls_lang (p : ascii -> bool) (s : string) :
  Regex.Lang (Regex.Star (Regex.Cls p)) s <-> Text.all_chars p s = true.
Proof.
  split.
  - intros HL. remember (Regex.Star (Regex.Cls p)) as r eqn:Hr.
    induction HL as [| | | | | | r' | r' s1 s2 H1 _ H2 IH2]; try discriminate;
      [reflexivity|].
    injection Hr as ->.
    apply lang_cls_inv in H1 as (c & -> & Hc). simpl.
    now rewrite Hc, IH2.
  - induction s as [|c s IH]; simpl; intros Hall; [constructor|].
    apply andb_true_iff in Hall as [Hc Hall].
    apply (Regex.LStarCons (Regex.Cls p) (String c EmptyString) s);
      [now constructor | now apply IH].
Qed.

Lemma plus_cls_lang (p : ascii -> bool) (s : string) :
  Regex.Lang (Regex.Plus (Regex.Cls p)) s
  <-> s <> EmptyString /\ Text.all_chars p s = true.
Proof.
  unfold Regex.Plus. split.
  - intros HL. apply lang_cat_inv in HL as (s1 & s2 & -> & H1 & H2).
    apply lang_cls_inv in H1 as (c & -> & Hc). apply star_cls_lang in H2.
    simpl. rewrite Hc, H2. split; [discriminate | reflexivity].
  - intros [Hne Hall]. destruct s as [|c s]; [congruence|]. simpl in Hall.
    apply andb_true_iff in Hall as [Hc Hall].
    apply (Regex.LCat _ _ (String c EmptyString) s);
      [now constructor | now apply star_cls_lang].
Qed.

Lemma two_or_more_cls_lang (p : ascii -> bool) (s : string) :
  Regex.Lang (Regex.TwoOrMore (Regex.Cls p)) s
  <-> (2 <= String.length s)%nat /\ Text.all_chars p s = true.
Proof.
  unfold Regex.TwoOrMore. split.
  - intros HL. apply lang_cat_inv in HL as (s1 & s2 & -> & H1 & H2).
    apply lang_cls_inv in H1 as (c & -> & Hc).
    apply (plus_cls_lang p) in H2 as [Hne Hall].
    simpl. rewrite Hc, Hall. split; [|reflexivity].
    destruct s2; [congruence | simpl; lia].
  - intros [Hlen Hall]. destruct s as [|c s]; [simpl in Hlen; lia|].
    simpl in Hall. apply andb_true_iff in Hall as [Hc Hall].
    apply (Regex.LCat _ _ (String c EmptyString) s); [now constructor|].
    apply (plus_cls_lang p). split; [|exact Hall].
    destruct s; [simpl in Hlen; lia | discriminate].
Qed.

Lemma dollar_lang (s : string) :
  Regex.Lang Regex.Dollar s <-> s = EmptyString \/ s = String "010" EmptyString.
Proof.
  unfold Regex.Dollar. split.
  - intros HL. apply lang_alt_inv in HL as [HL|HL].
    + left. now apply lang_eps_inv.
    + right. now apply lang_chr_inv.
  - intros [->| ->]; [apply Regex.LAltL | apply Regex.LAltR]; constructor.
Qed.

(** X13.  The addresses [validate_email] accepts are exactly those made of
    a non-empty local part over letters, digits and [._%+-], an [@], a
    non-empty domain over letters, digits, dots and hyphens, a dot, and at
    least two letters; one newline after them is accepted as well.  So an
    accepted address has a single [@] but may end with a line break, and
    its domain may begin with a dot or a hyphen. *)
Theorem validate_email_shape (address : string) :
  validate_email address = true <->
  exists local domain tld tail,
    address = local ++ "@" ++ domain ++ "." ++ tld ++ tail
    /\ local <> "" /\ Text.all_chars is_local_char local = true
    /\ domain <> "" /\ Text.all_chars is_domain_char domain = true
    /\ (2 <= String.length tld)%nat /\ Text.all_chars is_letter tld = true
    /\ (tail = "" \/ tail = String "010" "").
Proof.
  unfold validate_email, email_pattern. rewrite fullmatch_lang. split.
  - intros HL.
    apply lang_cat_inv in HL as (local & s1 & -> & Hlocal & HL).
    apply lang_cat_inv in HL as (at_sign & s2 & -> & Hat & HL).
    apply lang_cat_inv in HL as (domain & s3 & -> & Hdomain & HL).
    apply lang_cat_inv in HL as (dot & s4 & -> & Hdot & HL).
    apply lang_cat_inv in HL as (tld & tail & -> & Htld & Htail).
    apply lang_chr_inv in Hat as ->. apply lang_chr_inv in Hdot as ->.
    apply plus_cls_lang in Hlocal as [? ?].
    apply plus_cls_lang in Hdomain as [? ?].
    apply two_or_more_cls_lang in Htld as [? ?].
    apply dollar_lang in Htail.
    exists local, domain, tld, tail. repeat split; auto.
  - intros (local & domain & tld & tail & -> & Hl & Hla & Hd & Hda & Ht & Hta
            & Htail).
    constructor; [now apply plus_cls_lang|].
    apply (Regex.LCat _ _ "@"); [constructor|].
    constructor; [now apply plus_cls_lang|].
    apply (Regex.LCat _ _ "."); [constructor|].
    constructor; [now apply two_or_more_cls_lang | now apply dollar_lang].
Qed.

(* ================================================================== *)
(** * Masking an address *)
(* ================================================================== *)


















(* ================================================================== *)
(** * File names *)
(* ================================================================== *)

Lemma remove_class_clean (cls : ascii -> bool) (s : string) :
  Text.all_chars (fun c => negb (cls c)) (Text.remove_class cls s) = true.
Proof.
  induction s as [|c s IH]; simpl; [reflexivity|].
  destruct (cls c) eqn:Hc; simpl; [exact IH | now rewrite Hc, IH].
Qed.

Lemma upto_all_chars (p : ascii -> bool) (n : nat) (s : string) :
  Text.all_chars p s = true -> Text.all_chars p (Text.upto n s) = true.
Proof.
  unfold Text.upto. revert s.
  induction n as [|n IH]; intros [|c s] Hall; simpl; try reflexivity.
  simpl in Hall. apply andb_true_iff in Hall as [Hc Hall].
  now rewrite Hc, IH.
Qed.

Lemma upto_length (n : nat) (s : string) :
  (String.length (Text.upto n s) <= n)%nat.
Proof.
  unfold Text.upto. revert s.
  induction n as [|n IH]; intros [|c s]; simpl; try lia.
  specialize (IH s). lia.
Qed.

Lemma upto_short (n : nat) (s : string) :
  (String.length s <= n)%nat -> Text.upto n s = s.
Proof.
  unfold Text.upto. revert s.
  induction n as [|n IH]; intros [|c s] Hlen; simpl in *; try reflexivity;
    try lia.
  rewrite IH; [reflexivity | lia].
Qed.

Lemma spaced_out_slash (s : string) :
  Text.all_chars (fun c => negb (is_dangerous c)) s = true ->
  Py.replace_from "/" "" 0 (spaced_out s) = spaced_out s.
Proof.
  induction s as [|c s IH]; intros Hall; [reflexivity|].
  cbn [Text.all_chars] in Hall. apply andb_true_iff in Hall as [Hc Hall].
  cbn [spaced_out Py.replace_from Py.startswith].
  assert (Hne : Ascii.eqb "/" c = false).
  { rewrite Ascii.eqb_sym. unfold is_dangerous in Hc.
    apply negb_true_iff in Hc. repeat (apply orb_false_iff in Hc as [Hc ?]).
    assumption. }
  rewrite Hne. cbn [andb]. change (Ascii.eqb "/" ":") with false. cbn [andb].
  now rewrite IH.
Qed.

Lemma spaced_out_dots (s : string) :
  Py.replace_from ".." "" 0 (spaced_out s) = spaced_out s.
Proof.
  induction s as [|c s IH]; [reflexivity|].
  cbn [spaced_out Py.replace_from Py.startswith].
  change (Ascii.eqb "." ":") with false.
  rewrite andb_false_r. cbn [andb].
  replace (match spaced_out s with
           | "" => false
           | String b s' => Ascii.eqb "." b && true
           end) with (match spaced_out s with
                      | "" => false
                      | String b s' => Ascii.eqb "." b
                      end)
    by (destruct (spaced_out s); [reflexivity | now rewrite andb_true_r]).
  cbn [andb]. now rewrite IH.
Qed.

Lemma spaced_out_removed (s : string) :
  Text.all_chars (fun c => negb (is_dangerous c)) s = true ->
  Text.remove_class is_dangerous (spaced_out s) = s.
Proof.
  induction s as [|c s IH]; intros Hall; [reflexivity|].
  cbn [Text.all_chars] in Hall. apply andb_true_iff in Hall as [Hc Hall].
  apply negb_true_iff in Hc.
  cbn [spaced_out Text.remove_class]. rewrite Hc.
  change (is_dangerous ":") with true. cbn iota. now rewrite IH.
Qed.

(** X15.  The names [sanitize_filename] can return are exactly the strings
    of at most 100 characters that contain none of the characters
    less-than, greater-than, colon, double quote, slash, backslash, bar,
    question mark and star.  The result is thus free of path separators,
    while the name of the parent directory, two dots, is among the
    possible results. *)
Theorem sanitize_filename_range (name : string) :
  (exists filename, sanitize_filename filename = name)
  <-> (String.length name <= 100)%nat
      /\ Text.all_chars (fun c => negb (is_dangerous c)) name = true.
Proof.
  split.
  - intros [filename <-]. unfold sanitize_filename. split.
    + apply upto_length.
    + apply upto_all_chars, remove_class_clean.
  - intros [Hlen Hall]. exists (spaced_out name).
    unfold sanitize_filename, Py.replace.
    rewrite (spaced_out_slash name Hall), spaced_out_dots,
      (spaced_out_removed name Hall).
    now apply upto_short.
Qed.

(* ================================================================== *)
(** * Relative times and display names *)
(* ================================================================== *)

Lemma time_ago_seconds (dt now days seconds : Z) :
  (now - dt) / 86400000000 = days ->
  ((now - dt) mod 86400000000) / 1000000 = seconds ->
  time_ago (Some dt) now
  = if 0 <? days
    then Py.str_of_int days ++ " day"
         ++ (if negb (days =? 1) then "s" else "") ++ " ago"
    else if 3600 <? seconds
    then Py.str_of_int (seconds / 3600) ++ " hour"
         ++ (if negb (seconds / 3600 =? 1) then "s" else "") ++ " ago"
    else if 60 <? seconds
    then Py.str_of_int (seconds / 60) ++ " minute"
         ++ (if negb (seconds / 60 =? 1) then "s" else "") ++ " ago"
    else "Just now".
Proof. intros <- <-. reflexivity. Qed.

(** X16.  Boundaries of [time_ago].  Up to 60 whole seconds the answer is
    "Just now"; exactly one hour (3600 whole seconds) is reported as
    "60 minutes ago", the hours starting at 3601 seconds; and an instant
    up to one hour in the future is reported as "23 hours ago", because
    the negative difference is a [timedelta] of minus one day plus the
    remaining seconds. *)
Theorem time_ago_boundaries (dt now : Z) :
  (0 <= now - dt < 61000000 -> time_ago (Some dt) now = "Just now")
  /\ (3600000000 <= now - dt < 3601000000 ->
      time_ago (Some dt) now = "60 minutes ago")
  /\ (3601000000 <= now - dt < 7200000000 ->
      time_ago (Some dt) now = "1 hour ago")
  /\ (0 < dt - now <= 3600000000 -> time_ago (Some dt) now = "23 hours ago").
Proof.
  repeat split; intros Hrange.
  - rewrite (time_ago_seconds dt now 0 (((now - dt) mod 86400000000) / 1000000));
      [| Z.div_mod_to_equations; lia | reflexivity].
    change (0 <? 0) with false. cbv iota.
    replace (3600 <? (now - dt) mod 86400000000 / 1000000) with false
      by (symmetry; apply Z.ltb_ge; Z.div_mod_to_equations; lia).
    replace (60 <? (now - dt) mod 86400000000 / 1000000) with false
      by (symmetry; apply Z.ltb_ge; Z.div_mod_to_equations; lia).
    reflexivity.
  - rewrite (time_ago_seconds dt now 0 3600);
      [reflexivity | |]; Z.div_mod_to_equations; lia.
  - rewrite (time_ago_seconds dt now 0 (((now - dt) mod 86400000000) / 1000000));
      [| Z.div_mod_to_equations; lia | reflexivity].
    change (0 <? 0) with false. cbv iota.
    replace (3600 <? (now - dt) mod 86400000000 / 1000000) with true
      by (symmetry; apply Z.ltb_lt; Z.div_mod_to_equations; lia).
    replace ((now - dt) mod 86400000000 / 1000000 / 3600) with 1
      by (Z.div_mod_to_equations; lia).
    reflexivity.
  - rewrite (time_ago_seconds dt now (-1)
               (((now - dt) mod 86400000000) / 1000000));
      [| Z.div_mod_to_equations; lia | reflexivity].
    change (0 <? -1) with false. cbv iota.
    replace (3600 <? (now - dt) mod 86400000000 / 1000000) with true
      by (symmetry; apply Z.ltb_lt; Z.div_mod_to_equations; lia).
    replace ((now - dt) mod 86400000000 / 1000000 / 3600) with 23
      by (Z.div_mod_to_equations; lia).
    reflexivity.
Qed.

Lemma time_ago_boundaries_witness :
  0 < 1500000 - 1000000 <= 3600000000
  /\ time_ago (Some 1500000) 1000000 = "23 hours ago".
Proof.
  assert (Hrange : 0 < 1500000 - 1000000 <= 3600000000) by lia.
  split; [exact Hrange|].
  exact (proj2 (proj2 (proj2 (time_ago_boundaries 1500000 1000000))) Hrange).
Defined.

Lemma rev_string_append (acc s1 s2 : string) :
  Py.rev_string acc (s1 ++ s2) = Py.rev_string (Py.rev_string acc s1) s2.
Proof.
  revert acc. induction s1 as [|c s1 IH]; intros acc; [reflexivity|].
  cbn [String.append Py.rev_string]. apply IH.
Qed.

Lemma rev_string_acc (acc s : string) :
  Py.rev_string acc s = Py.rev_string "" s ++ acc.
Proof.
  revert acc. induction s as [|c s IH]; intros acc; [reflexivity|].
  cbn [Py.rev_string]. rewrite (IH (String c acc)), (IH (String c "")).
  now rewrite append_assoc.
Qed.

Lemma lstrip_blank (s : string) :
  Text.all_chars Text.is_space s = true -> Text.lstrip s = "".
Proof.
  induction s as [|c s IH]; simpl; [reflexivity|].
  intros Hall. apply andb_true_iff in Hall as [-> Hall]. now apply IH.
Qed.

(** Stripping on the left stops at the latest before a suffix that begins
    with a character which is no white space. *)
Lemma lstrip_keeps_suffix (u : string) (c : ascii) (rest : string) :
  Text.is_space c = false ->
  exists v, Text.lstrip (u ++ String c rest) = v ++ String c rest.
Proof.
  intros Hc. induction u as [|b u IH].
  - exists "". simpl. now rewrite Hc.
  - cbn [String.append Text.lstrip]. destruct (Text.is_space b).
    + exact IH.
    + now exists (String b u).
Qed.

Lemma all_chars_append (p : ascii -> bool) (s1 s2 : string) :
  Text.all_chars p (s1 ++ s2)
  = Text.all_chars p s1 && Text.all_chars p s2.
Proof.
  induction s1 as [|c s1 IH]; simpl; [reflexivity|].
  now rewrite IH, andb_assoc.
Qed.

(** X17.  [Target.full_name()] falls back to the e-mail address when both
    names are present and blank.  A missing name, however, is formatted as
    the text "None": without a first name the result begins with "None",
    and without both names it is "None None" rather than the address. *)
Theorem full_name_missing_names (t : Target) :
  (forall first last,
      first_name t = Some first -> last_name t = Some last ->
      Text.all_chars Text.is_space first = true ->
      Text.all_chars Text.is_space last = true ->
      full_name t = email t)
  /\ (first_name t = None -> Py.startswith "None" (full_name t) = true)
  /\ (first_name t = None -> last_name t = None -> full_name t = "None None").
Proof.
  unfold full_name. split; [|split].
  - intros first last -> -> Hf Hl. cbn [format_field]. unfold Text.strip.
    rewrite (lstrip_blank (first ++ " " ++ last)); [reflexivity|].
    rewrite all_chars_append, Hf. cbn [andb String.append Text.all_chars].
    now rewrite Hl.
  - intros ->. cbn [format_field]. unfold Text.strip.
    set (tail := " " ++ format_field (last_name t)).
    change (Text.lstrip ("None" ++ tail)) with ("None" ++ tail).
    rewrite (rev_string_append "" "None" tail).
    change (Py.rev_string "" "None") with "enoN".
    rewrite (rev_string_acc "enoN" tail).
    destruct (lstrip_keeps_suffix (Py.rev_string "" tail) "e" "noN" eq_refl)
      as [v ->].
    rewrite rev_string_append. cbn [Py.rev_string]. reflexivity.
  - intros -> ->. reflexivity.
Qed.

Lemma full_name_missing_names_witness :
  first_name {| t_id := 3; email := "sam@example.com"; first_name := None;
                last_name := Some "Lee"; department := None |} = None
  /\ Py.startswith "None"
       (full_name {| t_id := 3; email := "sam@example.com"; first_name := None;
                     last_name := Some "Lee"; department := None |}) = true.
Proof.
  split; [reflexivity|].
  exact (proj1 (proj2 (full_name_missing_names
                         {| t_id := 3; email := "sam@example.com";
                            first_name := None; last_name := Some "Lee";
                            department := None |})) eq_refl).
Defined.

(* ================================================================== *)
(** * Enrolling targets *)
(* ================================================================== *)

Lemma find_app_found {A} (p : A -> bool) (l l' : list A) (x : A) :
  find p l = Some x -> find p (l ++ l') = Some x.
Proof.
  induction l as [|y l IH]; simpl; [discriminate|].
  destruct (p y); [trivial | exact IH].
Qed.

Lemma find_app_none {A} (p : A -> bool) (l l' : list A) :
  find p l = None -> find p (l ++ l') = find p l'.
Proof.
  induction l as [|y l IH]; simpl; [reflexivity|].
  destruct (p y); [discriminate | exact IH].
Qed.

Lemma find_none_all {A} (p : A -> bool) (l : list A) :
  (forall x, In x l -> p x = false) -> find p l = None.
Proof.
  induction l as [|y l IH]; intros Hall; simpl; [reflexivity|].
  rewrite (Hall y (or_introl eq_refl)). apply IH.
  intros x Hx. apply Hall. now right.
Qed.

Lemma find_none_key {A B} (key : A -> B) (eqb : B -> B -> bool) (k : B)
    (l : list A) :
  (forall x y, eqb x y = true <-> x = y) ->
  find (fun x => eqb (key x) k) l = None -> ~ In k (map key l).
Proof.
  intros Heqb Hnone Hin. apply in_map_iff in Hin as (x & Hk & Hx).
  apply (find_none _ _ Hnone) in Hx. apply Heqb in Hk. congruence.
Qed.

Lemma NoDup_snoc {A} (l : list A) (x : A) :
  NoDup l -> ~ In x l -> NoDup (l ++ [x]).
Proof.
  intros Hnd Hx. induction l as [|y l IH]; simpl.
  - constructor; [intros [] | constructor].
  - apply NoDup_cons_iff in Hnd as [Hy Hnd]. constructor.
    + rewrite in_app_iff. intros [Hin|[->|[]]]; [contradiction|].
      apply Hx. now left.
    + apply IH; [exact Hnd|]. intros Hin. apply Hx. now right.
Qed.

(** The constraints do not look at the audit log. *)
Lemma enrolment_consistent_ext (d d' : DB) :
  targets d' = targets d -> campaign_targets d' = campaign_targets d ->
  enrolment_consistent d -> enrolment_consistent d'.
Proof.
  unfold enrolment_consistent, target_keys_unique, addresses_unique,
    primary_keys_unique, tokens_unique, assignments_unique, targets_exist.
  now intros -> ->.
Qed.

(** An address that is enrolled stays so when rows are appended. *)
Lemma enrolled_address_grows (cid : Z) (address : string) (d d' : DB)
    (new_targets : list Target) (new_rows : list CampaignTarget) :
  targets d' = (targets d ++ new_targets)%list ->
  campaign_targets d' = (campaign_targets d ++ new_rows)%list ->
  enrolled_address cid address d -> enrolled_address cid address d'.
Proof.
  intros Ht Hc (target & ct & Hfind & Hassign). exists target, ct.
  unfold find_target, find_assignment in *. rewrite Ht, Hc.
  split; now apply find_app_found.
Qed.

Section EnrolmentFacts.
Variable fresh : list Z -> Z.

(** [ensure_target] returns the target of the address, adding at most one
    row, at the end of the table. *)
Lemma ensure_target_spec (data : TargetData) (d : DB) :
  let out := ensure_target fresh data d in
  find_target (td_email data) (snd out) = Some (fst out)
  /\ campaign_targets (snd out) = campaign_targets d
  /\ campaigns (snd out) = campaigns d
  /\ templates (snd out) = templates d
  /\ email_events (snd out) = email_events d
  /\ audit_logs (snd out) = audit_logs d
  /\ ((snd out = d /\ find_target (td_email data) d = Some (fst out))
      \/ (find_target (td_email data) d = None
          /\ targets (snd out) = (targets d ++ [fst out])%list
          /\ email (fst out) = td_email data
          /\ t_id (fst out) = fresh (map t_id (targets d)))).
Proof.
  unfold ensure_target.
  destruct (find_target (td_email data) d) as [target|] eqn:Hfind; cbn [fst snd].
  - repeat split; auto.
  - repeat split; try reflexivity.
    + unfold find_target in *. cbn [targets with_targets].
      rewrite (find_app_none _ _ _ Hfind). cbn [find email].
      now rewrite String.eqb_refl.
    + right. repeat split; auto.
Qed.

Lemma ensure_target_consistent (data : TargetData) (d : DB) :
  allocates_fresh fresh ->
  enrolment_consistent d ->
  enrolment_consistent (snd (ensure_target fresh data d)).
Proof.
  intros fresh_ok (Hkeys & Haddr & Hct & Htok & Hpairs & Hexist).
  destruct (ensure_target_spec data d)
    as (_ & Hcts & _ & _ & _ & _ & [[-> _]|(Hnone & Htargets & Hmail & Hid)]).
  { repeat split; assumption. }
  unfold enrolment_consistent, target_keys_unique, addresses_unique,
    primary_keys_unique, tokens_unique, assignments_unique, targets_exist.
  rewrite Hcts, Htargets, !map_app. cbn [map].
  repeat split; auto.
  - apply NoDup_snoc; [exact Hkeys|]. rewrite Hid. apply fresh_ok.
  - apply NoDup_snoc; [exact Haddr|]. rewrite Hmail.
    apply (find_none_key email String.eqb); [apply String.eqb_eq | exact Hnone].
  - intros ct Hin. apply in_app_iff. left. now apply Hexist.
Qed.

(** What an iteration of the import loop does when it does not raise. *)
Lemma import_row_spec (campaign : Campaign) (rnd : nat -> Z)
    (data : TargetData) (d d' : DB) (k k' : nat) :
  import_row fresh campaign rnd data (d, k) = Some (d', k') ->
  exists new_targets new_rows,
    targets d' = (targets d ++ new_targets)%list
    /\ campaign_targets d' = (campaign_targets d ++ new_rows)%list
    /\ k' = (k + List.length new_rows)%nat
    /\ Forall (fun ct => campaign_id ct = c_id campaign /\ status ct = Pending)
              new_rows
    /\ campaigns d' = campaigns d /\ templates d' = templates d
    /\ email_events d' = email_events d /\ audit_logs d' = audit_logs d
    /\ enrolled_address (c_id campaign) (td_email data) d'
    /\ (allocates_fresh fresh -> enrolment_consistent d ->
        enrolment_consistent d').
Proof.
  unfold import_row.
  pose proof (ensure_target_spec data d) as Hspec.
  pose proof (ensure_target_consistent data d) as Hcons.
  destruct (ensure_target fresh data d) as [target d1]. cbn [fst snd] in *.
  destruct Hspec as (Hfind & Hcts & Hcs & Htpl & Hev & Hau & Hcase).
  assert (Hprefix : exists new_targets,
             targets d1 = (targets d ++ new_targets)%list).
  { destruct Hcase as [[-> _]|(_ & -> & _)]; [exists []|eauto].
    now rewrite app_nil_r. }
  destruct Hprefix as [new_targets Htargets].
  destruct (find_assignment (c_id campaign) (t_id target) d1)
    as [existing|] eqn:Hassign.
  - intros [= <- <-]. exists new_targets, [].
    rewrite app_nil_r, Nat.add_0_r.
    do 8 (split; [first [assumption | reflexivity | constructor]|]).
    split; [exists target, existing; now split | exact Hcons].
  - set (row := pending_assignment fresh campaign target (rnd k) d1).
    destruct (token_taken (unique_token row) d1) eqn:Htaken; [discriminate|].
    intros [= <- <-]. exists new_targets, [row].
    cbn [campaign_targets with_campaign_targets targets campaigns templates
         email_events audit_logs List.length].
    do 8 (split; [first [assumption | reflexivity | lia | now rewrite Hcts
                        | repeat constructor]|]).
    split.
    + exists target, row. split; [exact Hfind|].
      unfold find_assignment in *.
      cbn [campaign_targets with_campaign_targets].
      rewrite (find_app_none _ _ _ Hassign). cbn [find].
      unfold row, pending_assignment, Tokens.new_campaign_target.
      cbn [campaign_id target_id]. now rewrite !Z.eqb_refl.
    + intros fresh_ok Hd. destruct (Hcons fresh_ok Hd)
        as (Hkeys & Haddr & Hct & Htok & Hpairs & Hexist).
      unfold enrolment_consistent, target_keys_unique, addresses_unique,
        primary_keys_unique, tokens_unique, assignments_unique, targets_exist
        in *.
      cbn [campaign_targets with_campaign_targets targets].
      rewrite !map_app. cbn [map]. repeat split; auto.
      * apply NoDup_snoc; [exact Hct|]. apply fresh_ok.
      * apply NoDup_snoc; [exact Htok|].
        unfold token_taken in Htaken. intros Hin.
        apply in_map_iff in Hin as (x & Hx & Hin).
        assert (existsb (fun ct => (unique_token ct =? unique_token row)%string)
                        (campaign_targets d1) = true) as Hex.
        { apply existsb_exists. exists x. split; [exact Hin|].
          now apply String.eqb_eq. }
        congruence.
      * apply NoDup_snoc; [exact Hpairs|]. intros Hin.
        apply in_map_iff in Hin as (x & Hx & Hin).
        unfold find_assignment in Hassign.
        apply (find_none _ _ Hassign) in Hin.
        injection Hx as Hc Ht.
        unfold row, pending_assignment, Tokens.new_campaign_target in Hc, Ht.
        cbn [campaign_id target_id] in Hc, Ht.
        rewrite Hc, Ht, !Z.eqb_refl in Hin. discriminate.
      * intros ct Hin. apply in_app_iff in Hin as [Hin|[<-|[]]];
          [now apply Hexist|].
        unfold row, pending_assignment, Tokens.new_campaign_target.
        cbn [target_id]. unfold find_target in Hfind.
        apply find_some in Hfind as [Hin _]. now apply in_map.
Qed.

(** A row whose address is enrolled already is passed over. *)
Lemma import_row_enrolled (campaign : Campaign) (rnd : nat -> Z)
    (data : TargetData) (d : DB) (k : nat) :
  enrolled_address (c_id campaign) (td_email data) d ->
  import_row fresh campaign rnd data (d, k) = Some (d, k).
Proof.
  intros (target & ct & Hfind & Hassign).
  unfold import_row, ensure_target. rewrite Hfind, Hassign. reflexivity.
Qed.

Lemma import_rows_spec (campaign : Campaign) (rnd : nat -> Z)
    (rows : list TargetData) (d d' : DB) (k k' : nat) :
  import_rows fresh campaign rnd rows (d, k) = Some (d', k') ->
  exists new_targets new_rows,
    targets d' = (targets d ++ new_targets)%list
    /\ campaign_targets d' = (campaign_targets d ++ new_rows)%list
    /\ k' = (k + List.length new_rows)%nat
    /\ Forall (fun ct => campaign_id ct = c_id campaign /\ status ct = Pending)
              new_rows
    /\ campaigns d' = campaigns d /\ templates d' = templates d
    /\ email_events d' = email_events d /\ audit_logs d' = audit_logs d
    /\ Forall (fun data => enrolled_address (c_id campaign) (td_email data) d')
              rows
    /\ (allocates_fresh fresh -> enrolment_consistent d ->
        enrolment_consistent d').
Proof.
  revert d k. induction rows as [|data rows IH]; intros d k; cbn [import_rows].
  - intros [= <- <-]. exists [], []. rewrite !app_nil_r, Nat.add_0_r.
    do 9 (split; [first [reflexivity | constructor]|]). auto.
  - destruct (import_row fresh campaign rnd data (d, k)) as [[d1 k1]|] eqn:Hrow;
      [|discriminate].
    intros Hrest.
    apply import_row_spec in Hrow
      as (ts1 & rs1 & Ht1 & Hr1 & Hk1 & Hp1 & Hc1 & Htp1 & He1 & Ha1 & Hen1
          & Hcons1).
    apply IH in Hrest
      as (ts2 & rs2 & Ht2 & Hr2 & Hk2 & Hp2 & Hc2 & Htp2 & He2 & Ha2 & Hen2
          & Hcons2).
    exists (ts1 ++ ts2)%list, (rs1 ++ rs2)%list.
    rewrite Ht2, Ht1, Hr2, Hr1, !app_assoc.
    do 2 (split; [reflexivity|]).
    split; [rewrite length_app; lia|].
    split; [apply Forall_app; now split|].
    do 4 (split; [congruence|]).
    split; [|auto].
    constructor; [|exact Hen2].
    eapply enrolled_address_grows; [exact Ht2 | exact Hr2 | exact Hen1].
Qed.

Lemma import_rows_enrolled (campaign : Campaign) (rnd : nat -> Z)
    (rows : list TargetData) (d : DB) (k : nat) :
  Forall (fun data => enrolled_address (c_id campaign) (td_email data) d) rows ->
  import_rows fresh campaign rnd rows (d, k) = Some (d, k).
Proof.
  induction 1 as [|data rows Hdata _ IH]; cbn [import_rows]; [reflexivity|].
  now rewrite import_row_enrolled.
Qed.

(** The outcomes of [handle_csv_import]. *)
Lemma handle_csv_import_cases (file : option CsvReader) (campaign : Campaign)
    (req : Request) (rnd : nat -> Z) (a : App) :
  (exists message,
      fst (handle_csv_import fresh file campaign req rnd a)
      = flash message "danger" a)
  \/ exists reader rows d1 created_count,
       file = Some reader
       /\ parse_target_csv reader = Some (rows, [])
       /\ import_rows fresh campaign rnd rows (app_db a, O)
          = Some (d1, created_count)
       /\ fst (handle_csv_import fresh file campaign req rnd a)
          = flash ("Successfully imported "
                   ++ Py.str_of_int (Z.of_nat created_count)
                   ++ " targets to the campaign.") "success"
                  {| app_db := log_audit req "TARGETS_IMPORTED" "campaign"
                                 (c_id campaign)
                                 [("count", JInt (Z.of_nat created_count));
                                  ("source", JStr "csv")] d1;
                     queued := queued a; flashes := flashes a |}.
Proof.
  unfold handle_csv_import.
  destruct file as [reader|]; [|left; eexists; reflexivity].
  destruct (parse_target_csv reader) as [[rows [|e errors]]|] eqn:Hparse;
    [| left; eexists; reflexivity | left; eexists; reflexivity].
  destruct (import_rows fresh campaign rnd rows (app_db a, O))
    as [[d1 created_count]|] eqn:Himport; [|left; eexists; reflexivity].
  right. exists reader, rows, d1, created_count.
  repeat split; first [assumption | reflexivity].
Qed.

(** In terms of the database, the manual form is one iteration of the
    import loop, followed by the audit entry when a row was created. *)
Lemma handle_manual_target_db (form : TargetData) (campaign : Campaign)
    (req : Request) (rnd : Z) (a : App) :
  app_db (fst (handle_manual_target fresh form campaign req rnd a))
  = match import_row fresh campaign (fun _ => rnd) form (app_db a, O) with
    | Some (d1, O) => d1
    | Some (d1, S _) =>
        log_audit req "TARGET_ADDED" "campaign" (c_id campaign)
          [("target_email", JStr (td_email form)); ("source", JStr "manual")]
          d1
    | None => app_db a
    end.
Proof.
  unfold handle_manual_target, import_row.
  pose proof (ensure_target_spec form (app_db a)) as Hspec.
  destruct (ensure_target fresh form (app_db a)) as [target d1].
  cbn [fst snd] in Hspec. destruct Hspec as (Hfind & _).
  destruct (find_assignment (c_id campaign) (t_id target) d1); [reflexivity|].
  destruct (token_taken _ d1); [reflexivity|]. cbn [fst app_db flash].
  unfold find_target in Hfind. apply find_some in Hfind as [_ Hmail].
  apply String.eqb_eq in Hmail. now rewrite Hmail.
Qed.

End EnrolmentFacts.

Section EnrolmentTheorems.
Variable fresh : list Z -> Z.

(** X18.  Enrolment keeps the constraints.  When the database never hands
    out a key that is in use, the CSV import and the manual form both
    preserve, whatever they are given and whether they succeed or fail:
    unique keys and unique addresses of targets, unique keys and unique
    tokens of campaign targets, at most one campaign target per campaign
    and target, and a target row behind every campaign target. *)
Theorem enrolment_keeps_constraints (file : option CsvReader)
    (form : TargetData) (campaign : Campaign) (req : Request)
    (rnd : nat -> Z) (rnd1 : Z) (a : App) :
  allocates_fresh fresh ->
  enrolment_consistent (app_db a) ->
  enrolment_consistent
    (app_db (fst (handle_csv_import fresh file campaign req rnd a)))
  /\ enrolment_consistent
       (app_db (fst (handle_manual_target fresh form campaign req rnd1 a))).
Proof.
  intros fresh_ok Hcons. split.
  - destruct (handle_csv_import_cases fresh file campaign req rnd a)
      as [[message ->]|(reader & rows & d1 & n & _ & _ & Himport & ->)];
      [exact Hcons|].
    apply import_rows_spec in Himport
      as (_ & _ & _ & _ & _ & _ & _ & _ & _ & _ & _ & Hkeep).
    apply (enrolment_consistent_ext d1); [reflexivity | reflexivity | auto].
  - rewrite handle_manual_target_db.
    destruct (import_row fresh campaign (fun _ => rnd1) form (app_db a, O))
      as [[d1 n]|] eqn:Hrow; [|exact Hcons].
    apply import_row_spec in Hrow
      as (_ & _ & _ & _ & _ & _ & _ & _ & _ & _ & _ & Hkeep).
    destruct n; [auto|].
    apply (enrolment_consistent_ext d1); [reflexivity | reflexivity | auto].
Qed.

(** X19.  The CSV import is all or nothing, and only adds.  Either the
    database is left exactly as it was (a file that cannot be read, a
    missing [email] header, any invalid line, or a token that is already
    taken), or every line of the file was valid and, afterwards, each of
    its addresses has a target that is assigned to the campaign; the rows
    that existed are untouched, the new ones are appended, and the new
    campaign targets are pending. *)
Theorem csv_import_all_or_nothing (file : option CsvReader)
    (campaign : Campaign) (req : Request) (rnd : nat -> Z) (a : App) :
  let d' := app_db (fst (handle_csv_import fresh file campaign req rnd a)) in
  d' = app_db a
  \/ exists reader rows new_targets new_rows,
       file = Some reader
       /\ parse_target_csv reader = Some (rows, [])
       /\ targets d' = (targets (app_db a) ++ new_targets)%list
       /\ campaign_targets d' = (campaign_targets (app_db a) ++ new_rows)%list
       /\ Forall (fun ct => campaign_id ct = c_id campaign
                            /\ status ct = Pending) new_rows
       /\ Forall (fun data =>
                    enrolled_address (c_id campaign) (td_email data) d') rows
       /\ campaigns d' = campaigns (app_db a)
       /\ email_events d' = email_events (app_db a)
       /\ List.length (audit_logs d') = S (List.length (audit_logs (app_db a))).
Proof.
  cbv zeta.
  destruct (handle_csv_import_cases fresh file campaign req rnd a)
    as [[message ->]|(reader & rows & d1 & n & Hfile & Hparse & Himport & ->)];
    [now left|].
  right.
  apply import_rows_spec in Himport
    as (new_targets & new_rows & Ht & Hr & _ & Hp & Hc & _ & He & Ha & Hen & _).
  exists reader, rows, new_targets, new_rows.
  cbn [fst flash app_db].
  do 5 (split; [assumption|]).
  split.
  { eapply Forall_impl; [|exact Hen]. intros data Hdata.
    eapply enrolled_address_grows with (new_targets := []) (new_rows := []);
      [| |exact Hdata]; now rewrite app_nil_r. }
  do 2 (split; [assumption|]).
  cbn [log_audit add_audit audit_logs]. rewrite length_app, Ha.
  cbn [List.length]. lia.
Qed.

(** X20.  Importing a file a second time adds nothing.  Once an import has
    changed the database, a further import of the same file into the same
    campaign, whatever random numbers it draws, adds no target and no
    campaign target, and reports that 0 targets were imported. *)
Theorem reimport_adds_nothing (file : option CsvReader) (campaign : Campaign)
    (req req' : Request) (rnd rnd' : nat -> Z) (a : App) :
  app_db (fst (handle_csv_import fresh file campaign req rnd a)) <> app_db a ->
  let a1 := fst (handle_csv_import fresh file campaign req rnd a) in
  let a2 := fst (handle_csv_import fresh file campaign req' rnd' a1) in
  targets (app_db a2) = targets (app_db a1)
  /\ campaign_targets (app_db a2) = campaign_targets (app_db a1)
  /\ flashes a2
     = (flashes a1
        ++ [("Successfully imported 0 targets to the campaign.", "success")])%list.
Proof.
  intros Hchanged. cbv zeta.
  destruct (handle_csv_import_cases fresh file campaign req rnd a)
    as [[message Hfail]|(reader & rows & d1 & n & -> & Hparse & Himport & Hok)].
  { rewrite Hfail in Hchanged. now contradiction Hchanged. }
  apply import_rows_spec in Himport
    as (_ & _ & _ & _ & _ & _ & _ & _ & _ & _ & Hen & _).
  set (a1 := fst (handle_csv_import fresh (Some reader) campaign req rnd a))
    in *.
  assert (Hen1 : Forall (fun data =>
                           enrolled_address (c_id campaign) (td_email data)
                                            (app_db a1)) rows).
  { eapply Forall_impl; [|exact Hen]. intros data Hdata. rewrite Hok.
    eapply enrolled_address_grows with (new_targets := []) (new_rows := []);
      [| |exact Hdata]; now rewrite app_nil_r. }
  unfold handle_csv_import. rewrite Hparse.
  rewrite (import_rows_enrolled fresh campaign rnd' rows (app_db a1) O Hen1).
  repeat split; reflexivity.
Qed.

(** X21.  The manual form never enrols a person who is already in the
    target list: [manage_targets] then leaves the database and the queue
    as they were, because the form's own validation refuses the address.
    Hence, when every campaign target has its target row and keys are
    allocated fresh, the warning that the target is already assigned is
    never flashed for a manual entry. *)
Theorem manual_form_only_new_addresses (id : Z) (req : Request)
    (form : TargetData) (rnd : nat -> Z) (a : App) :
  allocates_fresh fresh ->
  targets_exist (app_db a) ->
  let out := manage_targets fresh id req (ManualFields form) rnd a in
  (find_target (td_email form) (app_db a) <> None ->
   app_db (fst out) = app_db a /\ queued (fst out) = queued a)
  /\ exists new,
       flashes (fst out) = (flashes a ++ new)%list
       /\ ~ In ("Target is already assigned to this campaign.", "warning") new.
Proof.
  intros fresh_ok Hexist. cbv zeta. unfold manage_targets.
  assert (Hnil : exists new : list (string * string),
             flashes a = (flashes a ++ new)%list
             /\ ~ In ("Target is already assigned to this campaign.",
                      "warning") new).
  { exists []. rewrite app_nil_r. split; [reflexivity | intros []]. }
  assert (Hone : forall message category,
             category <> "warning" ->
             exists new : list (string * string),
               flashes (flash message category a) = (flashes a ++ new)%list
               /\ ~ In ("Target is already assigned to this campaign.",
                        "warning") new).
  { intros message category Hcat. exists [(message, category)].
    split; [reflexivity|]. intros [Heq|[]]. congruence. }
  destruct (current_user req) as [[uid is_admin]|]; [|now split].
  destruct (get_campaign id (app_db a)) as [campaign|]; [|now split].
  destruct (negb is_admin && negb (created_by campaign =? uid)).
  { split; [now split | apply Hone; discriminate]. }
  destruct (campaign_status_eqb (c_status campaign) Active).
  { split; [now split|]. exists [("Cannot add targets to active campaigns.",
                                  "warning")].
    split; [reflexivity|]. intros [Heq|[]]. discriminate. }
  unfold TargetForm_validate_email.
  destruct (find_target (td_email form) (app_db a)) as [known|] eqn:Hknown;
    [now split|].
  split; [congruence|].
  unfold handle_manual_target, ensure_target. rewrite Hknown.
  set (target := {| t_id := fresh (map t_id (targets (app_db a)));
                    email := td_email form;
                    first_name := td_first_name form;
                    last_name := td_last_name form;
                    department := td_department form |}).
  set (d1 := with_targets (targets (app_db a) ++ [target]) (app_db a)).
  assert (Hassign : find_assignment (c_id campaign) (t_id target) d1 = None).
  { unfold find_assignment. cbn [campaign_targets d1 with_targets].
    apply find_none_all. intros ct Hin.
    apply andb_false_iff. right. apply Z.eqb_neq. intros Heq.
    apply (fresh_ok (map t_id (targets (app_db a)))).
    change (fresh (map t_id (targets (app_db a)))) with (t_id target).
    rewrite <- Heq. now apply Hexist. }
  rewrite Hassign.
  destruct (token_taken _ d1); cbn [fst]; apply Hone; discriminate.
Qed.

End EnrolmentTheorems.

Lemma next_key_fresh : allocates_fresh Sample4.next_key.
Proof.
  assert (Hmax : forall keys k, In k keys -> k <= fold_right Z.max 0 keys).
  { induction keys as [|x keys IH]; simpl; [tauto|].
    intros k [->|Hin]; [lia|]. specialize (IH k Hin). lia. }
  intros keys Hin. apply Hmax in Hin. unfold Sample4.next_key in Hin. lia.
Qed.

Lemma sample_consistent : enrolment_consistent Sample3.two_campaigns.
Proof.
  unfold enrolment_consistent, target_keys_unique, addresses_unique,
    primary_keys_unique, tokens_unique, assignments_unique, targets_exist.
  simpl. repeat split;
    try (repeat constructor; simpl; intuition discriminate).
  intros ct [<-|[<-|[]]]; simpl; auto.
Qed.

Lemma enrolment_keeps_constraints_witness :
  allocates_fresh Sample4.next_key
  /\ enrolment_consistent Sample3.two_campaigns
  /\ enrolment_consistent
       (app_db (fst (handle_csv_import Sample4.next_key
                       (Some Sample4.staff_csv) Sample.drill
                       (Sample.admin_request 50) Sample4.randomness
                       (Sample.app Sample3.two_campaigns)))).
Proof.
  split; [exact next_key_fresh|]. split; [exact sample_consistent|].
  exact (proj1 (enrolment_keeps_constraints Sample4.next_key
                  (Some Sample4.staff_csv) Sample4.bob_form Sample.drill
                  (Sample.admin_request 50) Sample4.randomness 7
                  (Sample.app Sample3.two_campaigns)
                  next_key_fresh sample_consistent)).
Defined.

Lemma reimport_adds_nothing_witness :
  app_db (fst (handle_csv_import Sample4.next_key (Some Sample4.staff_csv)
                 Sample.drill (Sample.admin_request 50) Sample4.randomness
                 (Sample.app Sample3.two_campaigns)))
  <> app_db (Sample.app Sample3.two_campaigns)
  /\ campaign_targets
       (app_db (fst (handle_csv_import Sample4.next_key
                       (Some Sample4.staff_csv) Sample.drill
                       (Sample.admin_request 60) Sample4.randomness
                       (fst (handle_csv_import Sample4.next_key
                               (Some Sample4.staff_csv) Sample.drill
                               (Sample.admin_request 50) Sample4.randomness
                               (Sample.app Sample3.two_campaigns))))))
     = campaign_targets
         (app_db (fst (handle_csv_import Sample4.next_key
                         (Some Sample4.staff_csv) Sample.drill
                         (Sample.admin_request 50) Sample4.randomness
                         (Sample.app Sample3.two_campaigns)))).
Proof.
  assert (Hchanged :
            app_db (fst (handle_csv_import Sample4.next_key
                           (Some Sample4.staff_csv) Sample.drill
                           (Sample.admin_request 50) Sample4.randomness
                           (Sample.app Sample3.two_campaigns)))
            <> app_db (Sample.app Sample3.two_campaigns)).
  { intros Heq. apply (f_equal (fun d => List.length (audit_logs d))) in Heq.
    vm_compute in Heq. discriminate. }
  split; [exact Hchanged|].
  exact (proj1 (proj2 (reimport_adds_nothing Sample4.next_key
                         (Some Sample4.staff_csv) Sample.drill
                         (Sample.admin_request 50) (Sample.admin_request 60)
                         Sample4.randomness Sample4.randomness
                         (Sample.app Sample3.two_campaigns) Hchanged))).
Defined.

Lemma manual_form_only_new_addresses_witness :
  allocates_fresh Sample4.next_key
  /\ targets_exist Sample3.two_campaigns
  /\ find_target "jane.smith@example.com" Sample3.two_campaigns <> None
  /\ app_db (fst (manage_targets Sample4.next_key 1 (Sample.admin_request 70)
                    (ManualFields Sample4.jane_form) Sample4.randomness
                    (Sample.app Sample3.two_campaigns)))
     = Sample3.two_campaigns.
Proof.
  assert (Hexist : targets_exist Sample3.two_campaigns)
    by (apply sample_consistent).
  assert (Hknown : find_target "jane.smith@example.com" Sample3.two_campaigns
                   <> None) by discriminate.
  split; [exact next_key_fresh|]. split; [exact Hexist|].
  split; [exact Hknown|].
  exact (proj1 (proj1 (manual_form_only_new_addresses Sample4.next_key 1
                         (Sample.admin_request 70) Sample4.jane_form
                         Sample4.randomness (Sample.app Sample3.two_campaigns)
                         next_key_fresh Hexist) Hknown)).
Defined.

(* ================================================================== *)
(** * Reading the uploaded file *)
(* ================================================================== *)

Lemma rev_string_app (u v : string) :
  Py.rev_string "" (u ++ v) = Py.rev_string "" v ++ Py.rev_string "" u.
Proof. now rewrite rev_string_append, rev_string_acc. Qed.

Lemma rev_string_involutive (u : string) :
  Py.rev_string "" (Py.rev_string "" u) = u.
Proof.
  induction u as [|c u IH]; [reflexivity|].
  cbn [Py.rev_string]. rewrite (rev_string_acc (String c "") u), rev_string_app.
  now rewrite IH.
Qed.

Lemma lstrip_split (u : string) :
  exists w, u = w ++ Text.lstrip u.
Proof.
  induction u as [|c u [w IH]]; [now exists ""|].
  cbn [Text.lstrip]. destruct (Text.is_space c).
  - exists (String c w). cbn [String.append]. now rewrite <- IH.
  - now exists "".
Qed.

Lemma lstrip_head (u : string) (c : ascii) (r : string) :
  Text.lstrip u = String c r -> Text.is_space c = false.
Proof.
  induction u as [|b u IH]; cbn [Text.lstrip]; [discriminate|].
  destruct (Text.is_space b) eqn:Hb; [exact IH|].
  now intros [= <- _].
Qed.

Lemma lstrip_fixed (u : string) :
  (forall c r, u = String c r -> Text.is_space c = false) ->
  Text.lstrip u = u.
Proof.
  destruct u as [|c r]; [reflexivity|]. intros Hhead.
  cbn [Text.lstrip]. now rewrite (Hhead c r eq_refl).
Qed.

Lemma strip_idempotent (s : string) :
  Text.strip (Text.strip s) = Text.strip s.
Proof.
  unfold Text.strip.
  set (x := Text.lstrip s).
  set (z := Text.lstrip (Py.rev_string "" x)).
  assert (Hhead : Text.lstrip (Py.rev_string "" z) = Py.rev_string "" z).
  { apply lstrip_fixed. intros c r Hz.
    destruct (lstrip_split (Py.rev_string "" x)) as [w Hw]. fold z in Hw.
    apply (f_equal (Py.rev_string "")) in Hw.
    rewrite rev_string_involutive, rev_string_app, Hz in Hw.
    cbn [String.append] in Hw. now apply (lstrip_head s c _ Hw). }
  rewrite Hhead, rev_string_involutive.
  now rewrite (lstrip_fixed z (lstrip_head _)).
Qed.

Lemma parse_row_accepted (row_num : Z) (row : CsvRow) (data : TargetData) :
  parse_row row_num row = inl data ->
  validate_email (td_email data) = true
  /\ Text.strip (td_email data) = td_email data
  /\ td_first_name data <> Some ""
  /\ td_last_name data <> Some ""
  /\ td_department data <> Some "".
Proof.
  assert (Hor : forall s, or_none s <> Some "").
  { intros [|c s]; unfold or_none; simpl; congruence. }
  unfold parse_row, stripped_field.
  destruct (dict_get "email" row) as [[v|]|]; try discriminate.
  destruct (Py.truthy (Text.strip v)); [|discriminate]. cbn [negb].
  destruct (Regex.fullmatch email_pattern (Text.strip v)) eqn:Hmatch;
    [|discriminate]. cbn [negb].
  destruct (dict_get "first_name" row) as [[?|]|],
           (dict_get "last_name" row) as [[?|]|],
           (dict_get "department" row) as [[?|]|]; try discriminate;
    intros [= <-]; cbn [td_email td_first_name td_last_name td_department];
    (split; [exact Hmatch|]); (split; [apply strip_idempotent|]);
    repeat split; apply Hor.
Qed.

Lemma parse_rows_accounts (row_num : Z) (rows : list CsvRow) :
  (List.length (fst (parse_rows row_num rows))
   + List.length (snd (parse_rows row_num rows)))%nat = List.length rows
  /\ Forall (fun data =>
               validate_email (td_email data) = true
               /\ Text.strip (td_email data) = td_email data
               /\ td_first_name data <> Some ""
               /\ td_last_name data <> Some ""
               /\ td_department data <> Some "")
            (fst (parse_rows row_num rows)).
Proof.
  revert row_num. induction rows as [|row rows IH]; intros row_num;
    cbn [parse_rows]; [split; [reflexivity | constructor]|].
  destruct (IH (row_num + 1)) as [Hlen Hall].
  destruct (parse_rows (row_num + 1) rows) as [targets errors].
  cbn [fst snd] in *.
  destruct (parse_row row_num row) as [data|message] eqn:Hrow;
    cbn [fst snd List.length].
  - split; [lia|]. constructor; [|exact Hall].
    now apply parse_row_accepted in Hrow.
  - split; [lia | exact Hall].
Qed.

(** X22.  [parse_target_csv] accounts for every line.  On a file without
    any line the header test raises.  Otherwise the function returns:
    with an [email] column, each line yields either one target or one
    error message; without it, no target and a single message.  Every
    target returned carries an address that matches the address pattern
    and has no white space around it (so no line break after it), and its
    blank optional fields are [None], never the empty string. *)
Theorem parse_target_csv_accounts (reader : CsvReader) :
  (fieldnames reader = None -> parse_target_csv reader = None)
  /\ forall names,
       fieldnames reader = Some names ->
       exists targets errors,
         parse_target_csv reader = Some (targets, errors)
         /\ (In "email" names ->
             (List.length targets + List.length errors)%nat
             = List.length (csv_rows reader))
         /\ (~ In "email" names ->
             targets = [] /\ errors = ["Missing required headers: email"])
         /\ Forall (fun data =>
                      validate_email (td_email data) = true
                      /\ Text.strip (td_email data) = td_email data
                      /\ td_first_name data <> Some ""
                      /\ td_last_name data <> Some ""
                      /\ td_department data <> Some "")
                   targets.
Proof.
  unfold parse_target_csv. split; [now intros ->|].
  intros names ->.
  destruct (existsb (String.eqb "email") names) eqn:Hhas; cbn [negb].
  - destruct (parse_rows_accounts 2 (csv_rows reader)) as [Hlen Hall].
    destruct (parse_rows 2 (csv_rows reader)) as [targets errors].
    exists targets, errors. cbn [fst snd] in *.
    split; [reflexivity|]. split; [now intros _|]. split; [|exact Hall].
    intros Hno. exfalso. apply Hno.
    apply existsb_exists in Hhas as (x & Hx & Heq).
    apply String.eqb_eq in Heq. now subst x.
  - exists [], ["Missing required headers: email"].
    split; [reflexivity|]. split; [|split; [now intros _ | constructor]].
    intros Hin. exfalso.
    assert (existsb (String.eqb "email") names = true) as Hex.
    { apply existsb_exists. exists "email". split; [exact Hin|].
      apply String.eqb_refl. }
    congruence.
Qed.

Lemma parse_target_csv_accounts_witness :
  fieldnames Sample4.broken_csv = Some ["email"; "first_name"]
  /\ exists targets errors,
       parse_target_csv Sample4.broken_csv = Some (targets, errors)
       /\ (List.length targets + List.length errors)%nat = 3%nat.
Proof.
  split; [reflexivity|].
  destruct (proj2 (parse_target_csv_accounts Sample4.broken_csv) _ eq_refl)
    as (targets & errors & Hparse & Hlen & _).
  exists targets, errors. split; [exact Hparse|].
  apply Hlen. now left.
Defined.

(* ================================================================== *)
(** * A campaign is dispatched at most once *)
(* ================================================================== *)

Section DispatchOnce.
Variable cfg : Config.

(** A request either leaves the queue alone or appends the campaign it
    names, which was a draft and is active afterwards. *)
Lemma perform_queue (act : CampaignAction) (id : Z) (req : Request) (a : App) :
  queued (fst (perform cfg act id req a)) = queued a
  \/ (queued (fst (perform cfg act id req a)) = (queued a ++ [id])%list
      /\ (exists c, get_campaign id (app_db a) = Some c /\ c_status c = Draft)
      /\ exists c', get_campaign id (app_db (fst (perform cfg act id req a)))
                    = Some c' /\ c_status c' = Active).
Proof.
  destruct act; unfold perform, send_campaign, pause_campaign,
    complete_campaign, delete_campaign;
    (destruct (current_user req) as [[uid is_admin]|]; [|now left]);
    (destruct (get_campaign id (app_db a)) as [campaign|] eqn:Hcamp;
     [|now left]);
    (destruct (negb is_admin && negb (created_by campaign =? uid));
     [now left|]).
  - destruct (campaign_status_eqb (c_status campaign) Draft) eqn:Hs;
      cbn [negb]; [|now left].
    apply campaign_status_eqb_eq in Hs.
    destruct (_ =? 0)%nat; [now left|].
    destruct (CAMPAIGN_CONSENT_REQUIRED cfg && negb (consent_verified campaign));
      [now left|].
    pose proof (get_campaign_id _ _ _ Hcamp) as Hid.
    pose proof (get_campaign_activated id (now req) (app_db a) campaign Hcamp)
      as Hact.
    unfold queue_campaign_emails. destruct thread_starts; cbn [fst queued flash].
    + right. rewrite Hid. split; [reflexivity|]. split; [eauto|].
      exists (activated (now req) campaign). split; [exact Hact | reflexivity].
    + now left.
  - destruct (negb (campaign_status_eqb (c_status campaign) Active)); now left.
  - destruct (negb (campaign_status_eqb (c_status campaign) Active
                    || campaign_status_eqb (c_status campaign) Paused));
      now left.
  - destruct (campaign_status_eqb (c_status campaign) Active); now left.
Qed.

(** No request turns a campaign that is not a draft into a draft. *)
Lemma perform_keeps_started (act : CampaignAction) (id' : Z) (req : Request)
    (a : App) (id : Z) :
  campaign_keys_unique (app_db a) ->
  (forall c, get_campaign id (app_db a) = Some c -> c_status c <> Draft) ->
  forall c', get_campaign id (app_db (fst (perform cfg act id' req a))) = Some c' ->
             c_status c' <> Draft.
Proof.
  intros Hnd Hstarted c' Hc'.
  destruct (perform_forward cfg act id' req a Hnd) as [Hfwd _].
  apply get_campaign_in in Hc' as [Hin' Hid'].
  destruct (Hfwd c' Hin') as (c0 & Hin0 & Hid0 & Hrank).
  assert (Hget : get_campaign id (app_db a) = Some c0).
  { unfold get_campaign.
    destruct (find (fun c => c_id c =? id) (campaigns (app_db a)))
      as [c1|] eqn:Hfind.
    - apply find_some in Hfind as [Hin1 Hid1]. apply Z.eqb_eq in Hid1.
      f_equal. apply (unique_campaign _ _ _ Hnd Hin1 Hin0). congruence.
    - apply (find_none _ _ Hfind) in Hin0. apply Z.eqb_neq in Hin0.
      congruence. }
  specialize (Hstarted c0 Hget).
  destruct (c_status c0), (c_status c'); simpl in Hrank; try congruence; lia.
Qed.

Lemma dispatch_once_from (acts : list (CampaignAction * Z * Request)) (a : App)
    (id : Z) :
  campaign_keys_unique (app_db a) ->
  ((forall c, get_campaign id (app_db a) = Some c -> c_status c <> Draft) ->
   times_queued id (perform_all cfg acts a) = times_queued id a)
  /\ (times_queued id (perform_all cfg acts a) <= times_queued id a + 1)%nat.
Proof.
  unfold perform_all. revert a.
  induction acts as [|[[act id'] req] acts IH]; intros a Hnd;
    cbn [fold_left fst snd]; [split; [reflexivity | lia]|].
  destruct (perform_forward cfg act id' req a Hnd) as [_ Hnd1].
  destruct (IH _ Hnd1) as [IHsame IHle].
  pose proof (perform_keeps_started act id' req a id Hnd) as Hkeep.
  unfold times_queued in *.
  destruct (perform_queue act id' req a)
    as [Hq|(Hq & (c & Hc & Hdraft) & (c' & Hc' & Hactive))].
  - rewrite <- Hq. split; [|exact IHle].
    intros Hstarted. apply IHsame. now apply Hkeep.
  - destruct (Z.eq_dec id' id) as [->|Hne].
    + split.
      * intros Hstarted. specialize (Hstarted c Hc). contradiction.
      * rewrite IHsame.
        -- rewrite Hq, count_occ_app. cbn [count_occ].
           destruct (Z.eq_dec id id); [lia | contradiction].
        -- intros c1 Hc1. rewrite Hc' in Hc1. injection Hc1 as <-.
           rewrite Hactive. discriminate.
    + assert (Hsame : count_occ Z.eq_dec
                        (queued (fst (perform cfg act id' req a))) id
                      = count_occ Z.eq_dec (queued a) id).
      { rewrite Hq, count_occ_app. cbn [count_occ].
        destruct (Z.eq_dec id' id); [contradiction | lia]. }
      rewrite <- Hsame. split; [|exact IHle].
      intros Hstarted. apply IHsame. now apply Hkeep.
Qed.

(** X23.  A campaign is dispatched at most once.  Over any sequence of
    send, pause, complete and delete requests, the dispatch of a campaign
    is queued at most one more time; and never again for a campaign that
    is stored with a status other than draft, or that is not stored at
    all: nothing resumes a paused campaign or sends to targets that were
    added after the first send. *)
Theorem dispatched_at_most_once (acts : list (CampaignAction * Z * Request))
    (a : App) (id : Z) :
  campaign_keys_unique (app_db a) ->
  (times_queued id (perform_all cfg acts a) <= times_queued id a + 1)%nat
  /\ (forall c, get_campaign id (app_db a) = Some c -> c_status c <> Draft ->
                times_queued id (perform_all cfg acts a) = times_queued id a)
  /\ (get_campaign id (app_db a) = None ->
      times_queued id (perform_all cfg acts a) = times_queued id a).
Proof.
  intros Hnd. destruct (dispatch_once_from acts a id Hnd) as [Hsame Hle].
  split; [exact Hle|]. split.
  - intros c Hc Hstatus. apply Hsame. intros c1 Hc1. congruence.
  - intros Hnone. apply Hsame. intros c1 Hc1. congruence.
Qed.

End DispatchOnce.

Lemma dispatched_at_most_once_witness :
  campaign_keys_unique Sample3.two_campaigns
  /\ (times_queued 1 (perform_all Sample.config Sample3.session
                        (Sample.app Sample3.two_campaigns)) <= 0 + 1)%nat.
Proof.
  assert (Hnd : campaign_keys_unique Sample3.two_campaigns).
  { unfold campaign_keys_unique. simpl.
    repeat constructor; simpl; intuition discriminate. }
  split; [exact Hnd|].
  exact (proj1 (dispatched_at_most_once Sample.config Sample3.session
                  (Sample.app Sample3.two_campaigns) 1 Hnd)).
Defined.

(* ================================================================== *)
(** * The budget of the rate limiter *)
(* ================================================================== *)

Lemma int_digits_uint (d : Decimal.uint) (acc : Z) :
  Py.int_digits acc true (NilEmpty.string_of_uint d) = Some (uint_value d acc).
Proof.
  revert acc. induction d; intros acc; cbn [NilEmpty.string_of_uint uint_value];
    try reflexivity;
    cbn [Py.int_digits];
    match goal with
    | |- context [Py.digit_value ?c] =>
        let v := eval vm_compute in (Py.digit_value c) in
        change (Py.digit_value c) with v
    end;
    cbv iota; rewrite IHd; do 2 f_equal; lia.
Qed.

Lemma uint_value_acc (d : Decimal.uint) (acc : positive) :
  uint_value d (Zpos acc) = Zpos (Pos.of_uint_acc d acc).
Proof.
  revert acc. induction d; intros acc; cbn [uint_value Pos.of_uint_acc];
    try reflexivity;
    match goal with
    | |- uint_value _ ?z = _ =>
        match goal with
        | |- _ = Zpos (Pos.of_uint_acc _ ?p) =>
            replace z with (Zpos p) by lia; apply IHd
        end
    end.
Qed.

Lemma uint_value_zero (d : Decimal.uint) :
  uint_value d 0 = Z.of_N (Pos.of_uint d).
Proof.
  induction d; cbn [uint_value Pos.of_uint]; try reflexivity;
    try (exact IHd);
    match goal with
    | |- uint_value _ ?z = _ => change z with (Zpos (Z.to_pos z))
    end; now rewrite uint_value_acc.
Qed.

Lemma all_chars_rev (p : ascii -> bool) (acc s : string) :
  Text.all_chars p (Py.rev_string acc s)
  = Text.all_chars p s && Text.all_chars p acc.
Proof.
  revert acc. induction s as [|c s IH]; intros acc; [reflexivity|].
  cbn [Py.rev_string Text.all_chars]. rewrite IH. cbn [Text.all_chars].
  now rewrite andb_assoc, (andb_comm (Text.all_chars p s) (p c)).
Qed.

Lemma py_lstrip_fixed (s : string) :
  Text.all_chars (fun c => negb (Py.is_space c)) s = true -> Py.lstrip s = s.
Proof.
  destruct s as [|c s]; [reflexivity|]. cbn [Text.all_chars Py.lstrip].
  intros Hall. apply andb_true_iff in Hall as [Hc _].
  apply negb_true_iff in Hc. now rewrite Hc.
Qed.

Lemma py_strip_fixed (s : string) :
  Text.all_chars (fun c => negb (Py.is_space c)) s = true -> Py.strip s = s.
Proof.
  intros Hall. unfold Py.strip. rewrite (py_lstrip_fixed s Hall).
  rewrite py_lstrip_fixed; [apply rev_string_involutive|].
  now rewrite all_chars_rev, Hall.
Qed.

Lemma digits_no_space (d : Decimal.uint) :
  Text.all_chars (fun c => negb (Py.is_space c)) (NilEmpty.string_of_uint d)
  = true.
Proof.
  induction d; cbn [NilEmpty.string_of_uint Text.all_chars];
    [reflexivity | ..]; rewrite IHd; reflexivity.
Qed.

(** [int(str(n))] gives [n] back. *)
Lemma int_of_str (n : Z) : 0 <= n -> Py.int (Py.str_of_int n) = Some n.
Proof.
  intros Hn. destruct n as [|p|p]; [reflexivity | | lia].
  unfold Py.str_of_int, Py.int.
  change (NilEmpty.string_of_int (Z.to_int (Zpos p)))
    with (NilEmpty.string_of_uint (Pos.to_uint p)).
  rewrite (py_strip_fixed _ (digits_no_space _)).
  pose proof (DecimalPos.Unsigned.of_to p) as Hback.
  pose proof (int_digits_uint (Pos.to_uint p) 0) as Hdigits.
  rewrite uint_value_zero, Hback in Hdigits. cbn [Z.of_N] in Hdigits.
  destruct (Pos.to_uint p); cbn [NilEmpty.string_of_uint] in *;
    [discriminate Hback | ..]; exact Hdigits.
Qed.

Lemma str_of_int_truthy (n : Z) : 0 <= n -> Py.truthy (Py.str_of_int n) = true.
Proof.
  intros Hn. pose proof (int_of_str n Hn) as Hint.
  destruct (Py.str_of_int n); [discriminate Hint | reflexivity].
Qed.

Lemma mem_lookup_store (key value : string) (ex : option Z) (r : MemRedis) :
  mem_lookup key (mem_store key value ex r) = Some value.
Proof.
  unfold mem_lookup, mem_store. cbn [entries find fst].
  now rewrite String.eqb_refl.
Qed.

(** A call that finds the counter at [j]. *)
Lemma rate_limit_check_counting (identifier : string) (limit window j : Z)
    (r : MemRedis) :
  reachable r = true ->
  mem_lookup ("rate_limit:" ++ identifier) r = Some (Py.str_of_int j) ->
  1 <= j ->
  exists r',
    rate_limit_check identifier limit window r = (j <? limit, r')
    /\ reachable r' = true
    /\ mem_lookup ("rate_limit:" ++ identifier) r'
       = Some (Py.str_of_int (if j <? limit then j + 1 else j)).
Proof.
  intros Hup Hcount Hj.
  assert (Hint : Py.int (Py.str_of_int j) = Some j) by (apply int_of_str; lia).
  assert (Htruthy : Py.truthy (Py.str_of_int j) = true)
    by (apply str_of_int_truthy; lia).
  unfold rate_limit_check, rate_limit_try, bind, ret.
  cbn [redis_from_url r_get r_incr r_set MemRedisClient]. unfold ret.
  rewrite Hup, Hcount. cbn [Py.truthy_opt Py.or_else].
  rewrite Htruthy, Hint.
  rewrite (Z.ltb_antisym limit j).
  destruct (limit <=? j); cbn [negb].
  - exists r. auto.
  - rewrite Hup, Hcount, Hint.
    eexists. split; [reflexivity|]. split; [exact Hup|].
    apply mem_lookup_store.
Qed.

Lemma rate_limit_check_first (identifier : string) (limit window : Z)
    (r : MemRedis) :
  reachable r = true ->
  mem_lookup ("rate_limit:" ++ identifier) r = None ->
  exists r',
    rate_limit_check identifier limit window r = (true, r')
    /\ reachable r' = true
    /\ mem_lookup ("rate_limit:" ++ identifier) r' = Some (Py.str_of_int 1).
Proof.
  intros Hup Hnone.
  unfold rate_limit_check, rate_limit_try, bind, ret.
  cbn [redis_from_url r_get r_incr r_set MemRedisClient]. unfold ret.
  rewrite Hup, Hnone. cbn [Py.truthy_opt]. rewrite Hup.
  eexists. split; [reflexivity|]. split; [exact Hup|].
  apply mem_lookup_store.
Qed.

Lemma repeated_checks_from (n : nat) (identifier : string)
    (limit window j : Z) (r : MemRedis) :
  reachable r = true ->
  mem_lookup ("rate_limit:" ++ identifier) r = Some (Py.str_of_int j) ->
  1 <= j ->
  fst (repeated_checks n identifier limit window r)
  = map (fun k => j + Z.of_nat k <? limit) (seq 0 n).
Proof.
  revert j r. induction n as [|n IH]; intros j r Hup Hcount Hj; [reflexivity|].
  cbn [repeated_checks].
  destruct (rate_limit_check_counting identifier limit window j r Hup Hcount Hj)
    as (r' & -> & Hup' & Hcount').
  specialize (IH _ r' Hup' Hcount').
  destruct (repeated_checks n identifier limit window r') as [oks r2].
  cbn [fst] in *. rewrite IH by (destruct (j <? limit); lia).
  cbn [seq map]. rewrite <- seq_shift, map_map.
  f_equal; [f_equal; lia|].
  apply map_ext. intros k.
  destruct (j <? limit) eqn:Hlt.
  - f_equal. lia.
  - apply Z.ltb_ge in Hlt.
    transitivity false; [apply Z.ltb_ge | symmetry; apply Z.ltb_ge]; lia.
Qed.

(** X24.  The budget of the limiter.  With a reachable Redis whose counter
    for the identifier is not set, of any number of calls made in a row
    (before the counter expires) the first [limit] are admitted and all
    later ones refused; the first call of a window is admitted even when
    the limit is zero or negative. *)
Theorem limiter_admits_budget (n : nat) (identifier : string)
    (limit window : Z) (r : MemRedis) :
  reachable r = true ->
  mem_lookup ("rate_limit:" ++ identifier) r = None ->
  fst (repeated_checks n identifier limit window r)
  = map (fun k => Z.of_nat k <? Z.max 1 limit) (seq 0 n).
Proof.
  intros Hup Hnone. destruct n as [|n]; [reflexivity|].
  cbn [repeated_checks].
  destruct (rate_limit_check_first identifier limit window r Hup Hnone)
    as (r' & -> & Hup' & Hcount').
  pose proof (repeated_checks_from n identifier limit window 1 r' Hup' Hcount')
    as Hrest.
  destruct (repeated_checks n identifier limit window r') as [oks r2].
  cbn [fst] in *. rewrite Hrest by lia.
  cbn [seq map]. rewrite <- seq_shift, map_map.
  f_equal; [symmetry; apply Z.ltb_lt; lia|].
  apply map_ext. intros k.
  destruct (1 + Z.of_nat k <? limit) eqn:Hlt.
  - apply Z.ltb_lt in Hlt. symmetry. apply Z.ltb_lt. lia.
  - apply Z.ltb_ge in Hlt. symmetry. apply Z.ltb_ge. lia.
Qed.

Lemma limiter_admits_budget_witness :
  reachable Sample.redis_up = true
  /\ mem_lookup ("rate_limit:" ++ "submit_203.0.113.7") Sample.redis_up = None
  /\ fst (repeated_checks 12 "submit_203.0.113.7" 10 300 Sample.redis_up)
     = [true; true; true; true; true; true; true; true; true; true;
        false; false].
Proof.
  split; [reflexivity|]. split; [reflexivity|].
  exact (limiter_admits_budget 12 "submit_203.0.113.7" 10 300 Sample.redis_up
           eq_refl eq_refl).
Defined.

(* ================================================================== *)
(** * The training banner *)
(* ================================================================== *)

Lemma delivers_with_banner_refl (st st' : Run) :
  delivered st' = delivered st -> delivers_with_banner st st'.
Proof.
  intros Heq. exists []. rewrite app_nil_r. split; [exact Heq | constructor].
Qed.

Lemma delivers_with_banner_trans (st1 st2 st3 : Run) :
  delivers_with_banner st1 st2 -> delivers_with_banner st2 st3 ->
  delivers_with_banner st1 st3.
Proof.
  intros (new1 & H1 & Hb1) (new2 & H2 & Hb2). exists (new1 ++ new2)%list.
  split; [now rewrite H2, H1, app_assoc | now apply Forall_app].
Qed.

Section Banner.
Variable cfg : Config.
Variable flask_mail_send : Message -> option string.
Variable smtp_send : Message -> option string.

Lemma send_email_flask_mail_banner (m : Message) (st : Run) :
  banner_first m ->
  delivers_with_banner st (snd (send_email_flask_mail flask_mail_send smtp_send m st)).
Proof.
  intros Hm. unfold send_email_flask_mail, send_email_direct_smtp.
  destruct (flask_mail_send m); [destruct (smtp_send m)|]; cbn [snd];
    try (now apply delivers_with_banner_refl);
    (exists [m]; split; [reflexivity | now constructor]).
Qed.

Lemma send_email_to_target_banner (campaign_target : CampaignTarget) (st : Run) :
  match send_email_to_target cfg flask_mail_send smtp_send campaign_target st with
  | Returned _ st' | Raised _ st' => delivers_with_banner st st'
  end.
Proof.
  unfold send_email_to_target.
  destruct (get_target (target_id campaign_target) (run_db st)) as [target|];
    [|now apply delivers_with_banner_refl].
  destruct (sender_campaign (sender st)) as [campaign|];
    [|now apply delivers_with_banner_refl].
  destruct (get_template (template_id campaign) (run_db st)) as [template|];
    [|now apply delivers_with_banner_refl].
  match goal with
  | |- context [send_email_flask_mail _ _ ?m st] =>
      pose proof (send_email_flask_mail_banner m st) as Hsend;
      destruct (send_email_flask_mail flask_mail_send smtp_send m st)
        as [success st1]
  end.
  cbn [snd] in Hsend.
  assert (Hst1 : delivers_with_banner st st1).
  { apply Hsend. unfold banner_first, add_security_watermark. cbn [msg_html].
    apply startswith_append. }
  destruct success; [|exact Hst1].
  eapply delivers_with_banner_trans; [exact Hst1|].
  now apply delivers_with_banner_refl.
Qed.

Lemma send_one_banner (campaign_target : CampaignTarget) (st : Run) (sc ec : Z) :
  delivers_with_banner st
    (fst (send_one cfg flask_mail_send smtp_send campaign_target (st, (sc, ec)))).
Proof.
  rewrite send_one_unfold. cbn zeta.
  destruct (before_send st) as (_ & Hdel & _).
  set (st1 := if fst (check_rate_limit st) then snd (check_rate_limit st)
              else sleep 60 (snd (check_rate_limit st))) in *.
  pose proof (send_email_to_target_banner campaign_target st1) as Hsend.
  eapply delivers_with_banner_trans;
    [apply delivers_with_banner_refl; exact Hdel|].
  destruct (send_email_to_target cfg flask_mail_send smtp_send
              campaign_target st1) as [[|] st2|e st2]; cbn [fst];
    (eapply delivers_with_banner_trans; [exact Hsend|]);
    now apply delivers_with_banner_refl.
Qed.

Lemma send_loop_banner (pending : list CampaignTarget) :
  forall st sc ec,
    delivers_with_banner st
      (fst (fold_left
              (fun acc ct => send_one cfg flask_mail_send smtp_send ct acc)
              pending (st, (sc, ec)))).
Proof.
  induction pending as [|ct pending IH]; intros st sc ec; cbn [fold_left].
  - now apply delivers_with_banner_refl.
  - pose proof (send_one_banner ct st sc ec) as Hone.
    destruct (send_one cfg flask_mail_send smtp_send ct (st, (sc, ec)))
      as [st1 [sc1 ec1]].
    cbn [fst] in Hone.
    eapply delivers_with_banner_trans; [exact Hone | apply IH].
Qed.

(** X25.  No mail without the banner.  Whatever the template, the target
    data and the behaviour of the mail transports, every message that a
    run of [send_campaign_emails] hands to a transport that accepts it has
    a body that opens with the security-training banner; the deliveries
    made before the run are kept. *)
Theorem every_mail_carries_banner (cid : Z) (req : Request) (st : Run) :
  exists new,
    delivered (snd (send_campaign_emails cfg flask_mail_send smtp_send cid req st))
    = (delivered st ++ new)%list
    /\ Forall (fun m => Py.startswith watermark (msg_html m) = true) new.
Proof.
  change (delivers_with_banner st
            (snd (send_campaign_emails cfg flask_mail_send smtp_send cid req st))).
  unfold send_campaign_emails.
  destruct (get_campaign cid (run_db st)) as [campaign|];
    [|now apply delivers_with_banner_refl].
  cbv zeta. unfold send_loop.
  match goal with
  | |- context [fold_left _ ?pending (?st0, (0, 0))] =>
      pose proof (send_loop_banner pending st0 0 0) as Hloop;
      destruct (fold_left
                  (fun acc ct => send_one cfg flask_mail_send smtp_send ct acc)
                  pending (st0, (0, 0))) as [st1 [sc ec]]
  end.
  cbn [fst snd] in *.
  eapply delivers_with_banner_trans; [exact Hloop|].
  apply delivers_with_banner_refl.
  destruct (sc + ec =? _); [destruct (_ =? 0)%nat|]; reflexivity.
Qed.

End Banner.

(* ================================================================== *)
(** * The shape of a token *)
(* ================================================================== *)

Lemma hex_digits_length (width : nat) (n : Z) (acc : string) :
  String.length (Tokens.hex_digits width n acc)
  = (width + String.length acc)%nat.
Proof.
  revert n acc. induction width as [|k IH]; intros n acc; [reflexivity|].
  cbn [Tokens.hex_digits]. rewrite IH. cbn [String.length]. lia.
Qed.

Lemma nibble_range (n : Z) : 0 <= Z.land n 15 < 16.
Proof.
  change 15 with (Z.ones 4). rewrite Z.land_ones by lia.
  apply Z.mod_pos_bound. reflexivity.
Qed.

Lemma hex_digit_lower_hex (m : Z) :
  0 <= m < 16 -> is_lower_hex (Tokens.hex_digit m) = true.
Proof.
  intros Hm.
  assert (Hcases : m = 0 \/ m = 1 \/ m = 2 \/ m = 3 \/ m = 4 \/ m = 5 \/ m = 6
                   \/ m = 7 \/ m = 8 \/ m = 9 \/ m = 10 \/ m = 11 \/ m = 12
                   \/ m = 13 \/ m = 14 \/ m = 15) by lia.
  repeat (destruct Hcases as [->|Hcases]; [reflexivity|]).
  now subst m.
Qed.

Lemma hex_digits_lower_hex (width : nat) (n : Z) (acc : string) :
  Text.all_chars is_lower_hex acc = true ->
  Text.all_chars is_lower_hex (Tokens.hex_digits width n acc) = true.
Proof.
  revert n acc. induction width as [|k IH]; intros n acc Hacc; [exact Hacc|].
  cbn [Tokens.hex_digits]. apply IH. cbn [Text.all_chars].
  now rewrite (hex_digit_lower_hex _ (nibble_range n)), Hacc.
Qed.

(** Behind the [width] digits comes the accumulator. *)
Lemma hex_digits_get_acc (width : nat) (n : Z) (acc : string) (j : nat) :
  String.get (width + j) (Tokens.hex_digits width n acc) = String.get j acc.
Proof.
  revert n acc j. induction width as [|k IH]; intros n acc j; [reflexivity|].
  cbn [Tokens.hex_digits].
  replace (S k + j)%nat with (k + S j)%nat by lia.
  now rewrite IH.
Qed.

(** The digit at position [i] from the left is the nibble of weight
    [width - 1 - i]. *)
Lemma hex_digits_get (width : nat) (n : Z) (acc : string) (i : nat) :
  (i < width)%nat ->
  String.get i (Tokens.hex_digits width n acc)
  = Some (Tokens.hex_digit
            (Z.land (Z.shiftr n (4 * Z.of_nat (width - 1 - i))) 15)).
Proof.
  revert n acc i. induction width as [|k IH]; intros n acc i Hi; [lia|].
  cbn [Tokens.hex_digits].
  destruct (Nat.eq_dec i k) as [->|Hne].
  - replace k with (k + 0)%nat at 1 by lia. rewrite hex_digits_get_acc.
    replace (S k - 1 - k)%nat with 0%nat by lia.
    cbn [String.get]. now rewrite Z.shiftr_0_r.
  - rewrite IH by lia. rewrite Z.shiftr_shiftr by lia.
    do 3 f_equal. f_equal. lia.
Qed.

Lemma version_nibble (rnd : Z) :
  Z.land (Z.shiftr (Tokens.uuid4_int rnd) 76) 15 = 4.
Proof.
  unfold Tokens.uuid4_int. apply Z.bits_inj'. intros k Hk.
  rewrite Z.land_spec, Z.shiftr_spec by assumption.
  destruct (Z.ltb_spec k 4) as [Hlt|Hge].
  - assert (Hcases : k = 0 \/ k = 1 \/ k = 2 \/ k = 3) by lia.
    destruct Hcases as [->|[->|[->| ->]]]; cbn [Z.add Pos.add Pos.succ];
      repeat (rewrite ?Z.lor_spec, ?Z.land_spec, ?Z.lnot_spec by lia);
      match goal with
      | |- context [Z.testbit rnd ?i] => destruct (Z.testbit rnd i)
      end; reflexivity.
  - replace (Z.testbit 15 k) with false; [|symmetry].
    + rewrite andb_false_r. symmetry.
      apply Z.bits_above_log2; [lia|]. change (Z.log2 4) with 2. lia.
    + apply Z.bits_above_log2; [lia|]. change (Z.log2 15) with 3. lia.
Qed.

Lemma variant_nibble (rnd : Z) :
  8 <= Z.land (Z.shiftr (Tokens.uuid4_int rnd) 60) 15 < 12.
Proof.
  pose proof (nibble_range (Z.shiftr (Tokens.uuid4_int rnd) 60)) as Hrange.
  assert (Hhigh : Z.testbit (Z.land (Z.shiftr (Tokens.uuid4_int rnd) 60) 15) 3
                  = true).
  { unfold Tokens.uuid4_int. rewrite Z.land_spec, Z.shiftr_spec by lia.
    cbn [Z.add Pos.add Pos.succ].
    repeat (rewrite ?Z.lor_spec, ?Z.land_spec, ?Z.lnot_spec by lia).
    destruct (Z.testbit rnd 63); reflexivity. }
  assert (Hlow : Z.testbit (Z.land (Z.shiftr (Tokens.uuid4_int rnd) 60) 15) 2
                 = false).
  { unfold Tokens.uuid4_int. rewrite Z.land_spec, Z.shiftr_spec by lia.
    cbn [Z.add Pos.add Pos.succ].
    repeat (rewrite ?Z.lor_spec, ?Z.land_spec, ?Z.lnot_spec by lia).
    destruct (Z.testbit rnd 62); reflexivity. }
  set (v := Z.land (Z.shiftr (Tokens.uuid4_int rnd) 60) 15) in *.
  assert (Hcases : v = 0 \/ v = 1 \/ v = 2 \/ v = 3 \/ v = 4 \/ v = 5 \/ v = 6
                   \/ v = 7 \/ v = 8 \/ v = 9 \/ v = 10 \/ v = 11 \/ v = 12
                   \/ v = 13 \/ v = 14 \/ v = 15) by lia.
  repeat (destruct Hcases as [Hv|Hcases];
          [rewrite Hv in *; first [discriminate Hhigh | discriminate Hlow | lia]|]).
  rewrite Hcases in *. discriminate Hlow.
Qed.

(** X26.  The shape of a token.  A campaign target created without a
    token gets, whatever the random draw, a token of exactly 32
    characters, all of them digits or letters from a to f, with the digit
    4 at position 12 and one of 8, 9, a, b at position 16: it fits the
    column of 64 characters and contains no slash or other character
    that would break the tracking URLs. *)
Theorem generated_token_shape (id cid tid : Z) (st : Status) (rnd : Z) :
  let token := unique_token (Tokens.new_campaign_target id cid tid st None rnd) in
  String.length token = 32%nat
  /\ Text.all_chars is_lower_hex token = true
  /\ String.get 12 token = Some "4"%char
  /\ exists v, String.get 16 token = Some v
               /\ (v = "8" \/ v = "9" \/ v = "a" \/ v = "b")%char.
Proof.
  cbv zeta. unfold Tokens.new_campaign_target. cbn [unique_token Py.truthy_opt].
  unfold Tokens.uuid4_hex, Tokens.hex32.
  split; [now rewrite hex_digits_length|].
  split; [now apply hex_digits_lower_hex|].
  split.
  - rewrite hex_digits_get by lia.
    change (4 * Z.of_nat (32 - 1 - 12)) with 76.
    now rewrite version_nibble.
  - rewrite hex_digits_get by lia.
    change (4 * Z.of_nat (32 - 1 - 16)) with 60.
    pose proof (variant_nibble rnd) as Hv.
    set (v := Z.land (Z.shiftr (Tokens.uuid4_int rnd) 60) 15) in *.
    eexists. split; [reflexivity|].
    assert (Hcases : v = 8 \/ v = 9 \/ v = 10 \/ v = 11) by lia.
    destruct Hcases as [->|[->|[->| ->]]]; auto.
Qed.
